(** * TMS backend: load lifecycle, settlements, invoices, fleet and lockout

    A shallow embedding of the controllers of the transportation-management
    backend (Express handlers over a Prisma store) and the properties of
    its specification about them.

    Conventions of the embedding:
    - the relational store is a record of tables, each table the list of
      its rows in insertion order; [create] appends a row, [update] and
      [updateMany] rewrite the rows matched by the [where] clause;
    - a handler is a function from the request (route parameters, body,
      authenticated user), the clock and the store to a response and the
      new store; an exception caught by the handler's [try]/[catch] and
      forwarded with [next(error)] is the response [NextError];
    - JavaScript numbers are IEEE-754 binary64 values ([PrimFloat.float]),
      with [+], [-], [*], [/] and [<] the operations of that type; a Prisma
      [Decimal] column is represented by the number the handler writes to
      it or reads from it with [Number]/[parseFloat];
    - timestamps ([Date]) are milliseconds since the epoch, in [Z]. *)

From Stdlib Require Import List String ZArith Bool Lia PrimFloat DecimalString.
Import ListNotations.

Local Open Scope string_scope.
Local Open Scope Z_scope.

Set Implicit Arguments.

(** ** JavaScript values *)

Module Js.

(** [Number.isNaN]/global [isNaN] on a number. *)
Definition isNaN (x : float) : bool := PrimFloat.is_nan x.

(** Truthiness of a number: everything but [0], [-0] and [NaN]. *)
Definition truthy (x : float) : bool :=
    negb (PrimFloat.eqb x 0%float || isNaN x).

(** [parseFloat] applied to a number: the number is printed and parsed
      back, which is the identity except that [-0] prints as ["0"]. *)
Definition parseFloat (x : float) : float :=
    if PrimFloat.eqb x 0%float then 0%float else x.

(** [a || b] on optional strings (an absent or empty string is falsy). *)
Definition orElse (a : option string) (b : option string) : option string :=
    match a with
    | Some "" | None => b
    | Some s => Some s
    end.

(** A non-negative integer in a template literal. *)
Definition ofNat (n : nat) : string :=
  NilEmpty.string_of_uint (Nat.to_uint n).

(** [Array.prototype.includes] on an array of strings. *)
Definition includes (l : list string) (x : string) : bool :=
    existsb (String.eqb x) l.

End Js.

(** ** Enumerations of the schema *)

(** Modelled from the spec: the [LoadStatus] enum of prisma/schema.prisma,
    which is not among the sources; its members are the states of the load
    lifecycle the specification lists, and they are the only values a
    [Load.status] column can hold. *)
Inductive LoadStatus : Set :=
  | DRAFT | PENDING_REVIEW | NEGOTIATING | RATE_APPROVED | SCHEDULED
  | ASSIGNED | ACCEPTED | EN_ROUTE_PICKUP | AT_PICKUP | LOADED
  | EN_ROUTE_DELIVERY | AT_DELIVERY | DELIVERED | POD_SUBMITTED
  | POD_PENDING | COMPLETED | CANCELLED.

Definition LoadStatus_eqb (a b : LoadStatus) : bool :=
  match a, b with
  | DRAFT, DRAFT | PENDING_REVIEW, PENDING_REVIEW | NEGOTIATING, NEGOTIATING
  | RATE_APPROVED, RATE_APPROVED | SCHEDULED, SCHEDULED | ASSIGNED, ASSIGNED
  | ACCEPTED, ACCEPTED | EN_ROUTE_PICKUP, EN_ROUTE_PICKUP
  | AT_PICKUP, AT_PICKUP | LOADED, LOADED
  | EN_ROUTE_DELIVERY, EN_ROUTE_DELIVERY | AT_DELIVERY, AT_DELIVERY
  | DELIVERED, DELIVERED | POD_SUBMITTED, POD_SUBMITTED
  | POD_PENDING, POD_PENDING | COMPLETED, COMPLETED
  | CANCELLED, CANCELLED => true
  | _, _ => false
  end.

(** The string a status is at run time (template literals, JSON). *)
Definition statusName (s : LoadStatus) : string :=
  match s with
  | DRAFT => "DRAFT" | PENDING_REVIEW => "PENDING_REVIEW"
  | NEGOTIATING => "NEGOTIATING" | RATE_APPROVED => "RATE_APPROVED"
  | SCHEDULED => "SCHEDULED" | ASSIGNED => "ASSIGNED"
  | ACCEPTED => "ACCEPTED" | EN_ROUTE_PICKUP => "EN_ROUTE_PICKUP"
  | AT_PICKUP => "AT_PICKUP" | LOADED => "LOADED"
  | EN_ROUTE_DELIVERY => "EN_ROUTE_DELIVERY" | AT_DELIVERY => "AT_DELIVERY"
  | DELIVERED => "DELIVERED" | POD_SUBMITTED => "POD_SUBMITTED"
  | POD_PENDING => "POD_PENDING" | COMPLETED => "COMPLETED"
  | CANCELLED => "CANCELLED"
  end.

Definition allStatuses : list LoadStatus :=
  [DRAFT; PENDING_REVIEW; NEGOTIATING; RATE_APPROVED; SCHEDULED; ASSIGNED;
   ACCEPTED; EN_ROUTE_PICKUP; AT_PICKUP; LOADED; EN_ROUTE_DELIVERY;
   AT_DELIVERY; DELIVERED; POD_SUBMITTED; POD_PENDING; COMPLETED; CANCELLED].

(** What Prisma makes of a string written to a [LoadStatus] column: the
    member of that name, or a validation error ([None]). *)
Definition parseStatus (s : string) : option LoadStatus :=
  find (fun st => String.eqb (statusName st) s) allStatuses.

Inductive UserType : Set := INTERNAL_USER | SHIPPER_USER | DRIVER.

Definition UserType_eqb (a b : UserType) : bool :=
  match a, b with
  | INTERNAL_USER, INTERNAL_USER | SHIPPER_USER, SHIPPER_USER
  | DRIVER, DRIVER => true
  | _, _ => false
  end.

Inductive NegotiationStatus : Set :=
  | NEG_PENDING | NEG_COUNTER_OFFERED | NEG_ACCEPTED | NEG_REJECTED.

Inductive Initiator : Set := BY_DISPATCHER | BY_SHIPPER.

Inductive SettlementStatus : Set :=
  | SET_PENDING | SET_APPROVED | SET_PAID | SET_DISPUTED.

Inductive InvoiceStatus : Set :=
  | INV_DRAFT | INV_SENT | INV_PAID | INV_CANCELLED | INV_OVERDUE.

(** [req.user], as the authentication middleware leaves it. *)
Record User : Set := mkUser { userId : string; userType : UserType }.

(** ** Responses *)

(** What a handler throws or lets escape into [next(error)];
    [RecordNotFound] is what [update] throws when its [where] matches no
    row. *)
Inductive Exn : Set :=
  | PrismaValidationError
  | RecordNotFound
  | InvalidDeductionAmount (amount : float)
  | InvalidFileType
  | UploadFailed.

(** [ApiResponse.success(res, data, message, statusCode = 200)],
    [ApiResponse.error(res, message, statusCode)] and [next(error)]; the
    [data] payload of a success is left out. *)
Inductive Response : Set :=
  | ApiSuccess (message : string) (statusCode : Z)
  | ApiError (message : string) (statusCode : Z)
  | NextError (error : Exn).

Definition isSuccess (r : Response) : bool :=
  match r with ApiSuccess _ _ => true | _ => false end.

(** ** Rows of the store

    One module per model, so that the columns keep the names they have in
    the handlers ([Load.status], [LoadAssignment.acceptedAt], ...).  Only the
    columns the modelled handlers read or write are kept; a nullable column
    is an [option]. *)

Module Load.
Record t : Set := mk {
    id : string;
    loadNumber : string;
    status : LoadStatus;
    shipperClientId : string;
    shipperRate : option float;
    driverPay : option float;
    pickupDate : Z;
    deliveryDate : Z;
    actualPickupTime : option Z;
    actualDeliveryTime : option Z;
    approvedNegotiationId : option string
  }.

Definition setStatus (s : LoadStatus) (l : t) : t :=
    mk (id l) (loadNumber l) s (shipperClientId l) (shipperRate l)
       (driverPay l) (pickupDate l) (deliveryDate l) (actualPickupTime l)
       (actualDeliveryTime l) (approvedNegotiationId l).

Definition setDriverPay (p : option float) (l : t) : t :=
    mk (id l) (loadNumber l) (status l) (shipperClientId l) (shipperRate l)
       p (pickupDate l) (deliveryDate l) (actualPickupTime l)
       (actualDeliveryTime l) (approvedNegotiationId l).

Definition setActualPickupTime (d : Z) (l : t) : t :=
    mk (id l) (loadNumber l) (status l) (shipperClientId l) (shipperRate l)
       (driverPay l) (pickupDate l) (deliveryDate l) (Some d)
       (actualDeliveryTime l) (approvedNegotiationId l).

Definition setActualDeliveryTime (d : Z) (l : t) : t :=
    mk (id l) (loadNumber l) (status l) (shipperClientId l) (shipperRate l)
       (driverPay l) (pickupDate l) (deliveryDate l) (actualPickupTime l)
       (Some d) (approvedNegotiationId l).

Definition setAgreedRate (rate : float) (negotiationId : string) (l : t) : t :=
    mk (id l) (loadNumber l) (status l) (shipperClientId l) (Some rate)
       (driverPay l) (pickupDate l) (deliveryDate l) (actualPickupTime l)
       (actualDeliveryTime l) (Some negotiationId).
End Load.

Module LoadStatusHistory.
Record t : Set := mk {
    loadId : string;
    fromStatus : LoadStatus;
    toStatus : LoadStatus;
    changedById : string;
    changedByType : UserType;
    notes : option string
  }.
End LoadStatusHistory.

Module LoadStatusEvent.
Record t : Set := mk {
    loadId : string;
    driverId : option string;
    status : LoadStatus;
    notes : option string;
    gpsLat : option float;
    gpsLng : option float
  }.
End LoadStatusEvent.

Module LoadNegotiation.
Record t : Set := mk {
    id : string;
    loadId : string;
    proposedRate : float;
    counterRate : option float;
    notes : option string;
    initiatedBy : Initiator;
    handledById : option string;
    status : NegotiationStatus;
    respondedAt : option Z
  }.

Definition resolve (s : NegotiationStatus) (now : Z) (n : option string)
      (r : t) : t :=
    mk (id r) (loadId r) (proposedRate r) (counterRate r) n (initiatedBy r)
       (handledById r) s (Some now).
End LoadNegotiation.

Module LoadAssignment.
Record t : Set := mk {
    id : string;
    loadId : string;
    driverId : string;
    assignedById : string;
    estimatedPickup : option Z;
    estimatedDelivery : option Z;
    notes : option string;
    acceptedAt : option Z;
    rejectedAt : option Z;
    rejectionReason : option string
  }.

Definition setAcceptedAt (d : Z) (a : t) : t :=
    mk (id a) (loadId a) (driverId a) (assignedById a) (estimatedPickup a)
       (estimatedDelivery a) (notes a) (Some d) (rejectedAt a)
       (rejectionReason a).

Definition setRejected (d : Z) (reason : option string) (a : t) : t :=
    mk (id a) (loadId a) (driverId a) (assignedById a) (estimatedPickup a)
       (estimatedDelivery a) (notes a) (acceptedAt a) (Some d) reason.
End LoadAssignment.

(** The credential and lockout columns the three principal tables share. *)
Module Account.
Record t : Set := mk {
    id : string;
    email : string;
    passwordHash : string;
    isActive : bool;
    failedLoginAttempts : Z;
    lockedUntil : option Z;
    lastLogin : option Z
  }.

(** [data: { failedLoginAttempts }] *)
Definition setFailed (n : Z) (a : t) : t :=
    mk (id a) (email a) (passwordHash a) (isActive a) n (lockedUntil a)
       (lastLogin a).

(** [data: { failedLoginAttempts, lockedUntil }] *)
Definition setFailedAndLock (n : Z) (until : Z) (a : t) : t :=
    mk (id a) (email a) (passwordHash a) (isActive a) n (Some until)
       (lastLogin a).

(** [data: { failedLoginAttempts: 0, lockedUntil: null, lastLogin }] *)
Definition reset (now : Z) (a : t) : t :=
    mk (id a) (email a) (passwordHash a) (isActive a) 0 None (Some now).
End Account.

Module InternalUser.
Record t : Set := mk { account : Account.t; role : string }.
Definition onAccount (f : Account.t -> Account.t) (u : t) : t :=
    mk (f (account u)) (role u).
End InternalUser.

Module ShipperUser.
Record t : Set := mk { account : Account.t; shipperClientId : string }.
Definition onAccount (f : Account.t -> Account.t) (u : t) : t :=
    mk (f (account u)) (shipperClientId u).
End ShipperUser.

Module Driver.
Record t : Set := mk {
    account : Account.t;
    firstName : string;
    lastName : string;
    isAvailable : bool
  }.
Definition id (d : t) : string := Account.id (account d).
Definition isActive (d : t) : bool := Account.isActive (account d).
Definition onAccount (f : Account.t -> Account.t) (d : t) : t :=
    mk (f (account d)) (firstName d) (lastName d) (isAvailable d).
End Driver.

Module ShipperClient.
Record t : Set := mk {
    id : string;
    isActiveStatus : bool;      (* status === 'ACTIVE' *)
    paymentTerms : option Z
  }.
End ShipperClient.

Module PodDocument.
Record t : Set := mk {
    id : string;
    loadId : string;
    driverId : string;
    signatureImage : string;
    recipientName : option string;
    recipientTitle : option string;
    gpsLat : float;
    gpsLng : float;
    capturedAt : Z;
    syncedAt : Z;
    notes : option string;
    verifiedAt : option Z;
    verifiedById : option string
  }.

Definition verify (now : Z) (by_ : string) (n : option string) (p : t) : t :=
    mk (id p) (loadId p) (driverId p) (signatureImage p) (recipientName p)
       (recipientTitle p) (gpsLat p) (gpsLng p) (capturedAt p) (syncedAt p)
       n (Some now) (Some by_).
End PodDocument.

Module PodPhoto.
Record t : Set := mk {
    podDocumentId : string;
    photoUrl : string;
    photoOrder : nat
  }.
End PodPhoto.

Module FileUpload.
Record t : Set := mk {
    uploadedById : string;
    uploadedByType : UserType;
    fileUrl : string;
    category : string;
    relatedEntityType : string;
    relatedEntityId : string
  }.
End FileUpload.

Module Vehicle.
Record t : Set := mk { id : string; unitNumber : string }.
End Vehicle.

Module VehicleAssignment.
Record t : Set := mk {
    id : string;
    vehicleId : string;
    driverId : string;
    notes : option string;
    isCurrentlyAssigned : bool;
    assignedAt : Z;
    unassignedAt : option Z
  }.

(** [data: { isCurrentlyAssigned: false, unassignedAt: new Date() }] *)
Definition retire (now : Z) (a : t) : t :=
    mk (id a) (vehicleId a) (driverId a) (notes a) false (assignedAt a)
       (Some now).
End VehicleAssignment.

Module DriverSettlement.
Record t : Set := mk {
    id : string;
    driverId : string;
    loadId : option string;
    settlementNumber : string;
    periodStart : Z;
    periodEnd : Z;
    grossAmount : float;
    totalDeductions : float;
    netAmount : float;
    status : SettlementStatus;
    notes : option string
  }.
End DriverSettlement.

Module SettlementDeduction.
Record t : Set := mk {
    settlementId : string;
    description : option string;
    amount : float;
    category : string
  }.
End SettlementDeduction.

Module ShipperInvoice.
Record t : Set := mk {
    id : string;
    shipperClientId : string;
    loadId : string;
    invoiceNumber : string;
    subtotal : float;
    taxAmount : float;
    total : float;
    status : InvoiceStatus;
    notes : option string;
    dueDate : Z
  }.

Definition setAmounts (sub tax tot : float) (n : option string) (i : t) : t :=
    mk (id i) (shipperClientId i) (loadId i) (invoiceNumber i) sub tax tot
       (status i) n (dueDate i).

Definition setNotes (n : option string) (i : t) : t :=
    mk (id i) (shipperClientId i) (loadId i) (invoiceNumber i) (subtotal i)
       (taxAmount i) (total i) (status i) n (dueDate i).
End ShipperInvoice.

Module InvoiceLineItem.
Record t : Set := mk {
    invoiceId : string;
    description : string;
    quantity : float;
    unitPrice : float;
    amount : float
  }.
End InvoiceLineItem.

Module Notification.
Record t : Set := mk {
    recipientId : string;
    recipientType : UserType;
    type : string;
    relatedEntityType : string;
    relatedEntityId : string
  }.
End Notification.

(** ** The store

    [prisma.<model>] is the table [<model>] of the record below. *)

Record DB : Set := mkDB {
  load : list Load.t;
  loadStatusHistory : list LoadStatusHistory.t;
  loadStatusEvent : list LoadStatusEvent.t;
  loadNegotiation : list LoadNegotiation.t;
  loadAssignment : list LoadAssignment.t;
  internalUser : list InternalUser.t;
  shipperUser : list ShipperUser.t;
  driver : list Driver.t;
  shipperClient : list ShipperClient.t;
  podDocument : list PodDocument.t;
  podPhoto : list PodPhoto.t;
  fileUpload : list FileUpload.t;
  vehicle : list Vehicle.t;
  vehicleAssignment : list VehicleAssignment.t;
  driverSettlement : list DriverSettlement.t;
  settlementDeduction : list SettlementDeduction.t;
  shipperInvoice : list ShipperInvoice.t;
  invoiceLineItem : list InvoiceLineItem.t;
  notification : list Notification.t
}.

Definition emptyDB : DB :=
  mkDB [] [] [] [] [] [] [] [] [] [] [] [] [] [] [] [] [] [] [].

(** Replacing one table, the others untouched. *)

Definition withLoad (rows : list Load.t) (db : DB) : DB :=
  mkDB rows (loadStatusHistory db) (loadStatusEvent db) (loadNegotiation db)
      (loadAssignment db) (internalUser db) (shipperUser db) (driver db)
      (shipperClient db) (podDocument db) (podPhoto db) (fileUpload db)
      (vehicle db) (vehicleAssignment db) (driverSettlement db)
      (settlementDeduction db) (shipperInvoice db) (invoiceLineItem db)
      (notification db).

Definition withLoadStatusHistory (rows : list LoadStatusHistory.t) (db : DB) : DB :=
  mkDB (load db) rows (loadStatusEvent db) (loadNegotiation db)
      (loadAssignment db) (internalUser db) (shipperUser db) (driver db)
      (shipperClient db) (podDocument db) (podPhoto db) (fileUpload db)
      (vehicle db) (vehicleAssignment db) (driverSettlement db)
      (settlementDeduction db) (shipperInvoice db) (invoiceLineItem db)
      (notification db).

Definition withLoadStatusEvent (rows : list LoadStatusEvent.t) (db : DB) : DB :=
  mkDB (load db) (loadStatusHistory db) rows (loadNegotiation db)
      (loadAssignment db) (internalUser db) (shipperUser db) (driver db)
      (shipperClient db) (podDocument db) (podPhoto db) (fileUpload db)
      (vehicle db) (vehicleAssignment db) (driverSettlement db)
      (settlementDeduction db) (shipperInvoice db) (invoiceLineItem db)
      (notification db).

Definition withLoadNegotiation (rows : list LoadNegotiation.t) (db : DB) : DB :=
  mkDB (load db) (loadStatusHistory db) (loadStatusEvent db) rows
      (loadAssignment db) (internalUser db) (shipperUser db) (driver db)
      (shipperClient db) (podDocument db) (podPhoto db) (fileUpload db)
      (vehicle db) (vehicleAssignment db) (driverSettlement db)
      (settlementDeduction db) (shipperInvoice db) (invoiceLineItem db)
      (notification db).

Definition withLoadAssignment (rows : list LoadAssignment.t) (db : DB) : DB :=
  mkDB (load db) (loadStatusHistory db) (loadStatusEvent db)
      (loadNegotiation db) rows (internalUser db) (shipperUser db)
      (driver db) (shipperClient db) (podDocument db) (podPhoto db)
      (fileUpload db) (vehicle db) (vehicleAssignment db)
      (driverSettlement db) (settlementDeduction db) (shipperInvoice db)
      (invoiceLineItem db) (notification db).

Definition withInternalUser (rows : list InternalUser.t) (db : DB) : DB :=
  mkDB (load db) (loadStatusHistory db) (loadStatusEvent db)
      (loadNegotiation db) (loadAssignment db) rows (shipperUser db)
      (driver db) (shipperClient db) (podDocument db) (podPhoto db)
      (fileUpload db) (vehicle db) (vehicleAssignment db)
      (driverSettlement db) (settlementDeduction db) (shipperInvoice db)
      (invoiceLineItem db) (notification db).

Definition withShipperUser (rows : list ShipperUser.t) (db : DB) : DB :=
  mkDB (load db) (loadStatusHistory db) (loadStatusEvent db)
      (loadNegotiation db) (loadAssignment db) (internalUser db) rows
      (driver db) (shipperClient db) (podDocument db) (podPhoto db)
      (fileUpload db) (vehicle db) (vehicleAssignment db)
      (driverSettlement db) (settlementDeduction db) (shipperInvoice db)
      (invoiceLineItem db) (notification db).

Definition withDriver (rows : list Driver.t) (db : DB) : DB :=
  mkDB (load db) (loadStatusHistory db) (loadStatusEvent db)
      (loadNegotiation db) (loadAssignment db) (internalUser db)
      (shipperUser db) rows (shipperClient db) (podDocument db)
      (podPhoto db) (fileUpload db) (vehicle db) (vehicleAssignment db)
      (driverSettlement db) (settlementDeduction db) (shipperInvoice db)
      (invoiceLineItem db) (notification db).

Definition withPodDocument (rows : list PodDocument.t) (db : DB) : DB :=
  mkDB (load db) (loadStatusHistory db) (loadStatusEvent db)
      (loadNegotiation db) (loadAssignment db) (internalUser db)
      (shipperUser db) (driver db) (shipperClient db) rows (podPhoto db)
      (fileUpload db) (vehicle db) (vehicleAssignment db)
      (driverSettlement db) (settlementDeduction db) (shipperInvoice db)
      (invoiceLineItem db) (notification db).

Definition withPodPhoto (rows : list PodPhoto.t) (db : DB) : DB :=
  mkDB (load db) (loadStatusHistory db) (loadStatusEvent db)
      (loadNegotiation db) (loadAssignment db) (internalUser db)
      (shipperUser db) (driver db) (shipperClient db) (podDocument db) rows
      (fileUpload db) (vehicle db) (vehicleAssignment db)
      (driverSettlement db) (settlementDeduction db) (shipperInvoice db)
      (invoiceLineItem db) (notification db).

Definition withFileUpload (rows : list FileUpload.t) (db : DB) : DB :=
  mkDB (load db) (loadStatusHistory db) (loadStatusEvent db)
      (loadNegotiation db) (loadAssignment db) (internalUser db)
      (shipperUser db) (driver db) (shipperClient db) (podDocument db)
      (podPhoto db) rows (vehicle db) (vehicleAssignment db)
      (driverSettlement db) (settlementDeduction db) (shipperInvoice db)
      (invoiceLineItem db) (notification db).

Definition withVehicleAssignment (rows : list VehicleAssignment.t) (db : DB) : DB :=
  mkDB (load db) (loadStatusHistory db) (loadStatusEvent db)
      (loadNegotiation db) (loadAssignment db) (internalUser db)
      (shipperUser db) (driver db) (shipperClient db) (podDocument db)
      (podPhoto db) (fileUpload db) (vehicle db) rows (driverSettlement db)
      (settlementDeduction db) (shipperInvoice db) (invoiceLineItem db)
      (notification db).

Definition withDriverSettlement (rows : list DriverSettlement.t) (db : DB) : DB :=
  mkDB (load db) (loadStatusHistory db) (loadStatusEvent db)
      (loadNegotiation db) (loadAssignment db) (internalUser db)
      (shipperUser db) (driver db) (shipperClient db) (podDocument db)
      (podPhoto db) (fileUpload db) (vehicle db) (vehicleAssignment db) rows
      (settlementDeduction db) (shipperInvoice db) (invoiceLineItem db)
      (notification db).

Definition withSettlementDeduction (rows : list SettlementDeduction.t) (db : DB) : DB :=
  mkDB (load db) (loadStatusHistory db) (loadStatusEvent db)
      (loadNegotiation db) (loadAssignment db) (internalUser db)
      (shipperUser db) (driver db) (shipperClient db) (podDocument db)
      (podPhoto db) (fileUpload db) (vehicle db) (vehicleAssignment db)
      (driverSettlement db) rows (shipperInvoice db) (invoiceLineItem db)
      (notification db).

Definition withShipperInvoice (rows : list ShipperInvoice.t) (db : DB) : DB :=
  mkDB (load db) (loadStatusHistory db) (loadStatusEvent db)
      (loadNegotiation db) (loadAssignment db) (internalUser db)
      (shipperUser db) (driver db) (shipperClient db) (podDocument db)
      (podPhoto db) (fileUpload db) (vehicle db) (vehicleAssignment db)
      (driverSettlement db) (settlementDeduction db) rows
      (invoiceLineItem db) (notification db).

Definition withInvoiceLineItem (rows : list InvoiceLineItem.t) (db : DB) : DB :=
  mkDB (load db) (loadStatusHistory db) (loadStatusEvent db)
      (loadNegotiation db) (loadAssignment db) (internalUser db)
      (shipperUser db) (driver db) (shipperClient db) (podDocument db)
      (podPhoto db) (fileUpload db) (vehicle db) (vehicleAssignment db)
      (driverSettlement db) (settlementDeduction db) (shipperInvoice db)
      rows (notification db).

Definition withNotification (rows : list Notification.t) (db : DB) : DB :=
  mkDB (load db) (loadStatusHistory db) (loadStatusEvent db)
      (loadNegotiation db) (loadAssignment db) (internalUser db)
      (shipperUser db) (driver db) (shipperClient db) (podDocument db)
      (podPhoto db) (fileUpload db) (vehicle db) (vehicleAssignment db)
      (driverSettlement db) (settlementDeduction db) (shipperInvoice db)
      (invoiceLineItem db) rows.

(** ** Prisma queries on a table *)

Section Queries.
Variable A : Type.

(** [findUnique]/[findFirst] with a [where] filter and insertion order. *)
Definition findFirst (p : A -> bool) (rows : list A) : option A :=
    find p rows.

(** [findMany] with a [where] filter. *)
Definition findMany (p : A -> bool) (rows : list A) : list A :=
    filter p rows.

(** [update]/[updateMany]: every row matching [where] gets [data]. *)
Definition updateWhere (p : A -> bool) (f : A -> A) (rows : list A) : list A :=
    map (fun r => if p r then f r else r) rows.

(** [create]. *)
Definition create (r : A) (rows : list A) : list A := rows ++ [r].

(** [deleteMany]. *)
Definition deleteMany (p : A -> bool) (rows : list A) : list A :=
    filter (fun r => negb (p r)) rows.
End Queries.

(** ** LoadController (src/controllers/loads.controller.js) *)

Module LoadController.

(** [prisma.load.findUnique({ where: { id } })] *)
Definition findLoad (id : string) (db : DB) : option Load.t :=
  findFirst (fun l => String.eqb (Load.id l) id) (load db).

(** [prisma.load.update({ where: { id }, data })] *)
Definition updateLoad (id : string) (data : Load.t -> Load.t) (db : DB) : DB :=
  withLoad (updateWhere (fun l => String.eqb (Load.id l) id) data (load db)) db.

(** [prisma.loadStatusHistory.create({ data })] *)
Definition createHistory (row : LoadStatusHistory.t) (db : DB) : DB :=
  withLoadStatusHistory (create row (loadStatusHistory db)) db.

Definition submitLoad (user : User) (id : string) (db : DB) : Response * DB :=
  match findLoad id db with
  | None => (ApiError "Load not found" 404, db)
  | Some load =>
    if negb (LoadStatus_eqb (Load.status load) DRAFT) then
      (ApiError "Load can only be submitted from DRAFT status" 400, db)
    else
      let db := updateLoad id (Load.setStatus PENDING_REVIEW) db in
      let db := createHistory
        (LoadStatusHistory.mk id DRAFT PENDING_REVIEW (userId user)
           (userType user) (Some "Load submitted for review")) db in
      (ApiSuccess "Load submitted for review" 200, db)
  end.

(** [driverPay] is [req.body.driverPay]; left out of the body it is
    [undefined], which Prisma takes as "do not touch the column". *)
Definition approveLoad (user : User) (id : string) (driverPay : option float)
    (notes : option string) (db : DB) : Response * DB :=
  match findLoad id db with
  | None => (ApiError "Load not found" 404, db)
  | Some load =>
    if negb (LoadStatus_eqb (Load.status load) RATE_APPROVED) then
      (ApiError "Load must have approved rate first" 400, db)
    else
      let db := updateLoad id
        (fun l => let l := Load.setStatus SCHEDULED l in
                  match driverPay with
                  | Some p => Load.setDriverPay (Some p) l
                  | None => l
                  end) db in
      let db := createHistory
        (LoadStatusHistory.mk id RATE_APPROVED SCHEDULED (userId user)
           (userType user)
           (Js.orElse notes (Some "Load approved and scheduled"))) db in
      (ApiSuccess "Load approved successfully" 200, db)
  end.

(** [newId] is the identifier the store gives the created assignment. *)
Definition assignLoad (newId : string) (user : User) (id driverId : string)
    (estimatedPickup estimatedDelivery : option Z) (notes : option string)
    (db : DB) : Response * DB :=
  match findLoad id db with
  | None => (ApiError "Load not found" 404, db)
  | Some load =>
    if negb (LoadStatus_eqb (Load.status load) SCHEDULED) then
      (ApiError "Load must be scheduled before assignment" 400, db)
    else
      match findFirst (fun d => String.eqb (Driver.id d) driverId) (driver db) with
      | None => (ApiError "Driver not found" 404, db)
      | Some drv =>
        if negb (Driver.isActive drv) || negb (Driver.isAvailable drv) then
          (ApiError "Driver is not available" 400, db)
        else
          let db := withLoadAssignment
            (create (LoadAssignment.mk newId id driverId (userId user)
                       estimatedPickup estimatedDelivery notes None None None)
                    (loadAssignment db)) db in
          let db := updateLoad id (Load.setStatus ASSIGNED) db in
          let db := createHistory
            (LoadStatusHistory.mk id SCHEDULED ASSIGNED (userId user)
               (userType user)
               (Some ("Load assigned to driver " ++ Driver.firstName drv
                        ++ " " ++ Driver.lastName drv))) db in
          (ApiSuccess "Load assigned successfully" 200, db)
      end
  end.

(** The object literal [allowedTransitions]: the statuses that are keys of
    it, each with the array of its permitted targets. *)
Definition allowedTransitions (s : LoadStatus) : option (list string) :=
  match s with
  | ACCEPTED => Some ["EN_ROUTE_PICKUP"]
  | EN_ROUTE_PICKUP => Some ["AT_PICKUP"]
  | AT_PICKUP => Some ["LOADED"]
  | LOADED => Some ["EN_ROUTE_DELIVERY"]
  | EN_ROUTE_DELIVERY => Some ["AT_DELIVERY"]
  | AT_DELIVERY => Some ["DELIVERED"]
  | _ => None
  end.

(** [allowedTransitions[load.status] &&
     !allowedTransitions[load.status].includes(status)] *)
Definition invalidTransition (current : LoadStatus) (status : string) : bool :=
  match allowedTransitions current with
  | Some targets => negb (Js.includes targets status)
  | None => false
  end.

(** [status] is [req.body.status], a string.  A string that names no member
    of the enum makes [prisma.load.update] throw before anything is
    written. *)
Definition updateLoadStatus (now : Z) (user : User) (id status : string)
    (notes : option string) (gpsLat gpsLng : option float) (db : DB)
    : Response * DB :=
  match findLoad id db with
  | None => (ApiError "Load not found" 404, db)
  | Some load =>
    if invalidTransition (Load.status load) status then
      (ApiError ("Invalid status transition from "
                   ++ statusName (Load.status load) ++ " to " ++ status) 400,
       db)
    else
      match parseStatus status with
      | None => (NextError PrismaValidationError, db)
      | Some target =>
        let updateData (l : Load.t) :=
          let l := Load.setStatus target l in
          if String.eqb status "LOADED" then Load.setActualPickupTime now l
          else if String.eqb status "DELIVERED"
               then Load.setActualDeliveryTime now l
          else l in
        let db := updateLoad id updateData db in
        let db := withLoadStatusEvent
          (create (LoadStatusEvent.mk id
                     (if UserType_eqb (userType user) DRIVER
                      then Some (userId user) else None)
                     target notes gpsLat gpsLng)
                  (loadStatusEvent db)) db in
        let db := createHistory
          (LoadStatusHistory.mk id (Load.status load) target (userId user)
             (userType user) notes) db in
        (ApiSuccess "Load status updated" 200, db)
      end
  end.

(** [counterRate ? 'COUNTER_OFFERED' : 'PENDING'] on the optional number of
    the request body. *)
Definition initialNegotiationStatus (counterRate : option float)
    : NegotiationStatus :=
  match counterRate with
  | Some c => if Js.truthy c then NEG_COUNTER_OFFERED else NEG_PENDING
  | None => NEG_PENDING
  end.

Definition createNegotiation (newId : string) (user : User) (id : string)
    (proposedRate : float) (counterRate : option float)
    (notes : option string) (db : DB) : Response * DB :=
  match findLoad id db with
  | None => (ApiError "Load not found" 404, db)
  | Some load =>
    let internal := UserType_eqb (userType user) INTERNAL_USER in
    let db := withLoadNegotiation
      (create (LoadNegotiation.mk newId id proposedRate counterRate notes
                 (if internal then BY_DISPATCHER else BY_SHIPPER)
                 (if internal then Some (userId user) else None)
                 (initialNegotiationStatus counterRate) None)
              (loadNegotiation db)) db in
    let db :=
      if LoadStatus_eqb (Load.status load) PENDING_REVIEW
      then updateLoad id (Load.setStatus NEGOTIATING) db
      else db in
    (ApiSuccess "Negotiation created" 201, db)
  end.

(** [prisma.loadNegotiation.findUnique({ where: { id: negotiationId } })] *)
Definition findNegotiation (negotiationId : string) (db : DB)
    : option LoadNegotiation.t :=
  findFirst (fun n => String.eqb (LoadNegotiation.id n) negotiationId)
            (loadNegotiation db).

Definition updateNegotiation (negotiationId : string)
    (data : LoadNegotiation.t -> LoadNegotiation.t) (db : DB) : DB :=
  withLoadNegotiation
    (updateWhere (fun n => String.eqb (LoadNegotiation.id n) negotiationId)
                 data (loadNegotiation db)) db.

(** [negotiation.counterRate || negotiation.proposedRate]: the columns are
    [Decimal] objects, truthy whenever they are not [null]. *)
Definition agreedRate (n : LoadNegotiation.t) : float :=
  match LoadNegotiation.counterRate n with
  | Some c => c
  | None => LoadNegotiation.proposedRate n
  end.

Definition resolvable (s : NegotiationStatus) : bool :=
  match s with
  | NEG_PENDING | NEG_COUNTER_OFFERED => true
  | _ => false
  end.

Definition acceptNegotiation (now : Z) (negotiationId : string) (db : DB)
    : Response * DB :=
  match findNegotiation negotiationId db with
  | None => (ApiError "Negotiation not found" 404, db)
  | Some negotiation =>
    if negb (resolvable (LoadNegotiation.status negotiation)) then
      (ApiError "Negotiation already resolved" 400, db)
    else
      let db := updateNegotiation negotiationId
        (fun n => LoadNegotiation.resolve NEG_ACCEPTED now
                    (LoadNegotiation.notes n) n) db in
      match findLoad (LoadNegotiation.loadId negotiation) db with
      | None => (NextError RecordNotFound, db)
      | Some _ =>
        let db := updateLoad (LoadNegotiation.loadId negotiation)
          (fun l => Load.setAgreedRate (agreedRate negotiation) negotiationId
                      (Load.setStatus RATE_APPROVED l)) db in
        (ApiSuccess "Negotiation accepted" 200, db)
      end
  end.

Definition rejectNegotiation (now : Z) (negotiationId : string)
    (notes : option string) (db : DB) : Response * DB :=
  match findNegotiation negotiationId db with
  | None => (ApiError "Negotiation not found" 404, db)
  | Some negotiation =>
    let db := updateNegotiation negotiationId
      (LoadNegotiation.resolve NEG_REJECTED now
         (Js.orElse notes (LoadNegotiation.notes negotiation))) db in
    (ApiSuccess "Negotiation rejected" 200, db)
  end.

End LoadController.

(** ** DriverController (src/controllers/drivers.controller.js) *)

Module DriverController.

(** [prisma.loadAssignment.findUnique({ where: { id: assignmentId } })] *)
Definition findAssignment (assignmentId : string) (db : DB)
    : option LoadAssignment.t :=
  findFirst (fun a => String.eqb (LoadAssignment.id a) assignmentId)
            (loadAssignment db).

Definition updateAssignment (assignmentId : string)
    (data : LoadAssignment.t -> LoadAssignment.t) (db : DB) : DB :=
  withLoadAssignment
    (updateWhere (fun a => String.eqb (LoadAssignment.id a) assignmentId)
                 data (loadAssignment db)) db.

(** A [Date] column is truthy exactly when it is not [null]. *)
Definition isSet (d : option Z) : bool :=
  match d with Some _ => true | None => false end.

Definition acceptAssignment (now : Z) (user : User) (assignmentId : string)
    (db : DB) : Response * DB :=
  match findAssignment assignmentId db with
  | None => (ApiError "Assignment not found" 404, db)
  | Some assignment =>
    if negb (String.eqb (LoadAssignment.driverId assignment) (userId user)) then
      (ApiError "Not your assignment" 403, db)
    else if isSet (LoadAssignment.acceptedAt assignment) then
      (ApiError "Assignment already accepted" 400, db)
    else
      let db := updateAssignment assignmentId
                  (LoadAssignment.setAcceptedAt now) db in
      match LoadController.findLoad (LoadAssignment.loadId assignment) db with
      | None => (NextError RecordNotFound, db)
      | Some _ =>
        let db := LoadController.updateLoad (LoadAssignment.loadId assignment)
                    (Load.setStatus ACCEPTED) db in
        let db := LoadController.createHistory
          (LoadStatusHistory.mk (LoadAssignment.loadId assignment)
             ASSIGNED ACCEPTED (userId user) DRIVER
             (Some "Driver accepted assignment")) db in
        (ApiSuccess "Assignment accepted" 200, db)
      end
  end.

(** A template literal prints an absent value as ["undefined"]. *)
Definition interpolate (s : option string) : string :=
  match s with Some s => s | None => "undefined" end.

Definition rejectAssignment (now : Z) (user : User) (assignmentId : string)
    (reason : option string) (db : DB) : Response * DB :=
  match findAssignment assignmentId db with
  | None => (ApiError "Assignment not found" 404, db)
  | Some assignment =>
    if negb (String.eqb (LoadAssignment.driverId assignment) (userId user)) then
      (ApiError "Not your assignment" 403, db)
    else if isSet (LoadAssignment.rejectedAt assignment) then
      (ApiError "Assignment already rejected" 400, db)
    else
      let db := updateAssignment assignmentId
                  (LoadAssignment.setRejected now reason) db in
      match LoadController.findLoad (LoadAssignment.loadId assignment) db with
      | None => (NextError RecordNotFound, db)
      | Some _ =>
        let db := LoadController.updateLoad (LoadAssignment.loadId assignment)
                    (Load.setStatus SCHEDULED) db in
        let db := LoadController.createHistory
          (LoadStatusHistory.mk (LoadAssignment.loadId assignment)
             ASSIGNED SCHEDULED (userId user) DRIVER
             (Some ("Driver rejected assignment: " ++ interpolate reason))) db in
        (ApiSuccess "Assignment rejected" 200, db)
      end
  end.

End DriverController.

(** ** PODController (src/controllers/pod.controller.js) *)

Module PODController.

(** An uploaded file as multer hands it over, together with what
    [storageService.upload] does with it: the URL it is stored under, or
    [None] when the upload throws. *)
Record File : Set := mkFile { mimetype : string; stored : option string }.

(** [storageService.validateImageFile]: throws unless the MIME type is one
    of the four image types. *)
Definition validImageFile (f : File) : bool :=
  Js.includes ["image/jpeg"; "image/png"; "image/jpg"; "image/webp"]
              (mimetype f).

(** [validateImageFile] then [storageService.upload]: the stored URL, or
    the exception thrown. *)
Definition validateAndUpload (f : File) : Exn + string :=
  if negb (validImageFile f) then inl InvalidFileType
  else match stored f with
       | None => inl UploadFailed
       | Some url => inr url
       end.

Definition createFileRecord (user : User) (url category loadId : string)
    (db : DB) : DB :=
  withFileUpload
    (create (FileUpload.mk (userId user) DRIVER url category "LOAD" loadId)
            (fileUpload db)) db.

(** The [for] loop over [req.files.photos], from index [i] on; it stops at
    the first photo that is refused, with the rows written so far kept. *)
Fixpoint uploadPhotos (user : User) (loadId podId : string)
    (photos : list File) (i : nat) (db : DB) : option Exn * DB :=
  match photos with
  | [] => (None, db)
  | photo :: rest =>
    match validateAndUpload photo with
    | inl e => (Some e, db)
    | inr url =>
      let db := createFileRecord user url "POD_PHOTO" loadId db in
      let db := withPodPhoto
        (create (PodPhoto.mk podId url i) (podPhoto db)) db in
      uploadPhotos user loadId podId rest (S i) db
    end
  end.

(** The assignments of the load that [include: { assignments: { where:
    { driverId: req.user.id } } }] loads. *)
Definition assignmentsOf (loadId driverId : string) (db : DB)
    : list LoadAssignment.t :=
  findMany (fun a => String.eqb (LoadAssignment.loadId a) loadId
                     && String.eqb (LoadAssignment.driverId a) driverId)
           (loadAssignment db).

(** [signature] is [req.files.signature[0]], absent when no signature was
    sent; [gpsLat], [gpsLng] are the numbers [parseFloat] reads from the
    form fields; [newId] is the identifier of the created POD document. *)
Definition submitPOD (now : Z) (newId : string) (user : User)
    (loadId : string) (recipientName recipientTitle : option string)
    (gpsLat gpsLng : float) (notes : option string)
    (signature : option File) (photos : list File) (db : DB)
    : Response * DB :=
  match LoadController.findLoad loadId db with
  | None => (ApiError "Load not found" 404, db)
  | Some load =>
    if (List.length (assignmentsOf loadId (userId user) db) =? 0)%nat then
      (ApiError "You are not assigned to this load" 403, db)
    else if negb (LoadStatus_eqb (Load.status load) DELIVERED)
            && negb (LoadStatus_eqb (Load.status load) AT_DELIVERY) then
      (ApiError "Load must be delivered before submitting POD" 400, db)
    else
      match signature with
      | None => (ApiError "Signature image is required" 400, db)
      | Some sig =>
        match validateAndUpload sig with
        | inl e => (NextError e, db)
        | inr url =>
          let db := createFileRecord user url "POD_SIGNATURE" loadId db in
          let db := withPodDocument
            (create (PodDocument.mk newId loadId (userId user) url
                       recipientName recipientTitle gpsLat gpsLng now now
                       notes None None)
                    (podDocument db)) db in
          match uploadPhotos user loadId newId photos 0 db with
          | (Some e, db) => (NextError e, db)
          | (None, db) =>
            let db := LoadController.updateLoad loadId
                        (Load.setStatus POD_SUBMITTED) db in
            let db := LoadController.createHistory
              (LoadStatusHistory.mk loadId (Load.status load) POD_SUBMITTED
                 (userId user) DRIVER (Some "POD submitted by driver")) db in
            (ApiSuccess "POD submitted successfully" 201, db)
          end
        end
      end
  end.

(** [prisma.podDocument.findUnique({ where: { id } })] *)
Definition findPod (id : string) (db : DB) : option PodDocument.t :=
  findFirst (fun p => String.eqb (PodDocument.id p) id) (podDocument db).

Definition verifyPOD (now : Z) (user : User) (id : string) (approved : bool)
    (notes : option string) (db : DB) : Response * DB :=
  match findPod id db with
  | None => (ApiError "POD not found" 404, db)
  | Some pod =>
    if DriverController.isSet (PodDocument.verifiedAt pod) then
      (ApiError "POD already verified" 400, db)
    else
      let loadBefore := LoadController.findLoad (PodDocument.loadId pod) db in
      let db := withPodDocument
        (updateWhere (fun p => String.eqb (PodDocument.id p) id)
           (PodDocument.verify now (userId user)
              (Js.orElse notes (PodDocument.notes pod)))
           (podDocument db)) db in
      match loadBefore with
      | None => (NextError RecordNotFound, db)
      | Some load =>
        if approved then
          let db := LoadController.updateLoad (PodDocument.loadId pod)
                      (Load.setStatus COMPLETED) db in
          let db := LoadController.createHistory
            (LoadStatusHistory.mk (PodDocument.loadId pod) (Load.status load)
               COMPLETED (userId user) INTERNAL_USER
               (Some "POD verified and approved")) db in
          (ApiSuccess "POD verified successfully" 200, db)
        else
          let db := LoadController.updateLoad (PodDocument.loadId pod)
                      (Load.setStatus POD_PENDING) db in
          let db := LoadController.createHistory
            (LoadStatusHistory.mk (PodDocument.loadId pod) (Load.status load)
               POD_PENDING (userId user) INTERNAL_USER
               (Js.orElse notes (Some "POD needs correction"))) db in
          (ApiSuccess "POD verified successfully" 200, db)
      end
  end.

End PODController.

(** ** SettlementController (src/controllers/settlements.controller.js) *)

Module SettlementController.

(** A member of [req.body.deductions]; [amount] is the number sent (a
    missing or non-numeric amount reads as [NaN]). *)
Record DeductionInput : Set := mkDeduction {
  description : option string;
  amount : float;
  category : option string
}.

(** The body of the [deductions.map] callback's test:
    [isNaN(amount) || amount < 0]. *)
Definition invalidAmount (amount : float) : bool :=
  Js.isNaN amount || PrimFloat.ltb amount 0%float.

(** [deductions.map(deduction => ...)] with the running [totalDeductions]
    it updates: the validated rows and the final total, or the exception of
    the first invalid amount.  [settlementId] is the settlement the nested
    [create] attaches the rows to. *)
Fixpoint validateDeductions (settlementId : string)
    (deductions : list DeductionInput) (totalDeductions : float)
    : Exn + (list SettlementDeduction.t * float) :=
  match deductions with
  | [] => inr ([], totalDeductions)
  | deduction :: rest =>
    let amount' := Js.parseFloat (amount deduction) in
    if invalidAmount amount' then inl (InvalidDeductionAmount (amount deduction))
    else
      match validateDeductions settlementId rest
              (PrimFloat.add totalDeductions amount') with
      | inl e => inl e
      | inr (rows, total) =>
        inr (SettlementDeduction.mk settlementId (description deduction)
               amount'
               (match Js.orElse (category deduction) (Some "OTHER") with
                | Some c => c
                | None => "OTHER"
                end) :: rows,
             total)
      end
  end.

(** [where: { acceptedAt: { not: null }, rejectedAt: null }] *)
Definition acceptedNotRejected (a : LoadAssignment.t) : bool :=
  DriverController.isSet (LoadAssignment.acceptedAt a)
  && negb (DriverController.isSet (LoadAssignment.rejectedAt a)).

(** [status: { notIn: ['DISPUTED'] }] *)
Definition notDisputed (s : DriverSettlement.t) : bool :=
  match DriverSettlement.status s with SET_DISPUTED => false | _ => true end.

Definition loadIdIs (loadId : string) (s : DriverSettlement.t) : bool :=
  match DriverSettlement.loadId s with
  | Some l => String.eqb l loadId
  | None => false
  end.

(** [a || b] on two dates, the first nullable. *)
Definition dateOr (a : option Z) (b : Z) : Z :=
  match a with Some d => d | None => b end.

(** [notificationService.notifySettlement(driverId, settlement,
    'SETTLEMENT_READY')] *)
Definition notifySettlement (driverId settlementId : string) (db : DB) : DB :=
  withNotification
    (create (Notification.mk driverId DRIVER "SETTLEMENT_READY" "SETTLEMENT"
               settlementId)
            (notification db)) db.

Definition sumDriverPay (loads : list Load.t) : float :=
  fold_left (fun sum l =>
               PrimFloat.add sum
                 (match Load.driverPay l with
                  | Some p => p
                  | None => PrimFloat.nan
                  end))
            loads 0%float.

Section WithNumbering.

(** [_generateSettlementNumber()]: it reads the clock and the settlements
    of the year and returns the next [SETTLE-<year>-<seq>]; it writes
    nothing, and the properties below do not depend on the number. *)
Variable generateSettlementNumber : Z -> DB -> string.

Definition createSettlementFromLoad (now : Z) (newId loadId : string)
    (deductions : list DeductionInput) (db : DB) : Response * DB :=
  match LoadController.findLoad loadId db with
  | None => (ApiError "Load not found" 404, db)
  | Some load =>
    if negb (LoadStatus_eqb (Load.status load) COMPLETED) then
      (ApiError "Load must be completed before creating settlement" 400, db)
    else
      match Load.driverPay load with
      | None => (ApiError "Driver pay not set for this load" 400, db)
      | Some driverPay =>
        match findMany (fun a => String.eqb (LoadAssignment.loadId a) loadId
                                 && acceptedNotRejected a)
                       (loadAssignment db) with
        | [] => (ApiError "No accepted driver assignment found" 404, db)
        | assignment :: _ =>
          match findFirst (fun s => loadIdIs loadId s && notDisputed s)
                          (driverSettlement db) with
          | Some _ =>
            (ApiError "Settlement already exists for this load" 400, db)
          | None =>
            let settlementNumber := generateSettlementNumber now db in
            let grossAmount := driverPay in
            match validateDeductions newId deductions 0%float with
            | inl e => (NextError e, db)
            | inr (validatedDeductions, totalDeductions) =>
              let netAmount := PrimFloat.sub grossAmount totalDeductions in
              if PrimFloat.ltb netAmount 0%float then
                (ApiError "Deductions exceed gross amount" 400, db)
              else
                let db := withDriverSettlement
                  (create (DriverSettlement.mk newId
                             (LoadAssignment.driverId assignment)
                             (Some loadId) settlementNumber
                             (dateOr (Load.actualPickupTime load)
                                     (Load.pickupDate load))
                             (dateOr (Load.actualDeliveryTime load)
                                     (Load.deliveryDate load))
                             grossAmount totalDeductions netAmount
                             SET_PENDING None)
                          (driverSettlement db)) db in
                let db := withSettlementDeduction
                  (settlementDeduction db ++ validatedDeductions) db in
                let db := notifySettlement
                            (LoadAssignment.driverId assignment) newId db in
                (ApiSuccess "Settlement created successfully" 201, db)
            end
          end
        end
      end
  end.

(** The [where] of the period query: a completed load delivered inside
    the period, with driver pay set and an accepted assignment of the
    driver. *)
Definition inPeriod (driverId : string) (startDate endDate : Z) (db : DB)
    (l : Load.t) : bool :=
  LoadStatus_eqb (Load.status l) COMPLETED
  && match Load.actualDeliveryTime l with
     | Some d => (startDate <=? d) && (d <=? endDate)
     | None => false
     end
  && existsb (fun a => String.eqb (LoadAssignment.loadId a) (Load.id l)
                       && String.eqb (LoadAssignment.driverId a) driverId
                       && acceptedNotRejected a)
             (loadAssignment db)
  && match Load.driverPay l with Some _ => true | None => false end.

Definition isSettled (loads : list Load.t) (s : DriverSettlement.t) : bool :=
  existsb (fun l => loadIdIs (Load.id l) s) loads && notDisputed s.

(** [driverId], [periodStart] and [periodEnd] are the fields of the body,
    the two dates already read by [new Date]; [None] is a field left
    out. *)
Definition createPeriodSettlement (now : Z) (newId : string)
    (driverId : option string) (periodStart periodEnd : option Z)
    (deductions : list DeductionInput) (db : DB) : Response * DB :=
  match Js.orElse driverId None, periodStart, periodEnd with
  | Some driverId, Some startDate, Some endDate =>
    if startDate >=? endDate then
      (ApiError "periodStart must be before periodEnd" 400, db)
    else
      let loads := findMany (inPeriod driverId startDate endDate db) (load db) in
      if (List.length loads =? 0)%nat then
        (ApiError "No completed loads found in period for this driver" 404, db)
      else
        let existingSettlements :=
          findMany (isSettled loads) (driverSettlement db) in
        if (0 <? List.length existingSettlements)%nat then
          (ApiError ("Some loads already have settlements: "
                       ++ String.concat ", "
                            (map (fun s => DriverController.interpolate
                                             (DriverSettlement.loadId s))
                                 existingSettlements)) 400,
           db)
        else
          let grossAmount := sumDriverPay loads in
          match validateDeductions newId deductions 0%float with
          | inl e => (NextError e, db)
          | inr (validatedDeductions, totalDeductions) =>
            let netAmount := PrimFloat.sub grossAmount totalDeductions in
            if PrimFloat.ltb netAmount 0%float then
              (ApiError "Deductions exceed gross amount" 400, db)
            else
              let settlementNumber := generateSettlementNumber now db in
              let db := withDriverSettlement
                (create (DriverSettlement.mk newId driverId None
                           settlementNumber startDate endDate
                           grossAmount totalDeductions netAmount SET_PENDING
                           (Some ("Period settlement for "
                                    ++ Js.ofNat (List.length loads)
                                    ++ " loads: "
                                    ++ String.concat ", "
                                         (map Load.loadNumber loads))))
                        (driverSettlement db)) db in
              let db := withSettlementDeduction
                (settlementDeduction db ++ validatedDeductions) db in
              let db := notifySettlement driverId newId db in
              (ApiSuccess "Period settlement created" 201, db)
          end
  | _, _, _ =>
    (ApiError "driverId, periodStart, and periodEnd are required" 400, db)
  end.

End WithNumbering.

End SettlementController.

(** ** InvoiceController (src/controllers/invoices.controller.js) *)

Module InvoiceController.

(** A member of [req.body.lineItems], with the numbers sent. *)
Record LineItemInput : Set := mkLineItem {
  description : string;
  quantity : float;
  unitPrice : float;
  amount : float
}.

(** [let subtotal = 0; items.forEach(item => { subtotal +=
    parseFloat(item.amount) })] *)
Definition subtotalOf (items : list LineItemInput) : float :=
  fold_left (fun subtotal item =>
               PrimFloat.add subtotal (Js.parseFloat (amount item)))
            items 0%float.

(** The rows the nested [lineItems: { create: items }] writes. *)
Definition lineItemRows (invoiceId : string) (items : list LineItemInput)
    : list InvoiceLineItem.t :=
  map (fun item => InvoiceLineItem.mk invoiceId (description item)
                     (quantity item) (unitPrice item) (amount item))
      items.

(** [parseFloat(load.shipperRate)]; [parseFloat(null)] is [NaN]. *)
Definition rateOf (l : Load.t) : float :=
  match Load.shipperRate l with
  | Some r => Js.parseFloat r
  | None => PrimFloat.nan
  end.

(** [lineItems || [{ description: `Freight charges - Load ...`,
    quantity: 1, unitPrice: ..., amount: ... }]]: an array, even an empty
    one, is truthy. *)
Definition invoiceLineItemsOf (lineItems : option (list LineItemInput))
    (l : Load.t) : list LineItemInput :=
  match lineItems with
  | Some items => items
  | None =>
    [mkLineItem ("Freight charges - Load " ++ Load.loadNumber l) 1%float
                (rateOf l) (rateOf l)]
  end.

(** [load.shipperClient.paymentTerms || 30] *)
Definition paymentTermsOf (c : ShipperClient.t) : Z :=
  match ShipperClient.paymentTerms c with
  | Some 0 | None => 30
  | Some n => n
  end.

(** [taxRate = 0] in the destructuring of the body. *)
Definition taxRateOrDefault (taxRate : option float) : float :=
  match taxRate with Some r => r | None => 0%float end.

Section WithCollaborators.

(** The invoice-number block of [createInvoiceFromLoad]: it reads the clock
    and the invoices of the year and yields the next [INV-<year>-<seq>]. *)
Variable generateInvoiceNumber : Z -> DB -> string.

(** [d.setDate(d.getDate() + n)] on a date: [n] calendar days later. *)
Variable addDays : Z -> Z -> Z.

Definition createInvoiceFromLoad (now : Z) (newId loadId : string)
    (lineItems : option (list LineItemInput)) (taxRate : option float)
    (notes : option string) (db : DB) : Response * DB :=
  match LoadController.findLoad loadId db with
  | None => (ApiError "Load not found" 404, db)
  | Some load =>
    if negb (LoadStatus_eqb (Load.status load) COMPLETED) then
      (ApiError "Load must be completed before invoicing" 400, db)
    else
      match findFirst
              (fun i => String.eqb (ShipperInvoice.loadId i) loadId
                        && match ShipperInvoice.status i with
                           | INV_CANCELLED => false
                           | _ => true
                           end)
              (shipperInvoice db) with
      | Some _ => (ApiError "Invoice already exists for this load" 400, db)
      | None =>
        let invoiceNumber := generateInvoiceNumber now db in
        let invoiceLineItems := invoiceLineItemsOf lineItems load in
        let subtotal := subtotalOf invoiceLineItems in
        let taxAmount :=
          PrimFloat.mul subtotal
            (PrimFloat.div (taxRateOrDefault taxRate) 100%float) in
        let total := PrimFloat.add subtotal taxAmount in
        match findFirst (fun c => String.eqb (ShipperClient.id c)
                                             (Load.shipperClientId load))
                        (shipperClient db) with
        | None => (NextError RecordNotFound, db)
        | Some client =>
          let dueDate := addDays now (paymentTermsOf client) in
          let db := withShipperInvoice
            (create (ShipperInvoice.mk newId (Load.shipperClientId load)
                       loadId invoiceNumber subtotal taxAmount total
                       INV_DRAFT notes dueDate)
                    (shipperInvoice db)) db in
          let db := withInvoiceLineItem
            (invoiceLineItem db ++ lineItemRows newId invoiceLineItems) db in
          (ApiSuccess "Invoice created successfully" 201, db)
        end
      end
  end.

End WithCollaborators.

(** [prisma.shipperInvoice.findUnique({ where: { id } })] *)
Definition findInvoice (id : string) (db : DB) : option ShipperInvoice.t :=
  findFirst (fun i => String.eqb (ShipperInvoice.id i) id) (shipperInvoice db).

Definition updateInvoiceRow (id : string)
    (data : ShipperInvoice.t -> ShipperInvoice.t) (db : DB) : DB :=
  withShipperInvoice
    (updateWhere (fun i => String.eqb (ShipperInvoice.id i) id) data
                 (shipperInvoice db)) db.

(** [taxRate ? subtotal * (taxRate / 100) : invoice.taxAmount] *)
Definition updatedTaxAmount (taxRate : option float) (subtotal : float)
    (invoice : ShipperInvoice.t) : float :=
  match taxRate with
  | Some r =>
    if Js.truthy r
    then PrimFloat.mul subtotal (PrimFloat.div r 100%float)
    else ShipperInvoice.taxAmount invoice
  | None => ShipperInvoice.taxAmount invoice
  end.

Definition updateInvoice (id : string)
    (lineItems : option (list LineItemInput)) (taxRate : option float)
    (notes : option string) (db : DB) : Response * DB :=
  match findInvoice id db with
  | None => (ApiError "Invoice not found" 404, db)
  | Some invoice =>
    match ShipperInvoice.status invoice with
    | INV_DRAFT =>
      match lineItems with
      | Some items =>
        let db := withInvoiceLineItem
          (deleteMany (fun li => String.eqb (InvoiceLineItem.invoiceId li) id)
                      (invoiceLineItem db)) db in
        let subtotal := subtotalOf items in
        let taxAmount := updatedTaxAmount taxRate subtotal invoice in
        let total := PrimFloat.add subtotal (Js.parseFloat taxAmount) in
        let db := updateInvoiceRow id
          (ShipperInvoice.setAmounts subtotal taxAmount total
             (Js.orElse notes (ShipperInvoice.notes invoice))) db in
        let db := withInvoiceLineItem
          (invoiceLineItem db ++ lineItemRows id items) db in
        (ApiSuccess "Invoice updated successfully" 200, db)
      | None =>
        let db :=
          match notes with
          | Some n => updateInvoiceRow id (ShipperInvoice.setNotes (Some n)) db
          | None => db
          end in
        (ApiSuccess "Invoice updated successfully" 200, db)
      end
    | _ => (ApiError "Only draft invoices can be updated" 400, db)
    end
  end.

End InvoiceController.

(** ** VehicleController (src/controllers/vehicles.controller.js) *)

Module VehicleController.

(** [where: { vehicleId: id, isCurrentlyAssigned: true }] *)
Definition currentOf (id : string) (a : VehicleAssignment.t) : bool :=
  String.eqb (VehicleAssignment.vehicleId a) id
  && VehicleAssignment.isCurrentlyAssigned a.

(** The [updateMany] both handlers run: every current assignment of the
    vehicle is retired. *)
Definition retireCurrent (now : Z) (id : string) (db : DB) : DB :=
  withVehicleAssignment
    (updateWhere (currentOf id) (VehicleAssignment.retire now)
                 (vehicleAssignment db)) db.

Definition assignVehicle (now : Z) (newId id driverId : string)
    (notes : option string) (db : DB) : Response * DB :=
  match findFirst (fun v => String.eqb (Vehicle.id v) id) (vehicle db) with
  | None => (ApiError "Vehicle not found" 404, db)
  | Some _ =>
    match findFirst (fun d => String.eqb (Driver.id d) driverId) (driver db) with
    | None => (ApiError "Driver not found" 404, db)
    | Some _ =>
      let db := retireCurrent now id db in
      let db := withVehicleAssignment
        (create (VehicleAssignment.mk newId id driverId notes true now None)
                (vehicleAssignment db)) db in
      (ApiSuccess "Vehicle assigned successfully" 200, db)
    end
  end.

Definition unassignVehicle (now : Z) (id : string) (db : DB) : Response * DB :=
  (ApiSuccess "Vehicle unassigned successfully" 200, retireCurrent now id db).

End VehicleController.

(** ** AuthController (src/controllers/auth.controller.js) *)

Module AuthController.

Definition lowerAscii (c : Ascii.ascii) : Ascii.ascii :=
  let n := Ascii.nat_of_ascii c in
  if ((65 <=? n) && (n <=? 90))%nat then Ascii.ascii_of_nat (n + 32) else c.

(** [String.prototype.toLowerCase], on ASCII text. *)
Fixpoint toLowerCase (s : string) : string :=
  match s with
  | EmptyString => EmptyString
  | String c rest => String (lowerAscii c) (toLowerCase rest)
  end.

(** [user.lockedUntil && user.lockedUntil > new Date()] *)
Definition isLocked (now : Z) (a : Account.t) : bool :=
  match Account.lockedUntil a with
  | Some lockedUntil => now <? lockedUntil
  | None => false
  end.

(** The [updateData] of a failed password check: the attempts read from
    the row plus one, and from the fifth on a lock of 15 minutes. *)
Definition updateData (now : Z) (a : Account.t) : Account.t -> Account.t :=
  let failedAttempts := Account.failedLoginAttempts a + 1 in
  if failedAttempts >=? 5
  then Account.setFailedAndLock failedAttempts (now + 15 * 60 * 1000)
  else Account.setFailed failedAttempts.

Definition hasEmail (email : string) (a : Account.t) : bool :=
  String.eqb (Account.email a) (toLowerCase email).

Definition hasId (id : string) (a : Account.t) : bool :=
  String.eqb (Account.id a) id.

Definition invalidCredentials : Response :=
  ApiError "Invalid email or password" 401.

Definition accountLocked : Response :=
  ApiError "Account is locked. Please try again later." 423.

Definition loginSuccessful : Response := ApiSuccess "Login successful" 200.

Section WithBcrypt.

(** [bcrypt.compare(password, hash)] *)
Variable bcryptCompare : string -> string -> bool.

Definition loginInternalUser (now : Z) (email password : string) (db : DB)
    : Response * DB :=
  match findFirst (fun u => hasEmail email (InternalUser.account u))
                  (internalUser db) with
  | None => (invalidCredentials, db)
  | Some user =>
    let a := InternalUser.account user in
    if isLocked now a then (accountLocked, db)
    else if negb (Account.isActive a) then
      (ApiError "Account is inactive" 403, db)
    else if negb (bcryptCompare password (Account.passwordHash a)) then
      (invalidCredentials,
       withInternalUser
         (updateWhere (fun u => hasId (Account.id a) (InternalUser.account u))
            (InternalUser.onAccount (updateData now a)) (internalUser db)) db)
    else
      (loginSuccessful,
       withInternalUser
         (updateWhere (fun u => hasId (Account.id a) (InternalUser.account u))
            (InternalUser.onAccount (Account.reset now)) (internalUser db)) db)
  end.

Definition loginShipperUser (now : Z) (email password : string) (db : DB)
    : Response * DB :=
  match findFirst (fun u => hasEmail email (ShipperUser.account u))
                  (shipperUser db) with
  | None => (invalidCredentials, db)
  | Some user =>
    let a := ShipperUser.account user in
    if isLocked now a then (accountLocked, db)
    else if negb (Account.isActive a) then
      (ApiError "Account is inactive" 403, db)
    else
      match findFirst (fun c => String.eqb (ShipperClient.id c)
                                           (ShipperUser.shipperClientId user))
                      (shipperClient db) with
      | None => (NextError RecordNotFound, db)
      | Some client =>
        if negb (ShipperClient.isActiveStatus client) then
          (ApiError "Shipper account is inactive" 403, db)
        else if negb (bcryptCompare password (Account.passwordHash a)) then
          (invalidCredentials,
           withShipperUser
             (updateWhere
                (fun u => hasId (Account.id a) (ShipperUser.account u))
                (ShipperUser.onAccount (updateData now a)) (shipperUser db))
             db)
        else
          (loginSuccessful,
           withShipperUser
             (updateWhere
                (fun u => hasId (Account.id a) (ShipperUser.account u))
                (ShipperUser.onAccount (Account.reset now)) (shipperUser db))
             db)
      end
  end.

Definition loginDriver (now : Z) (email password : string) (db : DB)
    : Response * DB :=
  match findFirst (fun d => hasEmail email (Driver.account d)) (driver db) with
  | None => (invalidCredentials, db)
  | Some drv =>
    let a := Driver.account drv in
    if isLocked now a then (accountLocked, db)
    else if negb (Account.isActive a) then
      (ApiError "Account is inactive" 403, db)
    else if negb (bcryptCompare password (Account.passwordHash a)) then
      (invalidCredentials,
       withDriver
         (updateWhere (fun d => hasId (Account.id a) (Driver.account d))
            (Driver.onAccount (updateData now a)) (driver db)) db)
    else
      (loginSuccessful,
       withDriver
         (updateWhere (fun d => hasId (Account.id a) (Driver.account d))
            (Driver.onAccount (Account.reset now)) (driver db)) db)
  end.

End WithBcrypt.

End AuthController.

(** ** Further handlers

    Handlers of the same controllers that write only columns the rows
    above have. *)

(** [updateAvailability] of DriverController. *)
Module DriverAvailability.

(** [req.body.isAvailable]: left out, a boolean, or any other value. *)
Inductive Flag : Set := Undefined | Boolean (b : bool) | NotBoolean.

(** [data: { isAvailable }]; a field that is [undefined] leaves the column
    as it is. *)
Definition setIsAvailable (isAvailable : Flag) (d : Driver.t) : Driver.t :=
  match isAvailable with
  | Boolean b =>
    Driver.mk (Driver.account d) (Driver.firstName d) (Driver.lastName d) b
  | _ => d
  end.

(** A value that is no boolean makes [prisma.driver.update] throw a
    validation error before the query is sent; an [id] that matches no row
    makes it throw too. *)
Definition updateAvailability (user : User) (id : string) (isAvailable : Flag)
    (db : DB) : Response * DB :=
  if UserType_eqb (userType user) DRIVER
     && negb (String.eqb (userId user) id) then
    (ApiError "Access denied" 403, db)
  else
    match isAvailable with
    | NotBoolean => (NextError PrismaValidationError, db)
    | _ =>
      match findFirst (fun d => String.eqb (Driver.id d) id) (driver db) with
      | None => (NextError RecordNotFound, db)
      | Some _ =>
        (ApiSuccess "Availability updated" 200,
         withDriver
           (updateWhere (fun d => String.eqb (Driver.id d) id)
                        (setIsAvailable isAvailable) (driver db)) db)
      end
    end.

End DriverAvailability.

(** [disputeSettlement] of SettlementController. *)
Module SettlementDisputes.

(** [prisma.driverSettlement.findUnique({ where: { id } })] *)
Definition findSettlement (id : string) (db : DB) : option DriverSettlement.t :=
  findFirst (fun s => String.eqb (DriverSettlement.id s) id)
            (driverSettlement db).

Definition updateSettlement (id : string)
    (data : DriverSettlement.t -> DriverSettlement.t) (db : DB) : DB :=
  withDriverSettlement
    (updateWhere (fun s => String.eqb (DriverSettlement.id s) id) data
                 (driverSettlement db)) db.

(** [data: { status: 'DISPUTED', notes }] *)
Definition setDisputed (notes : string) (s : DriverSettlement.t)
    : DriverSettlement.t :=
  DriverSettlement.mk (DriverSettlement.id s) (DriverSettlement.driverId s)
    (DriverSettlement.loadId s) (DriverSettlement.settlementNumber s)
    (DriverSettlement.periodStart s) (DriverSettlement.periodEnd s)
    (DriverSettlement.grossAmount s) (DriverSettlement.totalDeductions s)
    (DriverSettlement.netAmount s) SET_DISPUTED (Some notes).

(** The line feed of a template literal. *)
Definition newline : string := String (Ascii.ascii_of_nat 10) EmptyString.

(** [where: { role: { in: ['ACCOUNTANT', 'ADMIN'] }, isActive: true }] *)
Definition isAccountant (u : InternalUser.t) : bool :=
  Js.includes ["ACCOUNTANT"; "ADMIN"] (InternalUser.role u)
  && Account.isActive (InternalUser.account u).

(** [accountants.map(accountant => ({ ... }))], handed to
    [createBulkNotifications] when it is not empty. *)
Definition notificationsData (id : string) (accountants : list InternalUser.t)
    : list Notification.t :=
  map (fun accountant =>
         Notification.mk (Account.id (InternalUser.account accountant))
                         INTERNAL_USER "SYSTEM_ANNOUNCEMENT" "SETTLEMENT" id)
      accountants.

Section WithText.

(** [String.prototype.trim] and [Date.prototype.toISOString]. *)
Variable trim : string -> string.
Variable toISOString : Z -> string.

(** [`DISPUTED by driver on ${new Date().toISOString()}:\n${reason}\n\n${settlement.notes || ''}`] *)
Definition disputeNotes (now : Z) (reason : string) (notes : option string)
    : string :=
  "DISPUTED by driver on " ++ toISOString now ++ ":" ++ newline ++ reason
    ++ newline ++ newline
    ++ match Js.orElse notes None with Some n => n | None => "" end.

(** The driver row the [update] includes only feeds the text of the
    notifications, which the notification rows do not keep. *)
Definition disputeSettlement (now : Z) (user : User) (id : string)
    (reason : option string) (db : DB) : Response * DB :=
  match Js.orElse reason None with
  | None => (ApiError "Dispute reason is required" 400, db)
  | Some reason =>
    if (String.length (trim reason) =? 0)%nat then
      (ApiError "Dispute reason is required" 400, db)
    else
      match findSettlement id db with
      | None => (ApiError "Settlement not found" 404, db)
      | Some settlement =>
        if negb (UserType_eqb (userType user) DRIVER)
           || negb (String.eqb (DriverSettlement.driverId settlement)
                               (userId user)) then
          (ApiError "Access denied" 403, db)
        else
          match DriverSettlement.status settlement with
          | SET_PAID => (ApiError "Cannot dispute paid settlement" 400, db)
          | _ =>
            let db := updateSettlement id
              (setDisputed (disputeNotes now reason
                              (DriverSettlement.notes settlement))) db in
            let accountants := findMany isAccountant (internalUser db) in
            let db := withNotification
              (notification db
               ++ notificationsData (DriverSettlement.id settlement)
                    accountants) db in
            (ApiSuccess "Settlement disputed" 200, db)
          end
      end
  end.

End WithText.

End SettlementDisputes.

(** [cancelInvoice] of InvoiceController. *)
Module InvoiceCancellation.
Import InvoiceController.

(** [data: { status: 'CANCELLED', notes }] *)
Definition setCancelled (notes : option string) (i : ShipperInvoice.t)
    : ShipperInvoice.t :=
  ShipperInvoice.mk (ShipperInvoice.id i) (ShipperInvoice.shipperClientId i)
    (ShipperInvoice.loadId i) (ShipperInvoice.invoiceNumber i)
    (ShipperInvoice.subtotal i) (ShipperInvoice.taxAmount i)
    (ShipperInvoice.total i) INV_CANCELLED notes (ShipperInvoice.dueDate i).

Definition cancelInvoice (id : string) (reason : option string) (db : DB)
    : Response * DB :=
  match findInvoice id db with
  | None => (ApiError "Invoice not found" 404, db)
  | Some invoice =>
    match ShipperInvoice.status invoice with
    | INV_PAID => (ApiError "Cannot cancel paid invoice" 400, db)
    | _ =>
      (ApiSuccess "Invoice cancelled" 200,
       updateInvoiceRow id
         (setCancelled (Js.orElse reason (ShipperInvoice.notes invoice))) db)
    end
  end.

End InvoiceCancellation.

(** ** Authorization middleware (src/middleware/auth.js) *)

Module AuthMiddleware.

(** What a middleware does with a request: hand it on with [next()], or
    answer it with [res.status(statusCode).json({ success: false,
    message })]. *)
Inductive Verdict : Set :=
  | Next
  | Refused (message : string) (statusCode : Z).

(** [req.user.type], the string. *)
Definition typeName (t : UserType) : string :=
  match t with
  | INTERNAL_USER => "INTERNAL_USER"
  | SHIPPER_USER => "SHIPPER_USER"
  | DRIVER => "DRIVER"
  end.

(** [role] is [req.user.role], which only the tokens of internal users
    carry. *)
Definition authorizeRoles (allowedRoles : list string) (user : User)
    (role : option string) : Verdict :=
  if negb (UserType_eqb (userType user) INTERNAL_USER) then
    Refused "Access denied. Internal user required." 403
  else if negb (match role with
                | Some r => Js.includes allowedRoles r
                | None => false
                end) then
    Refused ("Access denied. Required roles: "
               ++ String.concat ", " allowedRoles) 403
  else Next.

Definition authorizeUserTypes (allowedTypes : list string) (user : User)
    : Verdict :=
  if negb (Js.includes allowedTypes (typeName (userType user))) then
    Refused ("Access denied. Required user types: "
               ++ String.concat ", " allowedTypes) 403
  else Next.

(** [a !== b] on two values that are a string or [undefined]. *)
Definition differ (a b : option string) : bool :=
  match a, b with
  | Some x, Some y => negb (String.eqb x y)
  | None, None => false
  | _, _ => true
  end.

(** [prisma.shipperUser.findUnique({ where: { id: req.user.id } })] *)
Definition findShipperUser (id : string) (db : DB) : option ShipperUser.t :=
  findFirst (fun u => String.eqb (Account.id (ShipperUser.account u)) id)
            (shipperUser db).

(** [resourceId] is [req.params.id]. *)
Definition authorizeResourceOwner (resourceType : string) (user : User)
    (resourceId : string) (db : DB) : Verdict :=
  match userType user with
  | INTERNAL_USER => Next
  | SHIPPER_USER =>
    if String.eqb resourceType "LOAD" then
      let resource := LoadController.findLoad resourceId db in
      let shipperUser := findShipperUser (userId user) db in
      if differ (option_map Load.shipperClientId resource)
                (option_map ShipperUser.shipperClientId shipperUser) then
        Refused "Access denied. You do not own this resource." 403
      else Next
    else if String.eqb resourceType "INVOICE" then
      let resource := InvoiceController.findInvoice resourceId db in
      let user' := findShipperUser (userId user) db in
      if differ (option_map ShipperInvoice.shipperClientId resource)
                (option_map ShipperUser.shipperClientId user') then
        Refused "Access denied. You do not own this resource." 403
      else Next
    else Refused "Invalid resource type" 400
  | DRIVER =>
    if String.eqb resourceType "LOAD_ASSIGNMENT" then
      let resource := DriverController.findAssignment resourceId db in
      if differ (option_map LoadAssignment.driverId resource)
                (Some (userId user)) then
        Refused "Access denied. This is not your assignment." 403
      else Next
    else if String.eqb resourceType "SETTLEMENT" then
      let resource := SettlementDisputes.findSettlement resourceId db in
      if differ (option_map DriverSettlement.driverId resource)
                (Some (userId user)) then
        Refused "Access denied. This is not your settlement." 403
      else Next
    else Refused "Invalid resource type" 400
  end.

End AuthMiddleware.

(** ** Routes (src/routes/loads.routes.js)

    A route runs its middleware in order and then its handler; the first
    middleware that answers ends the request.  [authenticateToken] has
    already set [req.user]; [auditLog] only records successful responses in
    the [auditLog] table, which the store here does not hold. *)

Module Routes.
Import AuthMiddleware.

(** One middleware in front of the rest of a route. *)
Definition guard (v : Verdict) (rest : DB -> Response * DB) (db : DB)
    : Response * DB :=
  match v with
  | Next => rest db
  | Refused message statusCode => (ApiError message statusCode, db)
  end.

(** [router.post('/:id/submit', authenticateToken,
    authorizeUserTypes('SHIPPER_USER'), authorizeResourceOwner('LOAD'),
    auditLog('SUBMIT', 'LOAD'), loadController.submitLoad)] *)
Definition submitLoadRoute (user : User) (id : string) (db : DB)
    : Response * DB :=
  guard (authorizeUserTypes ["SHIPPER_USER"] user)
    (guard (authorizeResourceOwner "LOAD" user id db)
       (LoadController.submitLoad user id)) db.

End Routes.

(** ** Handlers that write further columns

    The review and payment handlers write columns the rows of the store do
    not have.  Those columns are kept beside the store, one table per
    model with a row per identifier; a row that has not been written yet
    has every such column [null]. *)

Module SettlementPayment.
(** [approvedAt], [approvedById], [paidAt], [paymentMethod] and
    [paymentReference] of the [driverSettlement] row [settlementId]. *)
Record t : Set := mk {
    settlementId : string;
    approvedAt : option Z;
    approvedById : option string;
    paidAt : option Z;
    paymentMethod : option string;
    paymentReference : option string
  }.

Definition blank (id : string) : t := mk id None None None None None.

(** [data: { approvedAt: new Date(), approvedById: req.user.id }] *)
Definition approve (now : Z) (by_ : string) (p : t) : t :=
    mk (settlementId p) (Some now) (Some by_) (paidAt p) (paymentMethod p)
       (paymentReference p).

(** [data: { paidAt, paymentMethod, paymentReference }]; a reference that
    is [undefined] leaves the column as it is. *)
Definition pay (at_ : Z) (method : string) (reference : option string) (p : t)
    : t :=
    mk (settlementId p) (approvedAt p) (approvedById p) (Some at_)
       (Some method)
       (match reference with Some r => Some r | None => paymentReference p end).
End SettlementPayment.

Module InvoicePayment.
(** [issuedAt], [paidAt], [paymentMethod] and [paymentReference] of the
    [shipperInvoice] row [invoiceId]. *)
Record t : Set := mk {
    invoiceId : string;
    issuedAt : option Z;
    paidAt : option Z;
    paymentMethod : option string;
    paymentReference : option string
  }.

Definition blank (id : string) : t := mk id None None None None.

(** [data: { issuedAt: new Date() }] *)
Definition issue (now : Z) (p : t) : t :=
    mk (invoiceId p) (Some now) (paidAt p) (paymentMethod p)
       (paymentReference p).

(** [data: { paidAt, paymentMethod, paymentReference }]; a field that is
    [undefined] leaves its column as it is. *)
Definition pay (at_ : Z) (method reference : option string) (p : t) : t :=
    mk (invoiceId p) (issuedAt p) (Some at_)
       (match method with Some m => Some m | None => paymentMethod p end)
       (match reference with Some r => Some r | None => paymentReference p end).
End InvoicePayment.

Module ClientBalance.
(** [currentBalance] of the [shipperClient] row [clientId]: a [Decimal]
    the database subtracts from, kept as the amounts taken off it so far,
    the oldest first. *)
Record t : Set := mk {
    clientId : string;
    decrements : list float
  }.

Definition blank (id : string) : t := mk id [].

(** [data: { currentBalance: { decrement: amount } }] *)
Definition decrement (amount : float) (b : t) : t :=
    mk (clientId b) (decrements b ++ [amount]).
End ClientBalance.

Module PasswordStamp.
(** [passwordUpdatedAt] of the principal row [id]. *)
Record t : Set := mk {
    id : string;
    passwordUpdatedAt : option Z
  }.

Definition blank (id : string) : t := mk id None.

(** [data: { passwordUpdatedAt: new Date() }] *)
Definition stamp (now : Z) (p : t) : t := mk (id p) (Some now).
End PasswordStamp.

Module LoadDeletion.
(** [deletedAt] of the [load] row [loadId]. *)
Record t : Set := mk {
    loadId : string;
    deletedAt : option Z
  }.

Definition blank (id : string) : t := mk id None.

(** [data: { deletedAt: new Date() }] *)
Definition delete (now : Z) (d : t) : t := mk (loadId d) (Some now).
End LoadDeletion.

(** The store together with the further columns. *)
Record Books : Set := mkBooks {
  store : DB;
  settlementPayment : list SettlementPayment.t;
  invoicePayment : list InvoicePayment.t;
  clientBalance : list ClientBalance.t;
  loadDeletion : list LoadDeletion.t;
  internalUserPassword : list PasswordStamp.t;
  shipperUserPassword : list PasswordStamp.t;
  driverPassword : list PasswordStamp.t
}.

Definition withStore (db : DB) (b : Books) : Books :=
  mkBooks db (settlementPayment b) (invoicePayment b) (clientBalance b)
          (loadDeletion b) (internalUserPassword b) (shipperUserPassword b)
          (driverPassword b).

Definition withSettlementPayment (rows : list SettlementPayment.t)
    (b : Books) : Books :=
  mkBooks (store b) rows (invoicePayment b) (clientBalance b)
          (loadDeletion b) (internalUserPassword b) (shipperUserPassword b)
          (driverPassword b).

Definition withInvoicePayment (rows : list InvoicePayment.t) (b : Books)
    : Books :=
  mkBooks (store b) (settlementPayment b) rows (clientBalance b)
          (loadDeletion b) (internalUserPassword b) (shipperUserPassword b)
          (driverPassword b).

Definition withClientBalance (rows : list ClientBalance.t) (b : Books)
    : Books :=
  mkBooks (store b) (settlementPayment b) (invoicePayment b) rows
          (loadDeletion b) (internalUserPassword b) (shipperUserPassword b)
          (driverPassword b).

Definition withLoadDeletion (rows : list LoadDeletion.t) (b : Books)
    : Books :=
  mkBooks (store b) (settlementPayment b) (invoicePayment b)
          (clientBalance b) rows (internalUserPassword b)
          (shipperUserPassword b) (driverPassword b).

Definition withInternalUserPassword (rows : list PasswordStamp.t)
    (b : Books) : Books :=
  mkBooks (store b) (settlementPayment b) (invoicePayment b)
          (clientBalance b) (loadDeletion b) rows (shipperUserPassword b)
          (driverPassword b).

Definition withShipperUserPassword (rows : list PasswordStamp.t)
    (b : Books) : Books :=
  mkBooks (store b) (settlementPayment b) (invoicePayment b)
          (clientBalance b) (loadDeletion b) (internalUserPassword b) rows
          (driverPassword b).

Definition withDriverPassword (rows : list PasswordStamp.t) (b : Books)
    : Books :=
  mkBooks (store b) (settlementPayment b) (invoicePayment b)
          (clientBalance b) (loadDeletion b) (internalUserPassword b)
          (shipperUserPassword b) rows.

(** A store with none of the further columns written yet. *)
Definition openBooks (db : DB) : Books := mkBooks db [] [] [] [] [] [] [].

(** What a handler throws into [next(error)] besides the exceptions
    above: the [TypeError] of reading a property of [null], or a
    validation error of Prisma. *)
Inductive Thrown : Set := TypeError | ValidationError.

(** A handler of the store, run on the books. *)
Definition onStore (handler : DB -> Response * DB) (b : Books)
    : Response * Books :=
  let (response, db) := handler (store b) in (response, withStore db b).

Section Columns.
Variable A : Type.
Variable key : A -> string.
Variable blank : string -> A.

(** The further columns of the row [id]. *)
Definition columnsOf (id : string) (rows : list A) : A :=
  match findFirst (fun r => String.eqb (key r) id) rows with
  | Some r => r
  | None => blank id
  end.

(** [update({ where: { id }, data })] on the further columns. *)
Definition writeColumns (id : string) (data : A -> A) (rows : list A)
    : list A :=
  match findFirst (fun r => String.eqb (key r) id) rows with
  | Some _ => updateWhere (fun r => String.eqb (key r) id) data rows
  | None => create (data (blank id)) rows
  end.
End Columns.

(** What [new Date(value)] makes of an optional field of the body: the
    field is left out (or falsy), it reads as a date, or it reads as no
    date. *)
Inductive DateField : Set :=
  | NoDate
  | ValidDate (d : Z)
  | InvalidDate.

(** [approveSettlement] and [markAsPaid] of SettlementController. *)
Module SettlementReview.
Import SettlementDisputes.

(** [data: { status }] *)
Definition setStatus (st : SettlementStatus) (s : DriverSettlement.t)
    : DriverSettlement.t :=
  DriverSettlement.mk (DriverSettlement.id s) (DriverSettlement.driverId s)
    (DriverSettlement.loadId s) (DriverSettlement.settlementNumber s)
    (DriverSettlement.periodStart s) (DriverSettlement.periodEnd s)
    (DriverSettlement.grossAmount s) (DriverSettlement.totalDeductions s)
    (DriverSettlement.netAmount s) st (DriverSettlement.notes s).

(** The notification both handlers send the driver, of the given type. *)
Definition notifyDriver (type : string) (settlement : DriverSettlement.t)
    (db : DB) : DB :=
  withNotification
    (create (Notification.mk (DriverSettlement.driverId settlement) DRIVER
               type "SETTLEMENT" (DriverSettlement.id settlement))
            (notification db)) db.

Definition approveSettlement (now : Z) (user : User) (id : string)
    (b : Books) : Response * Books :=
  match findSettlement id (store b) with
  | None => (ApiError "Settlement not found" 404, b)
  | Some settlement =>
    match DriverSettlement.status settlement with
    | SET_PENDING =>
      let b := withStore
        (updateSettlement id (setStatus SET_APPROVED) (store b)) b in
      let b := withSettlementPayment
        (writeColumns SettlementPayment.settlementId SettlementPayment.blank
           id (SettlementPayment.approve now (userId user))
           (settlementPayment b)) b in
      let b := withStore
        (notifyDriver "SETTLEMENT_READY" settlement (store b)) b in
      (ApiSuccess "Settlement approved" 200, b)
    | _ => (ApiError "Only pending settlements can be approved" 400, b)
    end
  end.

(** A [paidAt] that reads as no date makes [update] throw a validation
    error before anything is written. *)
Definition markAsPaid (now : Z) (id : string)
    (paymentMethod paymentReference : option string) (paidAt : DateField)
    (b : Books) : Response * Books :=
  match Js.orElse paymentMethod None with
  | None => (ApiError "Payment method is required" 400, b)
  | Some method =>
    match findSettlement id (store b) with
    | None => (ApiError "Settlement not found" 404, b)
    | Some settlement =>
      match DriverSettlement.status settlement with
      | SET_APPROVED =>
        match paidAt with
        | InvalidDate => (NextError PrismaValidationError, b)
        | _ =>
          let at_ := match paidAt with ValidDate d => d | _ => now end in
          let b := withStore
            (updateSettlement id (setStatus SET_PAID) (store b)) b in
          let b := withSettlementPayment
            (writeColumns SettlementPayment.settlementId
               SettlementPayment.blank id
               (SettlementPayment.pay at_ method paymentReference)
               (settlementPayment b)) b in
          let b := withStore
            (notifyDriver "SETTLEMENT_PAID" settlement (store b)) b in
          (ApiSuccess "Settlement marked as paid" 200, b)
        end
      | _ =>
        (ApiError "Settlement must be approved before marking as paid" 400, b)
      end
    end
  end.

End SettlementReview.

(** [issueInvoice] and [markAsPaid] of InvoiceController. *)
Module InvoiceCollection.
Import InvoiceController.

(** [data: { status }] *)
Definition setStatus (st : InvoiceStatus) (i : ShipperInvoice.t)
    : ShipperInvoice.t :=
  ShipperInvoice.mk (ShipperInvoice.id i) (ShipperInvoice.shipperClientId i)
    (ShipperInvoice.loadId i) (ShipperInvoice.invoiceNumber i)
    (ShipperInvoice.subtotal i) (ShipperInvoice.taxAmount i)
    (ShipperInvoice.total i) st (ShipperInvoice.notes i)
    (ShipperInvoice.dueDate i).

(** [notificationService.notifyInvoiceIssued(invoice, shipperClient)]: one
    notification for each active user of the client of the invoice. *)
Definition notifyInvoiceIssued (invoice : ShipperInvoice.t) (db : DB) : DB :=
  let shipperUsers :=
    findMany (fun u => String.eqb (ShipperUser.shipperClientId u)
                                  (ShipperInvoice.shipperClientId invoice)
                       && Account.isActive (ShipperUser.account u))
             (shipperUser db) in
  if (List.length shipperUsers =? 0)%nat then db
  else
    withNotification
      (notification db
       ++ map (fun user =>
                 Notification.mk (Account.id (ShipperUser.account user))
                                 SHIPPER_USER "INVOICE_ISSUED" "INVOICE"
                                 (ShipperInvoice.id invoice))
              shipperUsers) db.

Definition issueInvoice (now : Z) (id : string) (b : Books)
    : Response * Books :=
  match findInvoice id (store b) with
  | None => (ApiError "Invoice not found" 404, b)
  | Some invoice =>
    match ShipperInvoice.status invoice with
    | INV_DRAFT =>
      let b := withStore (updateInvoiceRow id (setStatus INV_SENT) (store b))
                         b in
      let b := withInvoicePayment
        (writeColumns InvoicePayment.invoiceId InvoicePayment.blank id
           (InvoicePayment.issue now) (invoicePayment b)) b in
      let b := withStore (notifyInvoiceIssued invoice (store b)) b in
      (ApiSuccess "Invoice issued successfully" 200, b)
    | _ => (ApiError "Invoice already issued" 400, b)
    end
  end.

(** The invoice is updated first and the balance of its client after it;
    [shipperClient.update] throws when the client has no row. *)
Definition markAsPaid (now : Z) (id : string)
    (paymentMethod paymentReference : option string) (paidAt : DateField)
    (b : Books) : Response * Books :=
  match findInvoice id (store b) with
  | None => (ApiError "Invoice not found" 404, b)
  | Some invoice =>
    match ShipperInvoice.status invoice with
    | INV_PAID => (ApiError "Invoice already paid" 400, b)
    | INV_CANCELLED =>
      (ApiError "Cannot mark cancelled invoice as paid" 400, b)
    | _ =>
      match paidAt with
      | InvalidDate => (NextError PrismaValidationError, b)
      | _ =>
        let at_ := match paidAt with ValidDate d => d | _ => now end in
        let b := withStore (updateInvoiceRow id (setStatus INV_PAID) (store b))
                           b in
        let b := withInvoicePayment
          (writeColumns InvoicePayment.invoiceId InvoicePayment.blank id
             (InvoicePayment.pay at_ paymentMethod paymentReference)
             (invoicePayment b)) b in
        match findFirst (fun c => String.eqb (ShipperClient.id c)
                                    (ShipperInvoice.shipperClientId invoice))
                        (shipperClient (store b)) with
        | None => (NextError RecordNotFound, b)
        | Some _ =>
          let b := withClientBalance
            (writeColumns ClientBalance.clientId ClientBalance.blank
               (ShipperInvoice.shipperClientId invoice)
               (ClientBalance.decrement
                  (Js.parseFloat (ShipperInvoice.total invoice)))
               (clientBalance b)) b in
          (ApiSuccess "Invoice marked as paid" 200, b)
        end
      end
    end
  end.

End InvoiceCollection.

(** ** Listings and the soft delete of loads

    [getAllLoads] and [deleteLoad] of LoadController, [getAllSettlements]
    of SettlementController. *)

Module LoadQuery.
(** [req.query] of [getAllLoads]; the two dates as [new Date] reads
    them. *)
Record t : Set := mk {
    page : option string;
    limit : option string;
    status : option string;
    equipmentType : option string;
    shipperClientId : option string;
    pickupDateFrom : DateField;
    pickupDateTo : DateField;
    search : option string
  }.

Definition setShipperClientId (c : option string) (q : t) : t :=
    mk (page q) (limit q) (status q) (equipmentType q) c (pickupDateFrom q)
       (pickupDateTo q) (search q).
End LoadQuery.

Module LoadWhere.
(** The [where] object [getAllLoads] builds; [deletedAt: null] is always
    part of it.  [assignedTo] is [assignments: { some: { driverId } }],
    [pickupDateGte] and [pickupDateLte] are the bounds of [pickupDate]. *)
Record t : Set := mk {
    shipperClientId : option string;
    assignedTo : option string;
    status : option string;
    equipmentType : option string;
    pickupDateGte : DateField;
    pickupDateLte : DateField;
    search : option string
  }.
End LoadWhere.

Module SettlementQuery.
(** [req.query] of [getAllSettlements]. *)
Record t : Set := mk {
    page : option string;
    limit : option string;
    driverId : option string;
    status : option string;
    dateFrom : DateField;
    dateTo : DateField
  }.

Definition setDriverId (d : option string) (q : t) : t :=
    mk (page q) (limit q) d (status q) (dateFrom q) (dateTo q).
End SettlementQuery.

Module SettlementWhere.
(** The [where] object [getAllSettlements] builds. *)
Record t : Set := mk {
    driverId : option string;
    status : option string;
    periodEndGte : DateField;
    periodEndLte : DateField
  }.
End SettlementWhere.

Module Listings.

(** [ApiResponse.paginated(res, data, { page, limit, total })] *)
Record Page (A : Type) : Type := mkPage { data : list A; total : nat }.

(** What Prisma makes of a string written to a [SettlementStatus]
    filter. *)
Definition parseSettlementStatus (s : string) : option SettlementStatus :=
  if String.eqb s "PENDING" then Some SET_PENDING
  else if String.eqb s "APPROVED" then Some SET_APPROVED
  else if String.eqb s "PAID" then Some SET_PAID
  else if String.eqb s "DISPUTED" then Some SET_DISPUTED
  else None.

Definition SettlementStatus_eqb (a b : SettlementStatus) : bool :=
  match a, b with
  | SET_PENDING, SET_PENDING | SET_APPROVED, SET_APPROVED
  | SET_PAID, SET_PAID | SET_DISPUTED, SET_DISPUTED => true
  | _, _ => false
  end.

(** A filter of a [where] object on a row: a value that is [undefined]
    filters nothing. *)
Definition equalsIf (value : option string) (column : string) : bool :=
  match value with Some v => String.eqb column v | None => true end.

(** A bound of a date filter Prisma accepts: a date, or none given. *)
Definition isDate (bound : DateField) : bool :=
  match bound with InvalidDate => false | _ => true end.

(** [{ gte }] and [{ lte }] on a date column. *)
Definition fromDate (bound : DateField) (column : Z) : bool :=
  match bound with ValidDate d => d <=? column | _ => true end.

Definition untilDate (bound : DateField) (column : Z) : bool :=
  match bound with ValidDate d => column <=? d | _ => true end.

(** [if (value) where.field = value]: a value that is left out or empty
    sets nothing. *)
Definition given (value : option string) : option string :=
  Js.orElse value None.

Section WithPrisma.

(** [parseInt] on a string of the query; [None] is [NaN]. *)
Variable parseInt : string -> option Z.

(** [findMany]'s [skip] and [take] ([None] is [NaN]) on the ordered
    matches; [None] when Prisma refuses the numbers. *)
Variable window : forall A : Type, option Z -> option Z -> list A ->
                                   option (list A).

(** The filter on [equipmentType], a column the load rows do not keep;
    [None] when Prisma refuses the value. *)
Variable equipmentIs : string -> option (Load.t -> bool).

(** The [OR] of the text search over [loadNumber], [origin],
    [destination] and [commodity], the last three not kept by the load
    rows. *)
Variable mentions : string -> Load.t -> bool.

(** [parseInt(page)] with [page = 1] when the query has none, and
    [parseInt(limit)] with [limit = 20]. *)
Definition pageOf (page : option string) : option Z :=
  match page with Some s => parseInt s | None => Some 1 end.

Definition limitOf (limit : option string) : option Z :=
  match limit with Some s => parseInt s | None => Some 20 end.

(** [(parseInt(page) - 1) * parseInt(limit)] *)
Definition skipOf (page limit : option string) : option Z :=
  match pageOf page, limitOf limit with
  | Some p, Some l => Some ((p - 1) * l)
  | _, _ => None
  end.

(** [findMany({ where, skip, take, orderBy: { createdAt: 'desc' } })] and
    [count({ where })] together, given the rows that match [where]. *)
Definition paginate (A : Type) (page limit : option string)
    (matches : option (list A)) : Thrown + Page A :=
  match matches with
  | None => inl ValidationError
  | Some rows =>
    match window (skipOf page limit) (limitOf limit) (rev rows) with
    | None => inl ValidationError
    | Some shown => inr (mkPage shown (List.length rows))
    end
  end.

(** The condition a [where] object puts on a load row; [None] when Prisma
    refuses the object. *)
Definition loadFilter (w : LoadWhere.t) (b : Books)
    : option (Load.t -> bool) :=
  match (match LoadWhere.status w with
         | Some s =>
           option_map (fun st l => LoadStatus_eqb (Load.status l) st)
                      (parseStatus s)
         | None => Some (fun _ => true)
         end),
        (match LoadWhere.equipmentType w with
         | Some e => equipmentIs e
         | None => Some (fun _ => true)
         end),
        isDate (LoadWhere.pickupDateGte w)
        && isDate (LoadWhere.pickupDateLte w) with
  | Some statusOk, Some equipmentOk, true =>
    Some (fun l =>
            match LoadDeletion.deletedAt
                    (columnsOf LoadDeletion.loadId LoadDeletion.blank
                               (Load.id l) (loadDeletion b)) with
            | None => true
            | Some _ => false
            end
            && equalsIf (LoadWhere.shipperClientId w) (Load.shipperClientId l)
            && match LoadWhere.assignedTo w with
               | Some d =>
                 existsb (fun a => String.eqb (LoadAssignment.loadId a)
                                              (Load.id l)
                                   && String.eqb (LoadAssignment.driverId a) d)
                         (loadAssignment (store b))
               | None => true
               end
            && statusOk l && equipmentOk l
            && fromDate (LoadWhere.pickupDateGte w) (Load.pickupDate l)
            && untilDate (LoadWhere.pickupDateLte w) (Load.pickupDate l)
            && match LoadWhere.search w with
               | Some s => mentions s l
               | None => true
               end)
  | _, _, _ => None
  end.

(** The [where] object of [getAllLoads], or the [TypeError] of
    [user.shipperClientId] when the shipper user has no row. *)
Definition loadWhere (user : User) (q : LoadQuery.t) (b : Books)
    : Thrown + LoadWhere.t :=
  match (match userType user with
         | SHIPPER_USER =>
           match AuthMiddleware.findShipperUser (userId user) (store b) with
           | Some u => inr (Some (ShipperUser.shipperClientId u), None)
           | None => inl TypeError
           end
         | DRIVER => inr (None, Some (userId user))
         | INTERNAL_USER => inr (None, None)
         end) with
  | inl e => inl e
  | inr (ownClient, assignedTo) =>
    inr (LoadWhere.mk
           (match given (LoadQuery.shipperClientId q) with
            | Some c => Some c
            | None => ownClient
            end)
           assignedTo
           (given (LoadQuery.status q))
           (given (LoadQuery.equipmentType q))
           (LoadQuery.pickupDateFrom q)
           (LoadQuery.pickupDateTo q)
           (given (LoadQuery.search q)))
  end.

Definition getAllLoads (user : User) (q : LoadQuery.t) (b : Books)
    : Thrown + Page Load.t :=
  match loadWhere user q b with
  | inl e => inl e
  | inr w =>
    paginate (LoadQuery.page q) (LoadQuery.limit q)
             (option_map (fun matches => findMany matches (load (store b)))
                         (loadFilter w b))
  end.

(** The condition a [where] object puts on a settlement row; [None] when
    Prisma refuses the object. *)
Definition settlementFilter (w : SettlementWhere.t)
    : option (DriverSettlement.t -> bool) :=
  match (match SettlementWhere.status w with
         | Some st =>
           option_map (fun st s =>
                         SettlementStatus_eqb (DriverSettlement.status s) st)
                      (parseSettlementStatus st)
         | None => Some (fun _ => true)
         end),
        isDate (SettlementWhere.periodEndGte w)
        && isDate (SettlementWhere.periodEndLte w) with
  | Some statusOk, true =>
    Some (fun s =>
            equalsIf (SettlementWhere.driverId w) (DriverSettlement.driverId s)
            && statusOk s
            && fromDate (SettlementWhere.periodEndGte w)
                        (DriverSettlement.periodEnd s)
            && untilDate (SettlementWhere.periodEndLte w)
                         (DriverSettlement.periodEnd s))
  | _, _ => None
  end.

Definition settlementWhere (user : User) (q : SettlementQuery.t)
    : SettlementWhere.t :=
  SettlementWhere.mk
    (if UserType_eqb (userType user) DRIVER then Some (userId user)
     else given (SettlementQuery.driverId q))
    (given (SettlementQuery.status q))
    (SettlementQuery.dateFrom q)
    (SettlementQuery.dateTo q).

Definition getAllSettlements (user : User) (q : SettlementQuery.t) (db : DB)
    : Thrown + Page DriverSettlement.t :=
  paginate (SettlementQuery.page q) (SettlementQuery.limit q)
           (option_map (fun matches => findMany matches (driverSettlement db))
                       (settlementFilter (settlementWhere user q))).

End WithPrisma.

(** Only a load in [DRAFT] or [CANCELLED] is deleted, and deleting is
    writing [deletedAt]. *)
Definition deleteLoad (now : Z) (id : string) (b : Books)
    : Response * Books :=
  match LoadController.findLoad id (store b) with
  | None => (ApiError "Load not found" 404, b)
  | Some load =>
    if negb (Js.includes ["DRAFT"; "CANCELLED"]
                         (statusName (Load.status load))) then
      (ApiError "Load cannot be deleted in current status" 400, b)
    else
      (ApiSuccess "Load deleted successfully" 200,
       withLoadDeletion
         (writeColumns LoadDeletion.loadId LoadDeletion.blank id
            (LoadDeletion.delete now) (loadDeletion b)) b)
  end.

End Listings.

(** ** Change of password ([changePassword] of AuthController) *)

Module Passwords.
Import AuthController.

(** [data: { passwordHash }] *)
Definition setPasswordHash (passwordHash : string) (a : Account.t)
    : Account.t :=
  Account.mk (Account.id a) (Account.email a) passwordHash
             (Account.isActive a) (Account.failedLoginAttempts a)
             (Account.lockedUntil a) (Account.lastLogin a).

Definition setDriverPasswordHash (passwordHash : string) (d : Driver.t)
    : Driver.t :=
  Driver.onAccount (setPasswordHash passwordHash) d.

Section WithBcrypt.

(** [bcrypt.compare(password, hash)] *)
Variable bcryptCompare : string -> string -> bool.

(** What is left to do once the row of the caller has been read: check the
    current password, then write the new hash and the time. *)
Definition renew (currentPassword : string) (passwordHash : string)
    (updated : Books) (b : Books) : Response * Books :=
  if negb (bcryptCompare currentPassword passwordHash) then
    (ApiError "Current password is incorrect" 401, b)
  else (ApiSuccess "Password changed successfully" 200, updated).

(** [newPasswordHash] is what [bcrypt.hash(newPassword, 12)] returns in
    this call.  A caller whose row is missing makes [user.passwordHash]
    throw. *)
Definition changePassword (now : Z) (newPasswordHash : string) (user : User)
    (currentPassword newPassword : option string) (b : Books)
    : Thrown + Response * Books :=
  match Js.orElse currentPassword None, Js.orElse newPassword None with
  | Some currentPassword, Some newPassword =>
    if (String.length newPassword <? 8)%nat then
      inr (ApiError "New password must be at least 8 characters" 400, b)
    else
      match userType user with
      | INTERNAL_USER =>
        match findFirst (fun u => hasId (userId user) (InternalUser.account u))
                        (internalUser (store b)) with
        | None => inl TypeError
        | Some row =>
          inr (renew currentPassword
                 (Account.passwordHash (InternalUser.account row))
                 (withInternalUserPassword
                    (writeColumns PasswordStamp.id PasswordStamp.blank
                       (userId user) (PasswordStamp.stamp now)
                       (internalUserPassword b))
                    (withStore
                       (withInternalUser
                          (updateWhere
                             (fun u => hasId (userId user)
                                             (InternalUser.account u))
                             (InternalUser.onAccount
                                (setPasswordHash newPasswordHash))
                             (internalUser (store b)))
                          (store b)) b))
                 b)
        end
      | SHIPPER_USER =>
        match findFirst (fun u => hasId (userId user) (ShipperUser.account u))
                        (shipperUser (store b)) with
        | None => inl TypeError
        | Some row =>
          inr (renew currentPassword
                 (Account.passwordHash (ShipperUser.account row))
                 (withShipperUserPassword
                    (writeColumns PasswordStamp.id PasswordStamp.blank
                       (userId user) (PasswordStamp.stamp now)
                       (shipperUserPassword b))
                    (withStore
                       (withShipperUser
                          (updateWhere
                             (fun u => hasId (userId user)
                                             (ShipperUser.account u))
                             (ShipperUser.onAccount
                                (setPasswordHash newPasswordHash))
                             (shipperUser (store b)))
                          (store b)) b))
                 b)
        end
      | DRIVER =>
        match findFirst (fun d => hasId (userId user) (Driver.account d))
                        (driver (store b)) with
        | None => inl TypeError
        | Some row =>
          inr (renew currentPassword
                 (Account.passwordHash (Driver.account row))
                 (withDriverPassword
                    (writeColumns PasswordStamp.id PasswordStamp.blank
                       (userId user) (PasswordStamp.stamp now)
                       (driverPassword b))
                    (withStore
                       (withDriver
                          (updateWhere
                             (fun d => hasId (userId user) (Driver.account d))
                             (setDriverPasswordHash newPasswordHash)
                             (driver (store b)))
                          (store b)) b))
                 b)
        end
      end
  | _, _ => inr (ApiError "Current and new passwords required" 400, b)
  end.

End WithBcrypt.

End Passwords.

(** ** Vocabulary of the properties *)

Module LoadLifecycle.

(** A target is "in the adjacency table for the current status" when the
    table has an entry for that status and the entry lists the target. *)
Definition inAdjacencyTable (current : LoadStatus) (target : string) : bool :=
  match LoadController.allowedTransitions current with
  | Some targets => Js.includes targets target
  | None => false
  end.

(** The status of the load [id] in the store, if there is such a load. *)
Definition statusOf (id : string) (db : DB) : option LoadStatus :=
  option_map Load.status (LoadController.findLoad id db).

End LoadLifecycle.

(** ** Sample stores *)

Module Sample.

Definition dispatcher : User := mkUser "U1" INTERNAL_USER.
Definition driverUser : User := mkUser "D1" DRIVER.

Definition loadIn (s : LoadStatus) : Load.t :=
  Load.mk "L1" "LOAD-2026-0001" s "SC1" (Some 1500%float) (Some 1000%float)
          1000 2000 None None None.

(** A store whose only row is the load [L1], in status [s]. *)
Definition storeWithLoad (s : LoadStatus) : DB :=
  withLoad [loadIn s] emptyDB.

Definition negotiationIn (s : NegotiationStatus) : LoadNegotiation.t :=
  LoadNegotiation.mk "N1" "L1" 1500%float (Some 1400%float) None BY_SHIPPER
                     None s None.

(** The load [L1] under negotiation [N1], which is in status [s]. *)
Definition storeWithNegotiation (s : NegotiationStatus) : DB :=
  withLoadNegotiation [negotiationIn s] (storeWithLoad NEGOTIATING).

Definition assignment (acceptedAt rejectedAt : option Z) : LoadAssignment.t :=
  LoadAssignment.mk "A1" "L1" "D1" "U1" None None None acceptedAt rejectedAt
                    None.

(** The load [L1] in status [s], assigned to the driver [D1] by the
    assignment [A1] with the given timestamps. *)
Definition storeWithAssignment (s : LoadStatus)
    (acceptedAt rejectedAt : option Z) : DB :=
  withLoadAssignment [assignment acceptedAt rejectedAt] (storeWithLoad s).

Definition pod (verifiedAt : option Z) : PodDocument.t :=
  PodDocument.mk "P1" "L1" "D1" "/uploads/sig.png" (Some "R. Roe") None
                 40%float (-75)%float 100 100 None verifiedAt None.

(** The load [L1] in status [s] with the POD document [P1] of driver
    [D1]. *)
Definition storeWithPod (s : LoadStatus) (verifiedAt : option Z) : DB :=
  withPodDocument [pod verifiedAt] (storeWithAssignment s (Some 5) None).

Definition signatureFile : PODController.File :=
  PODController.mkFile "image/png" (Some "/uploads/sig.png").

Definition driverRow (id email : string) : Driver.t :=
  Driver.mk (Account.mk id email "hash-of-secret" true 0 None None)
            "Dana" "Doe" true.

(** Two vehicles and two drivers, no assignment yet. *)
Definition fleet : DB :=
  mkDB [] [] [] [] [] [] []
       [driverRow "D1" "dana@example.com"; driverRow "D2" "eli@example.com"]
       [] [] [] [] [Vehicle.mk "V1" "TRK-1"; Vehicle.mk "V2" "TRK-2"]
       [] [] [] [] [] [].

Definition settlementNumber (_ : Z) (_ : DB) : string := "SETTLE-2026-0001".

Definition deduction (amount : float) : SettlementController.DeductionInput :=
  SettlementController.mkDeduction (Some "Fuel advance") amount None.

(** The completed load [L1] (driver pay 1000, shipper rate 1500) of client
    [SC1], delivered by driver [D1]. *)
Definition completed : DB :=
  mkDB [loadIn COMPLETED] [] [] [] [assignment (Some 5) None] [] [] []
       [ShipperClient.mk "SC1" true (Some 15)] [] [] [] [] [] [] [] [] [] [].

Definition invoiceNumber (_ : Z) (_ : DB) : string := "INV-2026-0001".

Definition addDays (d n : Z) : Z := d + n * 86400000.

Definition lineItem (amount : float) : InvoiceController.LineItemInput :=
  InvoiceController.mkLineItem "Freight" 1%float amount amount.

(** The store after invoicing [L1] for one line of 1000 at a tax rate of
    10: the draft invoice [I1] with amounts 1000, 100 and 1100. *)
Definition draftInvoice : DB :=
  snd (InvoiceController.createInvoiceFromLoad invoiceNumber addDays 0 "I1"
         "L1" (Some [lineItem 1000]) (Some 10%float) None completed).

(** The store after the draft [I1] is updated with one line of 2000 and no
    tax rate. *)
Definition repricedInvoice : DB :=
  snd (InvoiceController.updateInvoice "I1" (Some [lineItem 2000]) None None
         draftInvoice).

(** [bcrypt.compare] for the sample accounts, whose password is
    ["secret"]. *)
Definition bcryptCompare (password hash : string) : bool :=
  String.eqb ("hash-of-" ++ password) hash.

End Sample.

Module Negotiations.

(** The status of the negotiation [id] in the store. *)
Definition statusOf (id : string) (db : DB) : option NegotiationStatus :=
  option_map LoadNegotiation.status (LoadController.findNegotiation id db).

(** The shipper rate of the load [id] in the store. *)
Definition rateOf (id : string) (db : DB) : option float :=
  match LoadController.findLoad id db with
  | Some l => Load.shipperRate l
  | None => None
  end.

End Negotiations.

Module Assignments.

(** The assignment [id] of the store. *)
Definition lookup (id : string) (db : DB) : option LoadAssignment.t :=
  DriverController.findAssignment id db.

(** An assignment is resolved once either timestamp is set. *)
Definition resolved (a : LoadAssignment.t) : bool :=
  DriverController.isSet (LoadAssignment.acceptedAt a)
  || DriverController.isSet (LoadAssignment.rejectedAt a).

End Assignments.

Module Fleet.

(** The assignments of vehicle [id] with [isCurrentlyAssigned = true]. *)
Definition currentAssignments (id : string) (db : DB)
    : list VehicleAssignment.t :=
  findMany (VehicleController.currentOf id) (vehicleAssignment db).

Definition activeCount (id : string) (db : DB) : nat :=
  List.length (currentAssignments id db).

(** A call of one of the two endpoints, with everything it reads besides
    the store. *)
Inductive Call : Set :=
  | Assign (now : Z) (newId id driverId : string) (notes : option string)
  | Unassign (now : Z) (id : string).

Definition step (db : DB) (c : Call) : DB :=
  match c with
  | Assign now newId id driverId notes =>
    snd (VehicleController.assignVehicle now newId id driverId notes db)
  | Unassign now id => snd (VehicleController.unassignVehicle now id db)
  end.

(** The store after a sequence of calls, one after the other. *)
Definition run (calls : list Call) (db : DB) : DB := fold_left step calls db.

(** At most one current assignment per vehicle. *)
Definition atMostOneCurrent (db : DB) : Prop :=
  forall id, (activeCount id db <= 1)%nat.

End Fleet.

Module Lockout.
Import AuthController.

(** The cooldown window of a lock, in milliseconds. *)
Definition cooldown : Z := 15 * 60 * 1000.

(** A login endpoint: clock, email, password, store. *)
Definition Login : Type := Z -> string -> string -> DB -> Response * DB.

(** A run of login attempts on one email, one after the other, each with
    its time and its password: the responses and the final store. *)
Fixpoint attempts (login : Login) (email : string) (tries : list (Z * string))
    (db : DB) : list Response * DB :=
  match tries with
  | [] => ([], db)
  | (now, password) :: rest =>
    let (response, db1) := login now email password db in
    let (responses, db2) := attempts login email rest db1 in
    (response :: responses, db2)
  end.

(** The three principal tables behind one interface: the rows, how a table
    is replaced, the account columns of a row, and the check a row must
    pass between the activity check and the password check ([None] when it
    passes). *)
Section Principals.
Variable Row : Type.
Variable table : DB -> list Row.
Variable withTable : list Row -> DB -> DB.
Variable account : Row -> Account.t.
Variable onAccount : (Account.t -> Account.t) -> Row -> Row.
Variable precheck : Row -> DB -> option Response.
Variable bcryptCompare : string -> string -> bool.

Definition lookupRow (email : string) (db : DB) : option Row :=
  findFirst (fun r => hasEmail email (account r)) (table db).

(** The account registered under an email. *)
Definition accountOf (email : string) (db : DB) : option Account.t :=
  option_map account (lookupRow email db).

(** The account is active and passes the check before the password. *)
Definition eligible (email : string) (db : DB) : bool :=
  match lookupRow email db with
  | Some r =>
    Account.isActive (account r)
    && match precheck r db with None => true | Some _ => false end
  | None => false
  end.

(** A row is ready for a password check: found under the email, with
    account [a], active, and past the check before the password. *)
Definition ready (email : string) (db : DB) (a : Account.t) : Prop :=
  exists r,
    lookupRow email db = Some r /\ account r = a
    /\ Account.isActive a = true /\ precheck r db = None.

(** The login handler all three tables share. *)
Definition loginWith : Login := fun now email password db =>
  match lookupRow email db with
  | None => (invalidCredentials, db)
  | Some user =>
    let a := account user in
    if isLocked now a then (accountLocked, db)
    else if negb (Account.isActive a) then
      (ApiError "Account is inactive" 403, db)
    else
      match precheck user db with
      | Some refusal => (refusal, db)
      | None =>
        if negb (bcryptCompare password (Account.passwordHash a)) then
          (invalidCredentials,
           withTable
             (updateWhere (fun u => hasId (Account.id a) (account u))
                (onAccount (updateData now a)) (table db)) db)
        else
          (loginSuccessful,
           withTable
             (updateWhere (fun u => hasId (Account.id a) (account u))
                (onAccount (Account.reset now)) (table db)) db)
      end
  end.

(** The lockout policy of a login endpoint [login], for the accounts
    [accountOf] finds:
    - five failed password checks in a row, counted from a reset counter
      and none of them stopped by an earlier lock, are each answered 401,
      and the fifth locks the account until [cooldown] after it; from then
      until that time every attempt, whatever the password, is answered
      423 and changes nothing;
    - any attempt made while a lock has not elapsed is answered 423 and
      changes nothing;
    - a successful login sets the failed-attempt counter to zero and clears
      the lock. *)
Definition policy (login : Login) : Prop :=
  (forall db email a t1 t2 t3 t4 t5 p1 p2 p3 p4 p5,
      accountOf email db = Some a ->
      eligible email db = true ->
      Account.failedLoginAttempts a = 0 ->
      isLocked t1 a = false ->
      t1 <= t2 /\ t2 <= t3 /\ t3 <= t4 /\ t4 <= t5 ->
      Forall (fun p => bcryptCompare p (Account.passwordHash a) = false)
             [p1; p2; p3; p4; p5] ->
      let run := attempts login email
                   [(t1, p1); (t2, p2); (t3, p3); (t4, p4); (t5, p5)] db in
      fst run = [invalidCredentials; invalidCredentials; invalidCredentials;
                 invalidCredentials; invalidCredentials]
      /\ option_map Account.lockedUntil (accountOf email (snd run))
         = Some (Some (t5 + cooldown))
      /\ option_map Account.failedLoginAttempts (accountOf email (snd run))
         = Some 5
      /\ (forall now password,
          now < t5 + cooldown ->
          login now email password (snd run) = (accountLocked, snd run)))
  /\ (forall db email a lockedUntil now password,
      accountOf email db = Some a ->
      Account.lockedUntil a = Some lockedUntil ->
      now < lockedUntil ->
      login now email password db = (accountLocked, db))
  /\ (forall db email a now password,
      accountOf email db = Some a ->
      eligible email db = true ->
      isLocked now a = false ->
      bcryptCompare password (Account.passwordHash a) = true ->
      fst (login now email password db) = loginSuccessful
      /\ option_map Account.failedLoginAttempts
           (accountOf email (snd (login now email password db))) = Some 0
      /\ option_map Account.lockedUntil
           (accountOf email (snd (login now email password db)))
         = Some None).

End Principals.

(** The check of [loginShipperUser] between activity and password: the
    shipper client of the user must be [ACTIVE]. *)
Definition shipperClientCheck (u : ShipperUser.t) (db : DB) : option Response :=
  match findFirst (fun c => String.eqb (ShipperClient.id c)
                                       (ShipperUser.shipperClientId u))
                  (shipperClient db) with
  | None => Some (NextError RecordNotFound)
  | Some client =>
    if negb (ShipperClient.isActiveStatus client)
    then Some (ApiError "Shipper account is inactive" 403)
    else None
  end.

Definition noCheck (Row : Type) (_ : Row) (_ : DB) : option Response := None.

End Lockout.

Module Settlements.
Import SettlementController.

(** The sum of a list of amounts, added up from the left starting at 0. *)
Definition sumAmounts (amounts : list float) : float :=
  fold_left PrimFloat.add amounts 0%float.

(** The amounts a request asks to deduct, as [parseFloat] reads them. *)
Definition requestedAmounts (deductions : list DeductionInput) : list float :=
  map (fun d => Js.parseFloat (amount d)) deductions.

(** A deduction amount is a non-negative number. *)
Definition nonNegative (x : float) : Prop := invalidAmount x = false.

(** [x < 0] *)
Definition negative (x : float) : Prop := PrimFloat.ltb x 0%float = true.

(** The loads a period settlement pays. *)
Definition periodLoads (driverId : string) (startDate endDate : Z) (db : DB)
    : list Load.t :=
  findMany (inPeriod driverId startDate endDate db) (load db).

(** A settlement and its deduction rows agree: the net amount is the gross
    amount minus the sum of the deduction amounts, that sum is the stored
    total of deductions, every deduction amount is a non-negative number,
    and the net amount is not negative. *)
Definition consistent (s : DriverSettlement.t)
    (rows : list SettlementDeduction.t) : Prop :=
  DriverSettlement.netAmount s
  = PrimFloat.sub (DriverSettlement.grossAmount s)
      (sumAmounts (map SettlementDeduction.amount rows))
  /\ DriverSettlement.totalDeductions s
     = sumAmounts (map SettlementDeduction.amount rows)
  /\ Forall (fun r => nonNegative (SettlementDeduction.amount r)) rows
  /\ ~ negative (DriverSettlement.netAmount s).

(** What a successful creation adds to the store: one settlement [s] with
    gross amount [gross], and the deduction rows [rows] of the request,
    attached to it. *)
Definition created (gross : float) (deductions : list DeductionInput)
    (db db' : DB) : Prop :=
  exists s rows,
    driverSettlement db' = (driverSettlement db ++ [s])%list
    /\ settlementDeduction db' = (settlementDeduction db ++ rows)%list
    /\ DriverSettlement.grossAmount s = gross
    /\ map SettlementDeduction.amount rows = requestedAmounts deductions
    /\ Forall (fun r => SettlementDeduction.settlementId r
                        = DriverSettlement.id s) rows
    /\ consistent s rows.

End Settlements.

Module Invoices.
Import InvoiceController.

(** The sum of the amounts of stored line items. *)
Definition lineTotal (rows : list InvoiceLineItem.t) : float :=
  fold_left (fun subtotal r =>
               PrimFloat.add subtotal (Js.parseFloat (InvoiceLineItem.amount r)))
            rows 0%float.

(** The line items of invoice [id] in the store. *)
Definition itemsOf (id : string) (db : DB) : list InvoiceLineItem.t :=
  findMany (fun li => String.eqb (InvoiceLineItem.invoiceId li) id)
           (invoiceLineItem db).

(** [subtotal * (taxRate / 100)] *)
Definition taxOn (subtotal taxRate : float) : float :=
  PrimFloat.mul subtotal (PrimFloat.div taxRate 100%float).

(** The three amounts of an invoice. *)
Definition amounts (i : ShipperInvoice.t) : float * float * float :=
  (ShipperInvoice.subtotal i, ShipperInvoice.taxAmount i,
   ShipperInvoice.total i).

(** The relation of the invoice amounts at tax rate [taxRate]: the
    subtotal is the sum of the line-item amounts, the tax amount is the
    subtotal times the rate over 100, the total is subtotal plus tax. *)
Definition consistentAt (taxRate : float) (i : ShipperInvoice.t)
    (rows : list InvoiceLineItem.t) : Prop :=
  ShipperInvoice.subtotal i = lineTotal rows
  /\ ShipperInvoice.taxAmount i = taxOn (ShipperInvoice.subtotal i) taxRate
  /\ ShipperInvoice.total i
     = PrimFloat.add (ShipperInvoice.subtotal i) (ShipperInvoice.taxAmount i).

End Invoices.

(** ** Vocabulary of the further properties *)

Module Progress.
Import LoadController.

(** One call of the status endpoint on a load: the time of the call and
    the body of the request. *)
Record StatusCall : Set := mkStatusCall {
  at_ : Z;
  status : string;
  notes : option string;
  gpsLat : option float;
  gpsLng : option float
}.

(** The load after an accepted update to [target] at time [now]. *)
Definition updated (now : Z) (target : LoadStatus) (l : Load.t) : Load.t :=
  let l := Load.setStatus target l in
  match target with
  | LOADED => Load.setActualPickupTime now l
  | DELIVERED => Load.setActualDeliveryTime now l
  | _ => l
  end.

(** The calls of one user on one load, one after the other. *)
Fixpoint updates (user : User) (id : string) (calls : list StatusCall)
    (db : DB) : list Response * DB :=
  match calls with
  | [] => ([], db)
  | c :: rest =>
    let (response, db1) :=
      updateLoadStatus (at_ c) user id (status c) (notes c) (gpsLat c)
                       (gpsLng c) db in
    let (responses, db2) := updates user id rest db1 in
    (response :: responses, db2)
  end.

(** Every requested status names a member of the enum and is allowed from
    the status the calls before it lead to, starting from [current]. *)
Fixpoint onTrack (current : LoadStatus) (calls : list StatusCall) : bool :=
  match calls with
  | [] => true
  | c :: rest =>
    match parseStatus (status c) with
    | Some target =>
      negb (invalidTransition current (status c)) && onTrack target rest
    | None => false
    end
  end.

(** The load after the calls, when they are on track. *)
Fixpoint replay (l : Load.t) (calls : list StatusCall) : Load.t :=
  match calls with
  | [] => l
  | c :: rest =>
    match parseStatus (status c) with
    | Some target => replay (updated (at_ c) target l) rest
    | None => l
    end
  end.

(** The history rows of the calls, when they are on track. *)
Fixpoint ledger (user : User) (id : string) (current : LoadStatus)
    (calls : list StatusCall) : list LoadStatusHistory.t :=
  match calls with
  | [] => []
  | c :: rest =>
    match parseStatus (status c) with
    | Some target =>
      LoadStatusHistory.mk id current target (userId user) (userType user)
                           (notes c)
      :: ledger user id target rest
    | None => []
    end
  end.

(** The six calls of a delivery, at the given times. *)
Definition delivery (t1 t2 t3 t4 t5 t6 : Z) : list StatusCall :=
  [mkStatusCall t1 "EN_ROUTE_PICKUP" None None None;
   mkStatusCall t2 "AT_PICKUP" None None None;
   mkStatusCall t3 "LOADED" None None None;
   mkStatusCall t4 "EN_ROUTE_DELIVERY" None None None;
   mkStatusCall t5 "AT_DELIVERY" None None None;
   mkStatusCall t6 "DELIVERED" None None None].

End Progress.

Module Pod.
Import PODController.

(** The file is accepted: it passes [validateImageFile] and its upload
    goes through. *)
Definition accepted (f : File) : bool :=
  match validateAndUpload f with inr _ => true | inl _ => false end.

(** The exception of the first photo that is refused, if any. *)
Fixpoint firstRefusal (photos : list File) : option Exn :=
  match photos with
  | [] => None
  | f :: rest =>
    match validateAndUpload f with
    | inl e => Some e
    | inr _ => firstRefusal rest
    end
  end.

(** The photo rows of the photos before the first refused one, numbered
    from [i]. *)
Fixpoint photoRows (podId : string) (i : nat) (photos : list File)
    : list PodPhoto.t :=
  match photos with
  | [] => []
  | f :: rest =>
    match validateAndUpload f with
    | inl _ => []
    | inr url => PodPhoto.mk podId url i :: photoRows podId (S i) rest
    end
  end.

(** The POD document a submission creates. *)
Definition submitted (now : Z) (newId : string) (user : User)
    (loadId : string) (recipientName recipientTitle : option string)
    (gpsLat gpsLng : float) (notes : option string) (url : string)
    : PodDocument.t :=
  PodDocument.mk newId loadId (userId user) url recipientName recipientTitle
                 gpsLat gpsLng now now notes None None.

(** The load is in one of the two statuses a POD can be submitted in. *)
Definition deliverable (l : Load.t) : bool :=
  LoadStatus_eqb (Load.status l) DELIVERED
  || LoadStatus_eqb (Load.status l) AT_DELIVERY.

End Pod.

Module Payouts.
Import SettlementController SettlementDisputes.

(** The settlement that stands in the way of a new one for the load: the
    first one attached to the load that is not disputed. *)
Definition blocking (loadId : string) (db : DB) : option DriverSettlement.t :=
  findFirst (fun s => loadIdIs loadId s && notDisputed s) (driverSettlement db).

(** The settlements attached to a load. *)
Definition settlementsOf (loadId : string) (db : DB)
    : list DriverSettlement.t :=
  findMany (loadIdIs loadId) (driverSettlement db).

(** The status of the settlement [id] in the store. *)
Definition statusOf (id : string) (db : DB) : option SettlementStatus :=
  option_map DriverSettlement.status (findSettlement id db).

(** The gross amounts of the settlements of a driver over exactly the
    period from [startDate] to [endDate]. *)
Definition periodGross (driverId : string) (startDate endDate : Z) (db : DB)
    : list float :=
  map DriverSettlement.grossAmount
    (findMany (fun s => String.eqb (DriverSettlement.driverId s) driverId
                        && (DriverSettlement.periodStart s =? startDate)
                        && (DriverSettlement.periodEnd s =? endDate)
                        && match DriverSettlement.loadId s with
                           | None => true
                           | Some _ => false
                           end)
              (driverSettlement db)).

End Payouts.

Module Samples.

(** A [trim] for the sample requests: ASCII spaces are dropped at both
    ends. *)
Fixpoint trimStart (s : string) : string :=
  match s with
  | String c rest =>
    if Ascii.eqb c (Ascii.ascii_of_nat 32) then trimStart rest else s
  | EmptyString => s
  end.

Fixpoint rev (s acc : string) : string :=
  match s with
  | EmptyString => acc
  | String c rest => rev rest (String c acc)
  end.

Definition trim (s : string) : string :=
  rev (trimStart (rev (trimStart s) "")) "".

Definition toISOString (_ : Z) : string := "2026-03-01T00:00:00.000Z".

(** The completed load [L1], delivered at time 1500, with an accountant,
    an administrator who is not active and a dispatcher. *)
Definition delivered : DB :=
  mkDB [Load.mk "L1" "LOAD-2026-0001" COMPLETED "SC1" (Some 1500%float)
          (Some 1000%float) 1000 2000 (Some 1100) (Some 1500) None]
       [] [] [] [Sample.assignment (Some 5) None]
       [InternalUser.mk
          (Account.mk "U7" "ada@example.com" "hash-of-secret" true 0 None None)
          "ACCOUNTANT";
        InternalUser.mk
          (Account.mk "U8" "bo@example.com" "hash-of-secret" false 0 None None)
          "ADMIN";
        InternalUser.mk
          (Account.mk "U1" "cy@example.com" "hash-of-secret" true 0 None None)
          "DISPATCHER"]
       [] [Sample.driverRow "D1" "dana@example.com"]
       [ShipperClient.mk "SC1" true (Some 15)] [] [] [] [] [] [] [] [] [] [].

(** A second load, [L2], scheduled. *)
Definition secondLoad : Load.t :=
  Load.mk "L2" "LOAD-2026-0002" SCHEDULED "SC1" (Some 900%float)
          (Some 600%float) 3000 4000 None None None.

(** Two scheduled loads and the two drivers of the fleet. *)
Definition yard : DB :=
  withLoad [Sample.loadIn SCHEDULED; secondLoad] Sample.fleet.

(** The draft load [L1] of client [SC1], a user of that client and a user
    of another client. *)
Definition drafts : DB :=
  withShipperUser
    [ShipperUser.mk
       (Account.mk "S1" "sam@example.com" "hash-of-secret" true 0 None None)
       "SC1";
     ShipperUser.mk
       (Account.mk "S2" "tess@example.com" "hash-of-secret" true 0 None None)
       "SC2"]
    (Sample.storeWithLoad DRAFT).

(** The books opened on the store after the settlement [S1] of the load
    [L1] has been created. *)
Definition settled : Books :=
  openBooks
    (snd (SettlementController.createSettlementFromLoad
            Sample.settlementNumber 10 "S1" "L1" [Sample.deduction 100]
            delivered)).

(** [parseInt] for the sample queries: a string of decimal digits reads
    as its number, any other string as [NaN]. *)
Definition parseInt (s : string) : option Z :=
  option_map (fun u => Z.of_nat (Nat.of_uint u)) (NilZero.uint_of_string s).

(** [skip] rows are passed over and [take] rows returned; numbers that are
    [NaN] or negative are refused. *)
Definition window (A : Type) (skip take : option Z) (rows : list A)
    : option (list A) :=
  match skip, take with
  | Some s, Some t =>
    if (0 <=? s) && (0 <=? t)
    then Some (firstn (Z.to_nat t) (skipn (Z.to_nat s) rows))
    else None
  | _, _ => None
  end.

(** Every equipment type is accepted and every load has it; every load
    mentions every text. *)
Definition equipmentIs (_ : string) : option (Load.t -> bool) :=
  Some (fun _ => true).

Definition mentions (_ : string) (_ : Load.t) : bool := true.

(** A query with no filter. *)
Definition anyLoad : LoadQuery.t :=
  LoadQuery.mk None None None None None NoDate NoDate None.

Definition anySettlement : SettlementQuery.t :=
  SettlementQuery.mk None None None None NoDate NoDate.

End Samples.

Module Billing.
Import InvoiceController.

(** The invoice that stands in the way of a new one for the load: the
    first invoice of the load that is not cancelled. *)
Definition openInvoice (loadId : string) (db : DB) : option ShipperInvoice.t :=
  findFirst (fun i => String.eqb (ShipperInvoice.loadId i) loadId
                      && match ShipperInvoice.status i with
                         | INV_CANCELLED => false
                         | _ => true
                         end)
            (shipperInvoice db).

(** The status of the invoice [id] in the store. *)
Definition statusOf (id : string) (db : DB) : option InvoiceStatus :=
  option_map ShipperInvoice.status (findInvoice id db).

End Billing.

Module Garage.
Import VehicleController Fleet.

(** The vehicle a call is about. *)
Definition vehicleOf (c : Call) : string :=
  match c with
  | Assign _ _ id _ _ => id
  | Unassign _ id => id
  end.

(** The store has the vehicle and the driver. *)
Definition known (id driverId : string) (db : DB) : bool :=
  match findFirst (fun v => String.eqb (Vehicle.id v) id) (vehicle db),
        findFirst (fun d => String.eqb (Driver.id d) driverId) (driver db) with
  | Some _, Some _ => true
  | _, _ => false
  end.

End Garage.

Module Guard.
Import AuthController Lockout.

Section Principals.
Variable Row : Type.
Variable table : DB -> list Row.
Variable account : Row -> Account.t.
Variable precheck : Row -> DB -> option Response.
Variable bcryptCompare : string -> string -> bool.

Local Abbreviation accountOf := (accountOf table account).
Local Abbreviation eligible := (eligible table account precheck).

(** How a login endpoint [login] counts failed password checks on the
    accounts [accountOf] finds:
    - below a counter of four a failed check adds one to the counter and
      leaves the lock column as it is;
    - from a counter of four on, a failed check adds one and locks the
      account until [cooldown] after it: the counter is not reset when a
      lock elapses, so after a first lockout every single failed check
      locks the account again, until a login succeeds. *)
Definition counting (login : Login) : Prop :=
  (forall db email a now password,
      accountOf email db = Some a ->
      eligible email db = true ->
      isLocked now a = false ->
      Account.failedLoginAttempts a < 4 ->
      bcryptCompare password (Account.passwordHash a) = false ->
      fst (login now email password db) = invalidCredentials
      /\ accountOf email (snd (login now email password db))
         = Some (Account.setFailed (Account.failedLoginAttempts a + 1) a))
  /\ (forall db email a now password,
      accountOf email db = Some a ->
      eligible email db = true ->
      isLocked now a = false ->
      4 <= Account.failedLoginAttempts a ->
      bcryptCompare password (Account.passwordHash a) = false ->
      fst (login now email password db) = invalidCredentials
      /\ accountOf email (snd (login now email password db))
         = Some (Account.setFailedAndLock (Account.failedLoginAttempts a + 1)
                   (now + cooldown) a)).

(** What a login endpoint leaves alone:
    - an attempt on an email that is not registered, on an account that is
      not active or on one that fails the check before the password never
      succeeds, whatever the password, and writes nothing;
    - an attempt on one account leaves every account with another
      identifier as it was. *)
Definition contained (login : Login) : Prop :=
  (forall db email now password,
      eligible email db = false ->
      isSuccess (fst (login now email password db)) = false
      /\ snd (login now email password db) = db)
  /\ (forall db email a email' a' now password,
      accountOf email db = Some a ->
      accountOf email' db = Some a' ->
      Account.id a' <> Account.id a ->
      accountOf email' (snd (login now email password db)) = Some a').

End Principals.

End Guard.

Module Dispatch.
Import LoadController.

(** The driver [id] of the store. *)
Definition driverOf (id : string) (db : DB) : option Driver.t :=
  findFirst (fun d => String.eqb (Driver.id d) id) (driver db).

(** The driver can be given a load: active and available. *)
Definition assignable (d : Driver.t) : bool :=
  Driver.isActive d && Driver.isAvailable d.

(** The assignments of a driver, in the order they were made. *)
Definition assignmentsOf (driverId : string) (db : DB)
    : list LoadAssignment.t :=
  findMany (fun a => String.eqb (LoadAssignment.driverId a) driverId)
           (loadAssignment db).

End Dispatch.

Module Ownership.
Import AuthMiddleware.

(** The shipper client a user belongs to, if the user is a shipper user
    with a row in the store. *)
Definition clientOf (user : User) (db : DB) : option string :=
  match userType user with
  | SHIPPER_USER =>
    option_map ShipperUser.shipperClientId (findShipperUser (userId user) db)
  | _ => None
  end.

(** The load is a draft of the client the user belongs to. *)
Definition ownsDraft (user : User) (id : string) (db : DB) : bool :=
  match LoadController.findLoad id db, clientOf user db with
  | Some l, Some c =>
    LoadStatus_eqb (Load.status l) DRAFT
    && String.eqb (Load.shipperClientId l) c
  | _, _ => false
  end.

End Ownership.

Module Review.
Import SettlementDisputes SettlementReview.

Section WithText.
Variable trim : string -> string.
Variable toISOString : Z -> string.

(** A call of one of the three endpoints that change the status of a
    settlement, with everything it reads besides the books. *)
Inductive Call : Set :=
  | Approve (now : Z) (user : User) (id : string)
  | MarkAsPaid (now : Z) (id : string)
               (paymentMethod paymentReference : option string)
               (paidAt : DateField)
  | Dispute (now : Z) (user : User) (id : string) (reason : option string).

Definition call (c : Call) (b : Books) : Response * Books :=
  match c with
  | Approve now user id => approveSettlement now user id b
  | MarkAsPaid now id paymentMethod paymentReference paidAt =>
    markAsPaid now id paymentMethod paymentReference paidAt b
  | Dispute now user id reason =>
    onStore (disputeSettlement trim toISOString now user id reason) b
  end.

(** The books after a sequence of calls, one after the other. *)
Definition run (calls : list Call) (b : Books) : Books :=
  fold_left (fun b c => snd (call c b)) calls b.

End WithText.

(** The status of the settlement [id]. *)
Definition statusOf (id : string) (b : Books) : option SettlementStatus :=
  option_map DriverSettlement.status (findSettlement id (store b)).

(** The statuses a settlement can be found in later, given the one it is
    in now. *)
Definition later (from to : SettlementStatus) : bool :=
  match from, to with
  | SET_PENDING, _ => true
  | SET_APPROVED, (SET_APPROVED | SET_PAID | SET_DISPUTED) => true
  | SET_PAID, SET_PAID => true
  | SET_DISPUTED, SET_DISPUTED => true
  | _, _ => false
  end.

(** The payment columns of the settlement [id]. *)
Definition paymentOf (id : string) (b : Books) : SettlementPayment.t :=
  columnsOf SettlementPayment.settlementId SettlementPayment.blank id
            (settlementPayment b).

Definition isSome (A : Type) (x : option A) : bool :=
  match x with Some _ => true | None => false end.

(** What the payment columns must hold for a settlement in status [s]:
    the approver and the time of approval once it is approved or paid, and
    the time and method of payment once it is paid. *)
Definition recorded (s : SettlementStatus) (p : SettlementPayment.t) : bool :=
  match s with
  | SET_APPROVED =>
    isSome (SettlementPayment.approvedAt p)
    && isSome (SettlementPayment.approvedById p)
  | SET_PAID =>
    isSome (SettlementPayment.approvedAt p)
    && isSome (SettlementPayment.approvedById p)
    && isSome (SettlementPayment.paidAt p)
    && isSome (SettlementPayment.paymentMethod p)
  | _ => true
  end.

(** Every settlement has the columns of its status recorded. *)
Definition audited (b : Books) : Prop :=
  forall id s,
    statusOf id b = Some s -> recorded s (paymentOf id b) = true.

End Review.

Module Collection.
Import InvoiceController InvoiceCancellation InvoiceCollection.

(** A call of one of the endpoints that act on an existing invoice, with
    everything it reads besides the books. *)
Inductive Call : Set :=
  | Update (id : string) (lineItems : option (list LineItemInput))
           (taxRate : option float) (notes : option string)
  | Issue (now : Z) (id : string)
  | MarkAsPaid (now : Z) (id : string)
               (paymentMethod paymentReference : option string)
               (paidAt : DateField)
  | Cancel (id : string) (reason : option string).

Definition call (c : Call) (b : Books) : Response * Books :=
  match c with
  | Update id lineItems taxRate notes =>
    onStore (updateInvoice id lineItems taxRate notes) b
  | Issue now id => issueInvoice now id b
  | MarkAsPaid now id paymentMethod paymentReference paidAt =>
    markAsPaid now id paymentMethod paymentReference paidAt b
  | Cancel id reason => onStore (cancelInvoice id reason) b
  end.

(** The books after a sequence of calls, one after the other. *)
Definition run (calls : list Call) (b : Books) : Books :=
  fold_left (fun b c => snd (call c b)) calls b.

(** The status of the invoice [id]. *)
Definition statusOf (id : string) (b : Books) : option InvoiceStatus :=
  option_map ShipperInvoice.status (findInvoice id (store b)).

(** The statuses an invoice can be found in later, given the one it is in
    now. *)
Definition later (from to : InvoiceStatus) : bool :=
  match from, to with
  | INV_DRAFT, (INV_DRAFT | INV_SENT | INV_PAID | INV_CANCELLED) => true
  | INV_SENT, (INV_SENT | INV_PAID | INV_CANCELLED) => true
  | INV_OVERDUE, (INV_OVERDUE | INV_PAID | INV_CANCELLED) => true
  | INV_PAID, INV_PAID => true
  | INV_CANCELLED, INV_CANCELLED => true
  | _, _ => false
  end.

(** The call is a mark-as-paid of the invoice [id]. *)
Definition paymentOf (id : string) (c : Call) : bool :=
  match c with
  | MarkAsPaid _ id' _ _ _ => String.eqb id' id
  | _ => false
  end.

(** How many of the calls are mark-as-paid calls of the invoice [id] that
    succeed, when the calls are made one after the other. *)
Fixpoint payments (id : string) (calls : list Call) (b : Books) : nat :=
  match calls with
  | [] => 0
  | c :: rest =>
    (if paymentOf id c && isSuccess (fst (call c b)) then 1 else 0)
    + payments id rest (snd (call c b))
  end.

(** The amounts taken off the balance of a client so far. *)
Definition takenOff (clientId : string) (b : Books) : list float :=
  ClientBalance.decrements
    (columnsOf ClientBalance.clientId ClientBalance.blank clientId
               (clientBalance b)).

End Collection.

Module Scope.
Import Listings.

(** The load is assigned to the driver. *)
Definition assignedTo (driverId : string) (db : DB) (l : Load.t) : bool :=
  existsb (fun a => String.eqb (LoadAssignment.loadId a) (Load.id l)
                    && String.eqb (LoadAssignment.driverId a) driverId)
          (loadAssignment db).

(** The time the load was deleted at, if it was. *)
Definition deletedAt (id : string) (b : Books) : option Z :=
  LoadDeletion.deletedAt
    (columnsOf LoadDeletion.loadId LoadDeletion.blank id (loadDeletion b)).

(** The identifiers of the loads a listing shows. *)
Definition shown (result : Thrown + Page Load.t) : list string :=
  match result with
  | inr p => map Load.id (data p)
  | inl _ => []
  end.

End Scope.

Module Credentials.
Import AuthController Lockout Passwords.

Section Principals.
Variable Row : Type.
Variable table : DB -> list Row.
Variable withTable : list Row -> DB -> DB.
Variable account : Row -> Account.t.
Variable onAccount : (Account.t -> Account.t) -> Row -> Row.
Variable precheck : Row -> DB -> option Response.
Variable bcryptCompare : string -> string -> bool.
Variable kind : UserType.
Variable stamps : Books -> list PasswordStamp.t.

Local Abbreviation lookupRow := (lookupRow table account).
Local Abbreviation accountOf := (accountOf table account).
Local Abbreviation eligible := (eligible table account precheck).

(** The row of an identifier. *)
Definition rowOf (id : string) (db : DB) : option Row :=
  findFirst (fun r => hasId id (account r)) (table db).

(** The store after the hash of the row [r] is replaced. *)
Definition renewed (hash : string) (r : Row) (db : DB) : DB :=
  withTable
    (updateWhere (fun u => hasId (Account.id (account r)) (account u))
       (onAccount (setPasswordHash hash)) (table db)) db.

(** [r] is the row of a principal: the one found under the email and under
    its own identifier. *)
Definition principal (email : string) (db : DB) (r : Row) : Prop :=
  lookupRow email db = Some r /\ rowOf (Account.id (account r)) db = Some r.

(** [passwordUpdatedAt] of a row. *)
Definition passwordUpdatedAt (id : string) (b : Books) : option Z :=
  PasswordStamp.passwordUpdatedAt
    (columnsOf PasswordStamp.id PasswordStamp.blank id (stamps b)).

(** The request of the principal [r] of the kind at hand. *)
Definition request (now : Z) (newPasswordHash : string) (r : Row)
    (currentPassword newPassword : string) (b : Books)
    : Thrown + Response * Books :=
  changePassword bcryptCompare now newPasswordHash
    (mkUser (Account.id (account r)) kind)
    (Some currentPassword) (Some newPassword) b.

(** How a change of password and the login endpoint [login] of the same
    table go together, for a principal who sends a current password and a
    new one of eight characters or more:
    - with the right current password the change is accepted, whether the
      account is locked or active or not; it writes the new hash and the
      time and leaves the other account columns (counter and lock among
      them) as they were; from then on a login of an account that passes
      the checks before the password succeeds exactly with a password that
      matches the new hash;
    - with a wrong current password the change is answered 401 and writes
      nothing: the failed check is not counted. *)
Definition renewing (login : Login) : Prop :=
  (forall b email r now hash current new,
      principal email (store b) r ->
      current <> EmptyString ->
      (8 <= String.length new)%nat ->
      bcryptCompare current (Account.passwordHash (account r)) = true ->
      exists b',
        request now hash r current new b
        = inr (ApiSuccess "Password changed successfully" 200, b')
        /\ accountOf email (store b')
           = Some (setPasswordHash hash (account r))
        /\ passwordUpdatedAt (Account.id (account r)) b' = Some now
        /\ (forall later password,
            eligible email (store b) = true ->
            isLocked later (account r) = false ->
            fst (login later email password (store b'))
            = if bcryptCompare password hash then loginSuccessful
              else invalidCredentials))
  /\ (forall b email r now hash current new,
      principal email (store b) r ->
      current <> EmptyString ->
      (8 <= String.length new)%nat ->
      bcryptCompare current (Account.passwordHash (account r)) = false ->
      request now hash r current new b
      = inr (ApiError "Current password is incorrect" 401, b)).

End Principals.

End Credentials.

(** * Properties *)

Unset Implicit Arguments.

(** ** Queries *)

Section QueryFacts.
Variable A : Type.
Implicit Types (p q : A -> bool) (f : A -> A) (rows : list A).

Lemma findFirst_updateWhere p q f rows :
  (forall r, p (f r) = p r) ->
  findFirst p (updateWhere q f rows)
  = option_map (fun r => if q r then f r else r) (findFirst p rows).
Proof.
  intros Hp. unfold findFirst, updateWhere.
  induction rows as [|r rows IH]; simpl; [reflexivity|].
  destruct (q r) eqn:Hq; [rewrite Hp|]; destruct (p r); simpl;
    rewrite ?Hq; auto.
Qed.

Lemma findFirst_create_found p r0 r rows :
  findFirst p rows = Some r0 -> findFirst p (create r rows) = Some r0.
Proof.
  unfold findFirst, create.
  induction rows as [|x rows IH]; simpl; [discriminate|].
  destruct (p x); auto.
Qed.

Lemma findFirst_some p rows r :
  findFirst p rows = Some r -> In r rows /\ p r = true.
Proof. apply find_some. Qed.

Lemma updateWhere_length q f rows :
  List.length (updateWhere q f rows) = List.length rows.
Proof. apply length_map. Qed.

End QueryFacts.

(** ** Load lifecycle *)

Module LoadFacts.
Import LoadController.

Lemma findLoad_id id db l : findLoad id db = Some l -> Load.id l = id.
Proof.
  intros H. apply findFirst_some in H. destruct H as [_ H].
  now apply String.eqb_eq.
Qed.

(** After [update({ where: { id }, data })] the load found under [id] is
    the one found before, with [data] applied. *)
Lemma findLoad_updateLoad id data db l :
  (forall x, Load.id (data x) = Load.id x) ->
  findLoad id db = Some l ->
  findLoad id (updateLoad id data db) = Some (data l).
Proof.
  intros Hid H. unfold findLoad, updateLoad. simpl.
  rewrite findFirst_updateWhere by (intros; now rewrite Hid).
  fold (findLoad id db). rewrite H. simpl.
  apply findLoad_id in H. rewrite H, String.eqb_refl. reflexivity.
Qed.

Lemma allowedTransitions_single s targets :
  allowedTransitions s = Some targets -> exists t, targets = [t].
Proof. destruct s; simpl; intros H; inversion H; eauto. Qed.

Lemma parseStatus_name s : parseStatus (statusName s) = Some s.
Proof. destruct s; reflexivity. Qed.

(** C1, as amended.  The adjacency table gives exactly one next state to
    each status that is one of its keys; for a load whose current status is
    a key, [updateLoadStatus] rejects every requested target the entry
    does not list, with status 400 and a message that names the current and
    the requested state, and writes nothing; for a load whose current status
    is not a key the table rejects nothing: any status of the enum is
    accepted and becomes the load's status. *)
Theorem updateLoadStatus_checks_listed_statuses :
  (forall s targets,
      allowedTransitions s = Some targets -> exists t, targets = [t])
  /\ (forall now user id status notes gpsLat gpsLng db load targets,
      findLoad id db = Some load ->
      allowedTransitions (Load.status load) = Some targets ->
      Js.includes targets status = false ->
      updateLoadStatus now user id status notes gpsLat gpsLng db
      = (ApiError ("Invalid status transition from "
                     ++ statusName (Load.status load) ++ " to " ++ status) 400,
         db))
  /\ (forall now user id status notes gpsLat gpsLng db load target,
      findLoad id db = Some load ->
      allowedTransitions (Load.status load) = None ->
      parseStatus status = Some target ->
      fst (updateLoadStatus now user id status notes gpsLat gpsLng db)
      = ApiSuccess "Load status updated" 200
      /\ LoadLifecycle.statusOf id
           (snd (updateLoadStatus now user id status notes gpsLat gpsLng db))
         = Some target).
Proof.
  split; [exact allowedTransitions_single|]. split.
  - intros now user id status notes gpsLat gpsLng db load targets Hl Ht Hn.
    unfold updateLoadStatus, invalidTransition. now rewrite Hl, Ht, Hn.
  - intros now user id status notes gpsLat gpsLng db load target Hl Ht Hp.
    unfold updateLoadStatus, invalidTransition. rewrite Hl, Ht, Hp. simpl.
    split; [reflexivity|].
    unfold LoadLifecycle.statusOf, createHistory.
    match goal with
    | |- option_map _ (findLoad _ (withLoadStatusHistory _ (withLoadStatusEvent _ ?d))) = _ =>
        change (option_map Load.status (findLoad id d) = Some target)
    end.
    erewrite findLoad_updateLoad; eauto.
    + simpl. destruct (String.eqb status "LOADED"); [reflexivity|].
      destruct (String.eqb status "DELIVERED"); reflexivity.
    + intros x. destruct (String.eqb status "LOADED"); [reflexivity|].
      destruct (String.eqb status "DELIVERED"); reflexivity.
Qed.

Lemma updateLoadStatus_checks_listed_statuses_witness :
  updateLoadStatus 0 Sample.driverUser "L1" "DELIVERED" None None None
    (Sample.storeWithLoad ACCEPTED)
  = (ApiError "Invalid status transition from ACCEPTED to DELIVERED" 400,
     Sample.storeWithLoad ACCEPTED)
  /\ LoadLifecycle.statusOf "L1"
       (snd (updateLoadStatus 0 Sample.driverUser "L1" "CANCELLED" None None
               None (Sample.storeWithLoad COMPLETED)))
     = Some CANCELLED.
Proof.
  destruct updateLoadStatus_checks_listed_statuses as [_ [Hrej Hacc]].
  split.
  - apply (Hrej 0 Sample.driverUser "L1" "DELIVERED" None None None
             (Sample.storeWithLoad ACCEPTED) (Sample.loadIn ACCEPTED)
             ["EN_ROUTE_PICKUP"]); reflexivity.
  - apply (Hacc 0 Sample.driverUser "L1" "CANCELLED" None None None
             (Sample.storeWithLoad COMPLETED) (Sample.loadIn COMPLETED)
             CANCELLED); reflexivity.
Defined.

(** C1, as stated, fails: a delivered load has no entry in the adjacency
    table, so the requested target ["DRAFT"] is not in the table for its
    current status, and yet the update is accepted and the load is back in
    [DRAFT]. *)
Lemma updateLoadStatus_accepts_target_outside_table :
  LoadLifecycle.statusOf "L1" (Sample.storeWithLoad DELIVERED) = Some DELIVERED
  /\ LoadLifecycle.inAdjacencyTable DELIVERED "DRAFT" = false
  /\ fst (updateLoadStatus 0 Sample.driverUser "L1" "DRAFT" None None None
            (Sample.storeWithLoad DELIVERED))
     = ApiSuccess "Load status updated" 200
  /\ LoadLifecycle.statusOf "L1"
       (snd (updateLoadStatus 0 Sample.driverUser "L1" "DRAFT" None None None
               (Sample.storeWithLoad DELIVERED)))
     = Some DRAFT.
Proof. repeat split. Qed.

End LoadFacts.

(** ** Negotiations and the status ledger *)

Module NegotiationFacts.
Import LoadController.

(** The handlers that write the ledger: a successful [submitLoad] appends
    exactly one row, from [DRAFT] to [PENDING_REVIEW], by the caller. *)
Lemma submitLoad_appends_history user id db :
  fst (submitLoad user id db) = ApiSuccess "Load submitted for review" 200 ->
  LoadLifecycle.statusOf id db = Some DRAFT
  /\ LoadLifecycle.statusOf id (snd (submitLoad user id db))
     = Some PENDING_REVIEW
  /\ loadStatusHistory (snd (submitLoad user id db))
     = (loadStatusHistory db
       ++ [LoadStatusHistory.mk id DRAFT PENDING_REVIEW (userId user)
             (userType user) (Some "Load submitted for review")])%list.
Proof.
  unfold submitLoad, LoadLifecycle.statusOf.
  destruct (findLoad id db) as [l|] eqn:Hl; [|discriminate].
  destruct (Load.status l) eqn:Hs; simpl; try discriminate. intros _.
  split; [now rewrite Hs|]. split; [|reflexivity].
  unfold createHistory.
  change (option_map Load.status
            (findLoad id (updateLoad id (Load.setStatus PENDING_REVIEW) db))
          = Some PENDING_REVIEW).
  erewrite LoadFacts.findLoad_updateLoad; eauto.
Qed.

Lemma approveLoad_appends_history user id driverPay notes db :
  isSuccess (fst (approveLoad user id driverPay notes db)) = true ->
  loadStatusHistory (snd (approveLoad user id driverPay notes db))
  = (loadStatusHistory db
    ++ [LoadStatusHistory.mk id RATE_APPROVED SCHEDULED (userId user)
          (userType user)
          (Js.orElse notes (Some "Load approved and scheduled"))])%list.
Proof.
  unfold approveLoad.
  destruct (findLoad id db) as [l|]; [|discriminate].
  destruct (Load.status l); simpl; try discriminate. reflexivity.
Qed.

Lemma updateLoadStatus_appends_history
    now user id status notes gpsLat gpsLng db :
  isSuccess (fst (updateLoadStatus now user id status notes gpsLat gpsLng db))
  = true ->
  exists load target,
    findLoad id db = Some load /\ parseStatus status = Some target
    /\ loadStatusHistory
         (snd (updateLoadStatus now user id status notes gpsLat gpsLng db))
       = (loadStatusHistory db
         ++ [LoadStatusHistory.mk id (Load.status load) target (userId user)
               (userType user) notes])%list.
Proof.
  unfold updateLoadStatus.
  destruct (findLoad id db) as [l|]; [|discriminate].
  destruct (invalidTransition (Load.status l) status); [discriminate|].
  destruct (parseStatus status) as [t|]; [|discriminate].
  intros _. exists l, t. repeat split.
Qed.

(** [createNegotiation] and [acceptNegotiation] never write the ledger. *)
Lemma createNegotiation_history newId user id proposedRate counterRate notes db :
  loadStatusHistory
    (snd (createNegotiation newId user id proposedRate counterRate notes db))
  = loadStatusHistory db.
Proof.
  unfold createNegotiation.
  destruct (findLoad id db) as [l|]; [|reflexivity].
  simpl. destruct (LoadStatus_eqb (Load.status l) PENDING_REVIEW); reflexivity.
Qed.

Lemma acceptNegotiation_history now negotiationId db :
  loadStatusHistory (snd (acceptNegotiation now negotiationId db))
  = loadStatusHistory db.
Proof.
  unfold acceptNegotiation.
  destruct (findNegotiation negotiationId db) as [n|]; [|reflexivity].
  destruct (resolvable (LoadNegotiation.status n)); [|reflexivity].
  simpl. destruct (findLoad _ _); reflexivity.
Qed.

(** C2, at the failing inputs.  Opening a negotiation on a load under
    review moves the load from [PENDING_REVIEW] to [NEGOTIATING], and
    accepting a negotiation moves its load from [NEGOTIATING] to
    [RATE_APPROVED]; both calls succeed and neither appends a row to the
    status history. *)
Theorem negotiation_status_changes_skip_history :
  let db := Sample.storeWithLoad PENDING_REVIEW in
  let created :=
    createNegotiation "N1" Sample.dispatcher "L1" 1500%float None None db in
  let db2 := Sample.storeWithNegotiation NEG_PENDING in
  let accepted := acceptNegotiation 5 "N1" db2 in
  (fst created = ApiSuccess "Negotiation created" 201
   /\ LoadLifecycle.statusOf "L1" db = Some PENDING_REVIEW
   /\ LoadLifecycle.statusOf "L1" (snd created) = Some NEGOTIATING
   /\ loadStatusHistory (snd created) = loadStatusHistory db)
  /\ (fst accepted = ApiSuccess "Negotiation accepted" 200
      /\ LoadLifecycle.statusOf "L1" db2 = Some NEGOTIATING
      /\ LoadLifecycle.statusOf "L1" (snd accepted) = Some RATE_APPROVED
      /\ loadStatusHistory (snd accepted) = loadStatusHistory db2).
Proof. repeat split. Qed.

(** Resolution of a negotiation: what [acceptNegotiation] guards and
    does. *)
Lemma acceptNegotiation_guard now negotiationId db n :
  findNegotiation negotiationId db = Some n ->
  resolvable (LoadNegotiation.status n) = false ->
  acceptNegotiation now negotiationId db
  = (ApiError "Negotiation already resolved" 400, db).
Proof. intros Hn Hr. unfold acceptNegotiation. now rewrite Hn, Hr. Qed.

Lemma acceptNegotiation_effect now negotiationId db n l :
  findNegotiation negotiationId db = Some n ->
  resolvable (LoadNegotiation.status n) = true ->
  findLoad (LoadNegotiation.loadId n) db = Some l ->
  fst (acceptNegotiation now negotiationId db)
  = ApiSuccess "Negotiation accepted" 200
  /\ LoadLifecycle.statusOf (LoadNegotiation.loadId n)
       (snd (acceptNegotiation now negotiationId db)) = Some RATE_APPROVED
  /\ Negotiations.rateOf (LoadNegotiation.loadId n)
       (snd (acceptNegotiation now negotiationId db))
     = Some (match LoadNegotiation.counterRate n with
             | Some counter => counter
             | None => LoadNegotiation.proposedRate n
             end).
Proof.
  intros Hn Hr Hl. unfold acceptNegotiation. rewrite Hn, Hr. simpl.
  change (findLoad (LoadNegotiation.loadId n) (updateNegotiation _ _ db))
    with (findLoad (LoadNegotiation.loadId n) db).
  rewrite Hl. simpl. split; [reflexivity|].
  unfold LoadLifecycle.statusOf, Negotiations.rateOf.
  set (data := fun l0 => Load.setAgreedRate _ _ _).
  assert (H : findLoad (LoadNegotiation.loadId n)
                (updateLoad (LoadNegotiation.loadId n) data
                   (updateNegotiation negotiationId
                      (fun r => LoadNegotiation.resolve NEG_ACCEPTED now
                                  (LoadNegotiation.notes r) r) db))
              = Some (data l)).
  { apply LoadFacts.findLoad_updateLoad; [reflexivity|exact Hl]. }
  rewrite H. split; reflexivity.
Qed.

Lemma rejectNegotiation_leaves_loads now negotiationId notes db :
  load (snd (rejectNegotiation now negotiationId notes db)) = load db.
Proof.
  unfold rejectNegotiation.
  destruct (findNegotiation negotiationId db); reflexivity.
Qed.

(** [rejectNegotiation] has no guard on the status of the negotiation. *)
Lemma rejectNegotiation_unguarded now negotiationId notes db n :
  findNegotiation negotiationId db = Some n ->
  fst (rejectNegotiation now negotiationId notes db)
  = ApiSuccess "Negotiation rejected" 200.
Proof. intros Hn. unfold rejectNegotiation. now rewrite Hn. Qed.

(** C5, at the failing input.  On a negotiation that is already
    [ACCEPTED], [acceptNegotiation] fails with "already resolved", but
    [rejectNegotiation] succeeds and turns the negotiation into
    [REJECTED]; the load keeps its status. *)
Theorem rejectNegotiation_resolves_resolved_negotiation :
  let db := Sample.storeWithNegotiation NEG_ACCEPTED in
  let rejected := rejectNegotiation 5 "N1" None db in
  Negotiations.statusOf "N1" db = Some NEG_ACCEPTED
  /\ acceptNegotiation 5 "N1" db
     = (ApiError "Negotiation already resolved" 400, db)
  /\ fst rejected = ApiSuccess "Negotiation rejected" 200
  /\ Negotiations.statusOf "N1" (snd rejected) = Some NEG_REJECTED
  /\ LoadLifecycle.statusOf "L1" (snd rejected)
     = LoadLifecycle.statusOf "L1" db.
Proof. repeat split. Qed.

End NegotiationFacts.

(** ** Driver's answer to an assignment *)

Module AssignmentFacts.
Import LoadController DriverController.

Lemma findAssignment_id id db a :
  findAssignment id db = Some a -> LoadAssignment.id a = id.
Proof.
  intros H. apply findFirst_some in H. destruct H as [_ H].
  now apply String.eqb_eq.
Qed.

Lemma findAssignment_updateAssignment id data db a :
  (forall x, LoadAssignment.id (data x) = LoadAssignment.id x) ->
  findAssignment id db = Some a ->
  findAssignment id (updateAssignment id data db) = Some (data a).
Proof.
  intros Hid H. unfold findAssignment, updateAssignment. simpl.
  rewrite findFirst_updateWhere by (intros; now rewrite Hid).
  fold (findAssignment id db). rewrite H. simpl.
  apply findAssignment_id in H. rewrite H, String.eqb_refl. reflexivity.
Qed.

(** The handlers answer by their own timestamp only. *)
Lemma acceptAssignment_already_accepted now user assignmentId db a :
  findAssignment assignmentId db = Some a ->
  LoadAssignment.driverId a = userId user ->
  isSet (LoadAssignment.acceptedAt a) = true ->
  acceptAssignment now user assignmentId db
  = (ApiError "Assignment already accepted" 400, db).
Proof.
  intros Ha Hd Hs. unfold acceptAssignment.
  now rewrite Ha, Hd, String.eqb_refl, Hs.
Qed.

Lemma rejectAssignment_already_rejected now user assignmentId reason db a :
  findAssignment assignmentId db = Some a ->
  LoadAssignment.driverId a = userId user ->
  isSet (LoadAssignment.rejectedAt a) = true ->
  rejectAssignment now user assignmentId reason db
  = (ApiError "Assignment already rejected" 400, db).
Proof.
  intros Ha Hd Hs. unfold rejectAssignment.
  now rewrite Ha, Hd, String.eqb_refl, Hs.
Qed.

Lemma acceptAssignment_effect now user assignmentId db a l :
  findAssignment assignmentId db = Some a ->
  LoadAssignment.driverId a = userId user ->
  LoadAssignment.acceptedAt a = None ->
  findLoad (LoadAssignment.loadId a) db = Some l ->
  let result := acceptAssignment now user assignmentId db in
  fst result = ApiSuccess "Assignment accepted" 200
  /\ LoadLifecycle.statusOf (LoadAssignment.loadId a) (snd result)
     = Some ACCEPTED
  /\ option_map LoadAssignment.acceptedAt
       (Assignments.lookup assignmentId (snd result)) = Some (Some now)
  /\ loadStatusHistory (snd result)
     = (loadStatusHistory db
        ++ [LoadStatusHistory.mk (LoadAssignment.loadId a) ASSIGNED ACCEPTED
              (userId user) DRIVER (Some "Driver accepted assignment")])%list.
Proof.
  intros Ha Hd Hacc Hl. unfold acceptAssignment.
  rewrite Ha, Hd, String.eqb_refl, Hacc. simpl.
  change (findLoad (LoadAssignment.loadId a) (updateAssignment _ _ db))
    with (findLoad (LoadAssignment.loadId a) db).
  rewrite Hl. simpl. split; [reflexivity|]. split; [|split; [|reflexivity]].
  - unfold LoadLifecycle.statusOf, createHistory.
    change (option_map Load.status
              (findLoad (LoadAssignment.loadId a)
                 (updateLoad (LoadAssignment.loadId a)
                    (Load.setStatus ACCEPTED)
                    (updateAssignment assignmentId
                       (LoadAssignment.setAcceptedAt now) db)))
            = Some ACCEPTED).
    erewrite LoadFacts.findLoad_updateLoad; [reflexivity|reflexivity|exact Hl].
  - unfold Assignments.lookup.
    change (option_map LoadAssignment.acceptedAt
              (findAssignment assignmentId
                 (updateAssignment assignmentId
                    (LoadAssignment.setAcceptedAt now) db))
            = Some (Some now)).
    erewrite findAssignment_updateAssignment; [reflexivity|reflexivity|exact Ha].
Qed.

Lemma rejectAssignment_effect now user assignmentId reason db a l :
  findAssignment assignmentId db = Some a ->
  LoadAssignment.driverId a = userId user ->
  LoadAssignment.rejectedAt a = None ->
  findLoad (LoadAssignment.loadId a) db = Some l ->
  let result := rejectAssignment now user assignmentId reason db in
  fst result = ApiSuccess "Assignment rejected" 200
  /\ LoadLifecycle.statusOf (LoadAssignment.loadId a) (snd result)
     = Some SCHEDULED
  /\ option_map (fun a' => (LoadAssignment.rejectedAt a',
                            LoadAssignment.rejectionReason a'))
       (Assignments.lookup assignmentId (snd result))
     = Some (Some now, reason)
  /\ loadStatusHistory (snd result)
     = (loadStatusHistory db
        ++ [LoadStatusHistory.mk (LoadAssignment.loadId a) ASSIGNED SCHEDULED
              (userId user) DRIVER
              (Some ("Driver rejected assignment: "
                       ++ interpolate reason)%string)])%list.
Proof.
  intros Ha Hd Hrej Hl. unfold rejectAssignment.
  rewrite Ha, Hd, String.eqb_refl, Hrej. simpl.
  change (findLoad (LoadAssignment.loadId a) (updateAssignment _ _ db))
    with (findLoad (LoadAssignment.loadId a) db).
  rewrite Hl. simpl. split; [reflexivity|]. split; [|split; [|reflexivity]].
  - unfold LoadLifecycle.statusOf, createHistory.
    change (option_map Load.status
              (findLoad (LoadAssignment.loadId a)
                 (updateLoad (LoadAssignment.loadId a)
                    (Load.setStatus SCHEDULED)
                    (updateAssignment assignmentId
                       (LoadAssignment.setRejected now reason) db)))
            = Some SCHEDULED).
    erewrite LoadFacts.findLoad_updateLoad; [reflexivity|reflexivity|exact Hl].
  - unfold Assignments.lookup.
    change (option_map (fun a' => (LoadAssignment.rejectedAt a',
                                   LoadAssignment.rejectionReason a'))
              (findAssignment assignmentId
                 (updateAssignment assignmentId
                    (LoadAssignment.setRejected now reason) db))
            = Some (Some now, reason)).
    erewrite findAssignment_updateAssignment; [reflexivity|reflexivity|exact Ha].
Qed.




End AssignmentFacts.

(** ** Proof of delivery *)

Module PodFacts.
Import LoadController PODController.

Lemma findLoad_ext id db1 db2 :
  load db1 = load db2 -> findLoad id db1 = findLoad id db2.
Proof. unfold findLoad. now intros ->. Qed.

(** The photo loop writes file and photo rows only. *)
Lemma uploadPhotos_frame user loadId podId photos :
  forall i db,
    let db' := snd (uploadPhotos user loadId podId photos i db) in
    load db' = load db
    /\ loadAssignment db' = loadAssignment db
    /\ podDocument db' = podDocument db
    /\ loadStatusHistory db' = loadStatusHistory db.
Proof.
  induction photos as [|photo rest IH]; intros i db; simpl.
  - repeat split.
  - destruct (validateAndUpload photo) as [e|url]; simpl.
    + repeat split.
    + apply (IH (S i)
               (withPodPhoto
                  (create (PodPhoto.mk podId url i)
                     (podPhoto (createFileRecord user url "POD_PHOTO" loadId db)))
                  (createFileRecord user url "POD_PHOTO" loadId db))).
Qed.

(** C8.  Whenever [submitPOD] succeeds, the load was [DELIVERED] or
    [AT_DELIVERY], the calling driver had an assignment on it, and the load
    is now [POD_SUBMITTED]; and whenever the calling driver has no
    assignment on an existing load, the call is refused with status 403
    and the store, its POD documents included, is as before. *)
Theorem submitPOD_needs_delivery_and_assignment :
  forall now newId user loadId recipientName recipientTitle gpsLat gpsLng
         notes signature photos db,
    let result :=
      submitPOD now newId user loadId recipientName recipientTitle gpsLat
                gpsLng notes signature photos db in
    (isSuccess (fst result) = true ->
     exists l,
       findLoad loadId db = Some l
       /\ (Load.status l = DELIVERED \/ Load.status l = AT_DELIVERY)
       /\ assignmentsOf loadId (userId user) db <> []
       /\ LoadLifecycle.statusOf loadId (snd result) = Some POD_SUBMITTED)
    /\ (forall l,
        findLoad loadId db = Some l ->
        assignmentsOf loadId (userId user) db = [] ->
        result = (ApiError "You are not assigned to this load" 403, db)
        /\ podDocument (snd result) = podDocument db).
Proof.
  intros now newId user loadId recipientName recipientTitle gpsLat gpsLng
         notes signature photos db result.
  subst result. unfold submitPOD. split.
  - destruct (findLoad loadId db) as [l|] eqn:Hl; [|discriminate].
    destruct (assignmentsOf loadId (userId user) db) as [|a rest] eqn:Has;
      [discriminate|]. simpl.
    destruct (negb (LoadStatus_eqb (Load.status l) DELIVERED)
              && negb (LoadStatus_eqb (Load.status l) AT_DELIVERY)) eqn:Hst;
      [discriminate|].
    destruct signature as [sig|]; [|discriminate].
    destruct (validateAndUpload sig) as [e|url]; [discriminate|].
    match goal with
    | |- context [uploadPhotos ?u ?lid ?pid ?ps ?i ?d] =>
        pose proof (uploadPhotos_frame u lid pid ps i d) as Hframe;
        destruct (uploadPhotos u lid pid ps i d) as [[e|] db'] eqn:Hup
    end; [discriminate|].
    intros _. exists l. split; [reflexivity|]. split; [|split; [discriminate|]].
    + destruct (Load.status l); simpl in Hst; try discriminate; auto.
    + simpl in Hframe. destruct Hframe as [Hload _].
      unfold LoadLifecycle.statusOf. simpl snd. unfold createHistory.
      change (option_map Load.status
                (findLoad loadId
                   (updateLoad loadId (Load.setStatus POD_SUBMITTED) db'))
              = Some POD_SUBMITTED).
      erewrite LoadFacts.findLoad_updateLoad; [reflexivity|reflexivity|].
      rewrite <- Hl. apply findLoad_ext. exact Hload.
  - intros l Hl Hno. rewrite Hl, Hno. simpl. split; reflexivity.
Qed.

Lemma submitPOD_needs_delivery_and_assignment_witness :
  LoadLifecycle.statusOf "L1"
    (snd (submitPOD 50 "P1" Sample.driverUser "L1" (Some "R. Roe") None
            40%float (-75)%float None (Some Sample.signatureFile) []
            (Sample.storeWithAssignment DELIVERED (Some 5) None)))
  = Some POD_SUBMITTED
  /\ submitPOD 50 "P1" (mkUser "D2" DRIVER) "L1" (Some "R. Roe") None
       40%float (-75)%float None (Some Sample.signatureFile) []
       (Sample.storeWithAssignment DELIVERED (Some 5) None)
     = (ApiError "You are not assigned to this load" 403,
        Sample.storeWithAssignment DELIVERED (Some 5) None).
Proof.
  split.
  - destruct (submitPOD_needs_delivery_and_assignment 50 "P1"
                Sample.driverUser "L1" (Some "R. Roe") None 40%float
                (-75)%float None (Some Sample.signatureFile) []
                (Sample.storeWithAssignment DELIVERED (Some 5) None))
      as [Hok _].
    destruct (Hok eq_refl) as [l [_ [_ [_ Hst]]]]. exact Hst.
  - destruct (submitPOD_needs_delivery_and_assignment 50 "P1"
                (mkUser "D2" DRIVER) "L1" (Some "R. Roe") None 40%float
                (-75)%float None (Some Sample.signatureFile) []
                (Sample.storeWithAssignment DELIVERED (Some 5) None))
      as [_ Hno].
    apply (Hno (Sample.loadIn DELIVERED) eq_refl eq_refl).
Defined.

Lemma findPod_id id db p : findPod id db = Some p -> PodDocument.id p = id.
Proof.
  intros H. apply findFirst_some in H. destruct H as [_ H].
  now apply String.eqb_eq.
Qed.

(** A verified POD document is never verified again. *)
Lemma verifyPOD_already_verified now user id approved notes db pod :
  findPod id db = Some pod ->
  DriverController.isSet (PodDocument.verifiedAt pod) = true ->
  verifyPOD now user id approved notes db
  = (ApiError "POD already verified" 400, db).
Proof. intros Hp Hv. unfold verifyPOD. now rewrite Hp, Hv. Qed.

(** C10.  The first [verifyPOD] on a POD document succeeds and sets its
    verified timestamp, whether the verdict approves (load to
    [COMPLETED]) or rejects (load to [POD_PENDING]); every later
    [verifyPOD] on that document, whoever calls it and whatever the
    verdict, fails with "POD already verified" and leaves the store, hence
    the document and the load, as it was. *)
Theorem verifyPOD_verifies_once :
  forall now user id approved notes db pod l,
    findPod id db = Some pod ->
    PodDocument.verifiedAt pod = None ->
    findLoad (PodDocument.loadId pod) db = Some l ->
    let result := verifyPOD now user id approved notes db in
    fst result = ApiSuccess "POD verified successfully" 200
    /\ option_map PodDocument.verifiedAt (findPod id (snd result))
       = Some (Some now)
    /\ LoadLifecycle.statusOf (PodDocument.loadId pod) (snd result)
       = Some (if approved then COMPLETED else POD_PENDING)
    /\ (forall now' user' approved' notes',
        verifyPOD now' user' id approved' notes' (snd result)
        = (ApiError "POD already verified" 400, snd result)).
Proof.
  intros now user id approved notes db pod l Hp Hv Hl result.
  set (data := PodDocument.verify now (userId user)
                 (Js.orElse notes (PodDocument.notes pod))).
  set (db1 := withPodDocument
                (updateWhere (fun p => String.eqb (PodDocument.id p) id) data
                   (podDocument db)) db).
  assert (Hp1 : findPod id db1 = Some (data pod)).
  { unfold findPod, db1. simpl.
    rewrite findFirst_updateWhere by reflexivity.
    fold (findPod id db). rewrite Hp. simpl.
    apply findPod_id in Hp. now rewrite Hp, String.eqb_refl. }
  assert (Hres : snd result
                 = createHistory
                     (LoadStatusHistory.mk (PodDocument.loadId pod)
                        (Load.status l)
                        (if approved then COMPLETED else POD_PENDING)
                        (userId user) INTERNAL_USER
                        (if approved then Some "POD verified and approved"
                         else Js.orElse notes (Some "POD needs correction")))
                     (updateLoad (PodDocument.loadId pod)
                        (Load.setStatus
                           (if approved then COMPLETED else POD_PENDING))
                        db1)
                 /\ fst result = ApiSuccess "POD verified successfully" 200).
  { subst result. unfold verifyPOD. rewrite Hp, Hv, Hl. simpl.
    destruct approved; split; reflexivity. }
  destruct Hres as [Hsnd Hfst].
  assert (Hp2 : findPod id (snd result) = Some (data pod)).
  { rewrite Hsnd. exact Hp1. }
  split; [exact Hfst|]. split; [now rewrite Hp2|]. split.
  - rewrite Hsnd. unfold LoadLifecycle.statusOf, createHistory.
    change (option_map Load.status
              (findLoad (PodDocument.loadId pod)
                 (updateLoad (PodDocument.loadId pod)
                    (Load.setStatus
                       (if approved then COMPLETED else POD_PENDING)) db1))
            = Some (if approved then COMPLETED else POD_PENDING)).
    erewrite LoadFacts.findLoad_updateLoad; [reflexivity|reflexivity|].
    exact Hl.
  - intros now' user' approved' notes'.
    eapply verifyPOD_already_verified; [exact Hp2|reflexivity].
Qed.

Lemma verifyPOD_verifies_once_witness :
  LoadLifecycle.statusOf "L1"
    (snd (verifyPOD 70 Sample.dispatcher "P1" false (Some "Signature unreadable")
            (Sample.storeWithPod POD_SUBMITTED None)))
  = Some POD_PENDING
  /\ verifyPOD 80 Sample.dispatcher "P1" true None
       (snd (verifyPOD 70 Sample.dispatcher "P1" false
               (Some "Signature unreadable")
               (Sample.storeWithPod POD_SUBMITTED None)))
     = (ApiError "POD already verified" 400,
        snd (verifyPOD 70 Sample.dispatcher "P1" false
               (Some "Signature unreadable")
               (Sample.storeWithPod POD_SUBMITTED None))).
Proof.
  destruct (verifyPOD_verifies_once 70 Sample.dispatcher "P1" false
              (Some "Signature unreadable")
              (Sample.storeWithPod POD_SUBMITTED None)
              (Sample.pod None) (Sample.loadIn POD_SUBMITTED)
              eq_refl eq_refl eq_refl)
    as [_ [_ [Hst Hagain]]].
  split; [exact Hst|apply Hagain].
Defined.

End PodFacts.

(** ** Vehicle assignments *)

Module VehicleFacts.
Import VehicleController Fleet.

Lemma currentOf_retire now id a :
  currentOf id (VehicleAssignment.retire now a) = false.
Proof. unfold currentOf. simpl. apply andb_false_r. Qed.

Lemma currentOf_other id v a :
  v <> id -> currentOf id a = true -> currentOf v a = false.
Proof.
  unfold currentOf. intros Hne H. apply andb_true_iff in H.
  destruct H as [H _]. apply String.eqb_eq in H.
  rewrite H. apply String.eqb_neq in Hne. rewrite String.eqb_sym in Hne.
  now rewrite Hne.
Qed.

(** After the [updateMany] the vehicle has no current assignment, and the
    current assignments of the other vehicles are the same rows. *)
Lemma currentAssignments_retireCurrent now id v db :
  currentAssignments v (retireCurrent now id db)
  = if String.eqb v id then [] else currentAssignments v db.
Proof.
  unfold currentAssignments, retireCurrent, findMany, updateWhere. simpl.
  induction (vehicleAssignment db) as [|a rows IH]; simpl.
  - now destruct (String.eqb v id).
  - destruct (currentOf id a) eqn:Ha.
    + rewrite IH. destruct (String.eqb v id) eqn:Hv.
      * apply String.eqb_eq in Hv. subst v. now rewrite currentOf_retire.
      * apply String.eqb_neq in Hv.
        rewrite currentOf_retire, (currentOf_other id v a Hv Ha).
        reflexivity.
    + rewrite IH. destruct (String.eqb v id) eqn:Hv.
      * apply String.eqb_eq in Hv. subst v. now rewrite Ha.
      * reflexivity.
Qed.

Lemma currentAssignments_assign now newId id driverId notes v db :
  isSuccess (fst (assignVehicle now newId id driverId notes db)) = true ->
  currentAssignments v (snd (assignVehicle now newId id driverId notes db))
  = if String.eqb v id
    then [VehicleAssignment.mk newId id driverId notes true now None]
    else currentAssignments v db.
Proof.
  unfold assignVehicle.
  destruct (findFirst _ (vehicle db)); [|discriminate].
  destruct (findFirst _ (driver db)); [|discriminate].
  intros _. simpl snd.
  pose proof (currentAssignments_retireCurrent now id v db) as H.
  unfold currentAssignments, findMany, create in *. simpl.
  change (vehicleAssignment (retireCurrent now id db))
    with (updateWhere (currentOf id) (VehicleAssignment.retire now)
            (vehicleAssignment db)) in *.
  rewrite filter_app, H. simpl. unfold currentOf at 2. simpl.
  rewrite andb_true_r, (String.eqb_sym id v).
  destruct (String.eqb v id); [reflexivity|apply app_nil_r].
Qed.

Lemma assignVehicle_refused now newId id driverId notes db :
  isSuccess (fst (assignVehicle now newId id driverId notes db)) = false ->
  snd (assignVehicle now newId id driverId notes db) = db.
Proof.
  unfold assignVehicle.
  destruct (findFirst _ (vehicle db)); [|reflexivity].
  destruct (findFirst _ (driver db)); [discriminate|reflexivity].
Qed.

Lemma step_preserves db c : atMostOneCurrent db -> atMostOneCurrent (step db c).
Proof.
  intros Hinv v. unfold activeCount. destruct c as [now newId id d n|now id];
    simpl.
  - destruct (isSuccess (fst (assignVehicle now newId id d n db))) eqn:Hok.
    + rewrite currentAssignments_assign by exact Hok.
      destruct (String.eqb v id); [simpl; lia|apply Hinv].
    + rewrite assignVehicle_refused by exact Hok. apply Hinv.
  - rewrite currentAssignments_retireCurrent.
    destruct (String.eqb v id); [simpl; lia|apply Hinv].
Qed.

(** C6.  If no vehicle has more than one current assignment, then after
    any sequence of assign and unassign calls no vehicle has more than one;
    a successful assign leaves the vehicle with exactly one current
    assignment, the new one, every earlier one having been retired first,
    and an unassign leaves it with none. *)
Theorem at_most_one_current_assignment :
  (forall calls db, atMostOneCurrent db -> atMostOneCurrent (run calls db))
  /\ (forall now newId id driverId notes db,
      isSuccess (fst (assignVehicle now newId id driverId notes db)) = true ->
      currentAssignments id
        (snd (assignVehicle now newId id driverId notes db))
      = [VehicleAssignment.mk newId id driverId notes true now None])
  /\ (forall now id db,
      currentAssignments id (snd (unassignVehicle now id db)) = []).
Proof.
  repeat apply conj.
  - intros calls. unfold run.
    induction calls as [|c calls IH]; intros db Hinv; simpl; [exact Hinv|].
    apply IH, step_preserves, Hinv.
  - intros now newId id driverId notes db Hok.
    rewrite currentAssignments_assign by exact Hok.
    now rewrite String.eqb_refl.
  - intros now id db. simpl.
    rewrite currentAssignments_retireCurrent. now rewrite String.eqb_refl.
Qed.

Lemma at_most_one_current_assignment_witness :
  atMostOneCurrent
    (run [Assign 10 "VA1" "V1" "D1" None; Assign 20 "VA2" "V1" "D2" None;
          Assign 30 "VA3" "V2" "D1" None; Unassign 40 "V2";
          Assign 50 "VA4" "V1" "D1" (Some "back on TRK-1")]
         Sample.fleet)
  /\ currentAssignments "V1"
       (snd (assignVehicle 20 "VA2" "V1" "D2" None
               (run [Assign 10 "VA1" "V1" "D1" None] Sample.fleet)))
     = [VehicleAssignment.mk "VA2" "V1" "D2" None true 20 None].
Proof.
  destruct at_most_one_current_assignment as [Hrun [Hassign _]].
  split.
  - apply Hrun. intros id. unfold activeCount. simpl. lia.
  - apply Hassign. reflexivity.
Defined.

End VehicleFacts.

(** ** Account lockout *)

Module LockoutFacts.
Import AuthController Lockout.

Lemma isLocked_later t t' a :
  t <= t' -> isLocked t a = false -> isLocked t' a = false.
Proof.
  unfold isLocked. destruct (Account.lockedUntil a) as [u|]; [|reflexivity].
  intros Hle H. apply Z.ltb_ge in H. apply Z.ltb_ge. lia.
Qed.

Section Principals.
Variable Row : Type.
Variable table : DB -> list Row.
Variable withTable : list Row -> DB -> DB.
Variable account : Row -> Account.t.
Variable onAccount : (Account.t -> Account.t) -> Row -> Row.
Variable precheck : Row -> DB -> option Response.
Variable bcryptCompare : string -> string -> bool.

Hypothesis table_withTable : forall rows db, table (withTable rows db) = rows.
Hypothesis account_onAccount :
  forall f r, account (onAccount f r) = f (account r).
Hypothesis precheck_stable :
  forall f r rows db,
    precheck (onAccount f r) (withTable rows db) = precheck r db.

Local Abbreviation lookupRow := (lookupRow table account).
Local Abbreviation accountOf := (accountOf table account).
Local Abbreviation eligible := (eligible table account precheck).
Local Abbreviation login :=
  (loginWith table withTable account onAccount precheck bcryptCompare).

Local Abbreviation ready := (ready table account precheck).

Lemma ready_intro email db a :
  accountOf email db = Some a -> eligible email db = true -> ready email db a.
Proof.
  unfold Lockout.accountOf, Lockout.eligible, Lockout.ready.
  destruct (lookupRow email db) as [r|]; [|discriminate].
  simpl. intros Ha He. inversion Ha; subst a.
  apply andb_true_iff in He. destruct He as [Hact Hpre].
  exists r. repeat split; auto. now destruct (precheck r db).
Qed.

Lemma ready_accountOf email db a :
  ready email db a -> accountOf email db = Some a.
Proof.
  intros [r [Hr [Ha _]]]. unfold Lockout.accountOf. now rewrite Hr, <- Ha.
Qed.

(** The row an update by identifier leaves under the email. *)
Lemma lookupRow_update email db r f :
  (forall a, Account.email (f a) = Account.email a) ->
  lookupRow email db = Some r ->
  lookupRow email
    (withTable
       (updateWhere (fun u => hasId (Account.id (account r)) (account u))
          (onAccount f) (table db)) db)
  = Some (onAccount f r).
Proof.
  intros Hf Hr. unfold Lockout.lookupRow in *. rewrite table_withTable.
  rewrite findFirst_updateWhere.
  - rewrite Hr. simpl. unfold hasId. now rewrite String.eqb_refl.
  - intros x. unfold hasEmail. now rewrite account_onAccount, Hf.
Qed.

Lemma updateData_email now a x :
  Account.email (updateData now a x) = Account.email x.
Proof.
  unfold updateData.
  now destruct (Account.failedLoginAttempts a + 1 >=? 5).
Qed.

Lemma updateData_isActive now a x :
  Account.isActive (updateData now a x) = Account.isActive x.
Proof.
  unfold updateData.
  now destruct (Account.failedLoginAttempts a + 1 >=? 5).
Qed.

Lemma updateData_passwordHash now a x :
  Account.passwordHash (updateData now a x) = Account.passwordHash x.
Proof.
  unfold updateData.
  now destruct (Account.failedLoginAttempts a + 1 >=? 5).
Qed.

(** One failed password check. *)
Lemma failed_check now email password db a :
  ready email db a ->
  isLocked now a = false ->
  bcryptCompare password (Account.passwordHash a) = false ->
  exists db',
    login now email password db = (invalidCredentials, db')
    /\ ready email db' (updateData now a a).
Proof.
  intros [r [Hr [Ha [Hact Hpre]]]] Hlock Hpw. subst a.
  eexists. split.
  - unfold loginWith. fold lookupRow. rewrite Hr. simpl.
    rewrite Hlock, Hact, Hpre, Hpw. simpl. reflexivity.
  - exists (onAccount (updateData now (account r)) r). repeat split.
    + apply lookupRow_update; [apply updateData_email|exact Hr].
    + apply account_onAccount.
    + now rewrite updateData_isActive.
    + now rewrite precheck_stable.
Qed.

Lemma locked_out now email password db a lockedUntil :
  accountOf email db = Some a ->
  Account.lockedUntil a = Some lockedUntil ->
  now < lockedUntil ->
  login now email password db = (accountLocked, db).
Proof.
  unfold Lockout.accountOf, loginWith. fold lookupRow.
  destruct (lookupRow email db) as [r|]; [|discriminate].
  simpl. intros Ha Hl Hlt. inversion Ha; subst a.
  unfold isLocked. rewrite Hl.
  apply Z.ltb_lt in Hlt. now rewrite Hlt.
Qed.

Lemma successful_login now email password db a :
  ready email db a ->
  isLocked now a = false ->
  bcryptCompare password (Account.passwordHash a) = true ->
  fst (login now email password db) = loginSuccessful
  /\ accountOf email (snd (login now email password db))
     = Some (Account.reset now a).
Proof.
  intros [r [Hr [Ha [Hact Hpre]]]] Hlock Hpw. subst a.
  unfold loginWith. fold lookupRow. rewrite Hr. simpl.
  rewrite Hlock, Hact, Hpre, Hpw. simpl. split; [reflexivity|].
  unfold Lockout.accountOf. fold lookupRow.
  rewrite lookupRow_update; [|reflexivity|exact Hr].
  simpl. now rewrite account_onAccount.
Qed.

(** The counter after a failed check below the threshold, and at it. *)
Lemma updateData_below now a :
  Account.failedLoginAttempts a + 1 < 5 ->
  updateData now a a
  = Account.setFailed (Account.failedLoginAttempts a + 1) a.
Proof.
  intros H. unfold updateData.
  destruct (Z.geb_spec (Account.failedLoginAttempts a + 1) 5); [lia|].
  reflexivity.
Qed.

Lemma updateData_fifth now a :
  Account.failedLoginAttempts a + 1 = 5 ->
  updateData now a a = Account.setFailedAndLock 5 (now + cooldown) a.
Proof.
  intros H. unfold updateData. rewrite H. reflexivity.
Qed.

Theorem loginWith_policy : policy table account precheck bcryptCompare login.
Proof.
  repeat apply conj.
  - intros db email a t1 t2 t3 t4 t5 p1 p2 p3 p4 p5 Ha He Hc Hl
           [H12 [H23 [H34 H45]]] Hpw run.
    repeat match goal with
           | H : Forall _ (_ :: _) |- _ => inversion H; clear H; subst
           end.
    pose proof (ready_intro _ _ _ Ha He) as R0.
    set (a1 := Account.setFailed 1 a).
    set (a2 := Account.setFailed 2 a1).
    set (a3 := Account.setFailed 3 a2).
    set (a4 := Account.setFailed 4 a3).
    set (a5 := Account.setFailedAndLock 5 (t5 + cooldown) a4).
    destruct (failed_check t1 email p1 db a R0 Hl ltac:(assumption))
      as [db1 [E1 R1]].
    rewrite updateData_below in R1 by (rewrite Hc; lia).
    rewrite Hc in R1. change (Account.setFailed (0 + 1) a) with a1 in R1.
    assert (Hl2 : isLocked t2 a1 = false)
      by (apply (isLocked_later t1 t2 a); [lia|exact Hl]).
    destruct (failed_check t2 email p2 db1 a1 R1 Hl2 ltac:(assumption))
      as [db2 [E2 R2]].
    rewrite updateData_below in R2 by (simpl; lia).
    change (Account.setFailed _ a1) with a2 in R2.
    assert (Hl3 : isLocked t3 a2 = false)
      by (apply (isLocked_later t1 t3 a); [lia|exact Hl]).
    destruct (failed_check t3 email p3 db2 a2 R2 Hl3 ltac:(assumption))
      as [db3 [E3 R3]].
    rewrite updateData_below in R3 by (simpl; lia).
    change (Account.setFailed _ a2) with a3 in R3.
    assert (Hl4 : isLocked t4 a3 = false)
      by (apply (isLocked_later t1 t4 a); [lia|exact Hl]).
    destruct (failed_check t4 email p4 db3 a3 R3 Hl4 ltac:(assumption))
      as [db4 [E4 R4]].
    rewrite updateData_below in R4 by (simpl; lia).
    change (Account.setFailed _ a3) with a4 in R4.
    assert (Hl5 : isLocked t5 a4 = false)
      by (apply (isLocked_later t1 t5 a); [lia|exact Hl]).
    destruct (failed_check t5 email p5 db4 a4 R4 Hl5 ltac:(assumption))
      as [db5 [E5 R5]].
    rewrite updateData_fifth in R5 by reflexivity.
    change (Account.setFailedAndLock 5 (t5 + cooldown) a4) with a5 in R5.
    assert (Hrun : run = ([invalidCredentials; invalidCredentials;
                           invalidCredentials; invalidCredentials;
                           invalidCredentials], db5)).
    { subst run. simpl. now rewrite E1, E2, E3, E4, E5. }
    rewrite Hrun. simpl fst. simpl snd.
    pose proof (ready_accountOf _ _ _ R5) as A5.
    split; [reflexivity|]. split; [now rewrite A5|].
    split; [now rewrite A5|].
    intros now password Hnow.
    apply (locked_out now email password db5 a5 (t5 + cooldown) A5);
      [reflexivity|exact Hnow].
  - intros db email a lockedUntil now password Ha Hl Hlt.
    eapply locked_out; eauto.
  - intros db email a now password Ha He Hl Hpw.
    destruct (successful_login now email password db a
                (ready_intro _ _ _ Ha He) Hl Hpw) as [Hr Hacc].
    split; [exact Hr|]. rewrite Hacc. split; reflexivity.
Qed.

End Principals.

(** The three handlers are the shared handler on their table. *)
Lemma loginInternalUser_shared bcryptCompare now email password db :
  loginInternalUser bcryptCompare now email password db
  = loginWith internalUser withInternalUser InternalUser.account
      InternalUser.onAccount (noCheck (Row := InternalUser.t)) bcryptCompare
      now email password db.
Proof. reflexivity. Qed.

Lemma loginDriver_shared bcryptCompare now email password db :
  loginDriver bcryptCompare now email password db
  = loginWith driver withDriver Driver.account Driver.onAccount
      (noCheck (Row := Driver.t)) bcryptCompare now email password db.
Proof. reflexivity. Qed.

Lemma loginShipperUser_shared bcryptCompare now email password db :
  loginShipperUser bcryptCompare now email password db
  = loginWith shipperUser withShipperUser ShipperUser.account
      ShipperUser.onAccount shipperClientCheck bcryptCompare
      now email password db.
Proof.
  unfold loginShipperUser, loginWith, Lockout.lookupRow, shipperClientCheck.
  destruct (findFirst _ (shipperUser db)) as [u|]; [|reflexivity].
  simpl. destruct (isLocked now (ShipperUser.account u)); [reflexivity|].
  destruct (negb (Account.isActive (ShipperUser.account u))); [reflexivity|].
  destruct (findFirst _ (shipperClient db)) as [c|]; [|reflexivity].
  destruct (negb (ShipperClient.isActiveStatus c)); reflexivity.
Qed.

Lemma attempts_ext (login login' : Login) email tries :
  (forall now email password db,
      login' now email password db = login now email password db) ->
  forall db, attempts login' email tries db = attempts login email tries db.
Proof.
  intros Heq. induction tries as [|[now password] rest IH]; intros db; simpl.
  - reflexivity.
  - rewrite Heq. destruct (login now email password db) as [r db1].
    now rewrite IH.
Qed.

Lemma policy_ext Row table account precheck bcryptCompare
    (login login' : Login) :
  (forall now email password db,
      login' now email password db = login now email password db) ->
  @policy Row table account precheck bcryptCompare login ->
  @policy Row table account precheck bcryptCompare login'.
Proof.
  intros Heq [H1 [H2 H3]]. repeat apply conj.
  - intros db email a t1 t2 t3 t4 t5 p1 p2 p3 p4 p5 Ha He Hc Hl Ht Hpw run.
    specialize (H1 db email a t1 t2 t3 t4 t5 p1 p2 p3 p4 p5 Ha He Hc Hl Ht Hpw).
    subst run. rewrite (attempts_ext login login' email _ Heq).
    cbv zeta in H1. destruct H1 as [Hr [Hu [Hn Hk]]].
    split; [exact Hr|]. split; [exact Hu|]. split; [exact Hn|].
    intros now password Hnow. rewrite Heq. now apply Hk.
  - intros db email a lockedUntil now password Ha Hl Hlt. rewrite Heq.
    exact (H2 db email a lockedUntil now password Ha Hl Hlt).
  - intros db email a now password Ha He Hl Hpw. rewrite Heq.
    exact (H3 db email a now password Ha He Hl Hpw).
Qed.

(** C9.  Each of the three login endpoints (internal users, shipper
    users, drivers) keeps the lockout policy: five failed password checks
    in a row lock the account for 15 minutes from the fifth, an attempt
    made before a lock has elapsed is answered 423 ("Account is locked")
    and changes nothing, and a successful login resets the failed-attempt
    counter to zero and clears the lock. *)
Theorem login_lockout_policy :
  forall bcryptCompare,
    cooldown = 900000
    /\ @policy InternalUser.t internalUser InternalUser.account
         (noCheck (Row := InternalUser.t)) bcryptCompare
         (loginInternalUser bcryptCompare)
    /\ @policy ShipperUser.t shipperUser ShipperUser.account
         shipperClientCheck bcryptCompare (loginShipperUser bcryptCompare)
    /\ @policy Driver.t driver Driver.account (noCheck (Row := Driver.t))
         bcryptCompare (loginDriver bcryptCompare).
Proof.
  intros bcryptCompare. split; [reflexivity|]. split; [|split].
  - eapply policy_ext; [apply loginInternalUser_shared|].
    apply loginWith_policy; reflexivity.
  - eapply policy_ext; [apply loginShipperUser_shared|].
    apply loginWith_policy; reflexivity.
  - eapply policy_ext; [apply loginDriver_shared|].
    apply loginWith_policy; reflexivity.
Qed.

Lemma login_lockout_policy_witness :
  option_map Account.lockedUntil
    (accountOf driver Driver.account "Dana@Example.com"
       (snd (attempts (loginDriver Sample.bcryptCompare) "Dana@Example.com"
               [(1000, "a"); (2000, "b"); (3000, "c"); (4000, "d");
                (5000, "e")] Sample.fleet)))
  = Some (Some 905000)
  /\ loginDriver Sample.bcryptCompare 904999 "Dana@Example.com" "secret"
       (snd (attempts (loginDriver Sample.bcryptCompare) "Dana@Example.com"
               [(1000, "a"); (2000, "b"); (3000, "c"); (4000, "d");
                (5000, "e")] Sample.fleet))
     = (accountLocked,
        snd (attempts (loginDriver Sample.bcryptCompare) "Dana@Example.com"
               [(1000, "a"); (2000, "b"); (3000, "c"); (4000, "d");
                (5000, "e")] Sample.fleet))
  /\ option_map Account.failedLoginAttempts
       (accountOf driver Driver.account "Dana@Example.com"
          (snd (loginDriver Sample.bcryptCompare 905000 "Dana@Example.com"
                  "secret"
                  (snd (attempts (loginDriver Sample.bcryptCompare)
                          "Dana@Example.com"
                          [(1000, "a"); (2000, "b"); (3000, "c"); (4000, "d");
                           (5000, "e")] Sample.fleet)))))
     = Some 0.
Proof.
  destruct (login_lockout_policy Sample.bcryptCompare)
    as [_ [_ [_ [Hfive [_ Hreset]]]]].
  assert (Htimes : 1000 <= 2000 /\ 2000 <= 3000 /\ 3000 <= 4000
                   /\ 4000 <= 5000) by lia.
  assert (Hwrong : Forall (fun p => Sample.bcryptCompare p "hash-of-secret"
                                    = false) ["a"; "b"; "c"; "d"; "e"])
    by (repeat constructor).
  destruct (Hfive Sample.fleet "Dana@Example.com"
              (Account.mk "D1" "dana@example.com" "hash-of-secret" true 0
                 None None)
              1000 2000 3000 4000 5000 "a" "b" "c" "d" "e"
              eq_refl eq_refl eq_refl eq_refl Htimes Hwrong)
    as [_ [Hlock [_ Hlocked]]].
  split; [exact Hlock|]. split.
  - apply Hlocked. reflexivity.
  - match goal with
    | |- context [loginDriver _ 905000 _ _ ?locked] =>
        destruct (Hreset locked "Dana@Example.com"
                    (Account.mk "D1" "dana@example.com" "hash-of-secret" true
                       5 (Some 905000) None)
                    905000 "secret" eq_refl eq_refl eq_refl eq_refl)
          as [_ [Hzero _]]
    end.
    exact Hzero.
Defined.

End LockoutFacts.

(** ** Settlement amounts *)

Module SettlementFacts.
Import SettlementController Settlements.

(** What [deductions.map] returns when no amount is refused. *)
Lemma validateDeductions_ok settlementId deductions :
  forall total0 rows total,
    validateDeductions settlementId deductions total0 = inr (rows, total) ->
    total = fold_left PrimFloat.add (requestedAmounts deductions) total0
    /\ map SettlementDeduction.amount rows = requestedAmounts deductions
    /\ Forall (fun r => nonNegative (SettlementDeduction.amount r)) rows
    /\ Forall (fun r => SettlementDeduction.settlementId r = settlementId) rows.
Proof.
  induction deductions as [|d rest IH]; intros total0 rows total; simpl.
  - intros H. inversion H; subst. repeat split; constructor.
  - destruct (invalidAmount (Js.parseFloat (amount d))) eqn:Hv; [discriminate|].
    destruct (validateDeductions settlementId rest
                (PrimFloat.add total0 (Js.parseFloat (amount d))))
      as [e|[rows' total']] eqn:Hrest; [discriminate|].
    intros H. inversion H; subst. clear H.
    destruct (IH _ _ _ Hrest) as [Ht [Hm [Hn Hs]]].
    repeat split.
    + exact Ht.
    + simpl. now rewrite Hm.
    + constructor; [exact Hv|exact Hn].
    + constructor; [reflexivity|exact Hs].
Qed.

(** The creation step both handlers end with: a settlement row, the
    deduction rows and the notification. *)
Lemma created_intro db newId driverId loadId number periodStart periodEnd
    gross deductions rows total notes :
  validateDeductions newId deductions 0%float = inr (rows, total) ->
  PrimFloat.ltb (PrimFloat.sub gross total) 0%float = false ->
  created gross deductions db
    (notifySettlement driverId newId
       (withSettlementDeduction (settlementDeduction db ++ rows)
          (withDriverSettlement
             (create (DriverSettlement.mk newId driverId loadId number
                        periodStart periodEnd gross total
                        (PrimFloat.sub gross total) SET_PENDING notes)
                     (driverSettlement db)) db))).
Proof.
  intros Hv Hnet. destruct (validateDeductions_ok _ _ _ _ _ Hv)
    as [Ht [Hm [Hn Hs]]].
  eexists. exists rows. repeat split; try reflexivity; simpl.
  - exact Hm.
  - exact Hs.
  - unfold sumAmounts. now rewrite Hm, Ht.
  - unfold sumAmounts. now rewrite Hm, Ht.
  - exact Hn.
  - unfold negative. now rewrite Hnet.
Qed.

Section WithNumbering.
Variable generateSettlementNumber : Z -> DB -> string.

Lemma createSettlementFromLoad_success now newId loadId deductions db :
  let result := createSettlementFromLoad generateSettlementNumber now newId
                  loadId deductions db in
  isSuccess (fst result) = true ->
  exists l gross,
    LoadController.findLoad loadId db = Some l
    /\ Load.driverPay l = Some gross
    /\ created gross deductions db (snd result).
Proof.
  unfold createSettlementFromLoad.
  destruct (LoadController.findLoad loadId db) as [l|]; [|discriminate].
  destruct (negb (LoadStatus_eqb (Load.status l) COMPLETED)); [discriminate|].
  destruct (Load.driverPay l) as [pay|] eqn:Hpay; [|discriminate].
  destruct (findMany _ (loadAssignment db)) as [|a rest]; [discriminate|].
  destruct (findFirst _ (driverSettlement db)); [discriminate|].
  destruct (validateDeductions newId deductions 0%float)
    as [e|[rows total]] eqn:Hv; [discriminate|].
  destruct (PrimFloat.ltb (PrimFloat.sub pay total) 0%float) eqn:Hnet;
    [discriminate|].
  intros _. exists l, pay. split; [reflexivity|]. split; [exact Hpay|].
  simpl snd. apply created_intro; assumption.
Qed.

Lemma createSettlementFromLoad_failure now newId loadId deductions db :
  let result := createSettlementFromLoad generateSettlementNumber now newId
                  loadId deductions db in
  isSuccess (fst result) = false -> snd result = db.
Proof.
  unfold createSettlementFromLoad.
  destruct (LoadController.findLoad loadId db) as [l|]; [|reflexivity].
  destruct (negb (LoadStatus_eqb (Load.status l) COMPLETED)); [reflexivity|].
  destruct (Load.driverPay l) as [pay|]; [|reflexivity].
  destruct (findMany _ (loadAssignment db)) as [|a rest]; [reflexivity|].
  destruct (findFirst _ (driverSettlement db)); [reflexivity|].
  destruct (validateDeductions newId deductions 0%float)
    as [e|[rows total]]; [reflexivity|].
  destruct (PrimFloat.ltb (PrimFloat.sub pay total) 0%float);
    [reflexivity|discriminate].
Qed.

Lemma createSettlementFromLoad_negative now newId loadId deductions db l gross :
  LoadController.findLoad loadId db = Some l ->
  Load.driverPay l = Some gross ->
  negative (PrimFloat.sub gross (sumAmounts (requestedAmounts deductions))) ->
  isSuccess (fst (createSettlementFromLoad generateSettlementNumber now newId
                    loadId deductions db)) = false.
Proof.
  intros Hl Hp Hneg. unfold createSettlementFromLoad. rewrite Hl, Hp.
  destruct (negb (LoadStatus_eqb (Load.status l) COMPLETED)); [reflexivity|].
  destruct (findMany _ (loadAssignment db)) as [|a rest]; [reflexivity|].
  destruct (findFirst _ (driverSettlement db)); [reflexivity|].
  destruct (validateDeductions newId deductions 0%float)
    as [e|[rows total]] eqn:Hv; [reflexivity|].
  destruct (validateDeductions_ok _ _ _ _ _ Hv) as [Ht _].
  unfold negative, sumAmounts in Hneg. rewrite <- Ht in Hneg.
  now rewrite Hneg.
Qed.

Lemma createPeriodSettlement_success
    now newId driverId periodStart periodEnd deductions db :
  let result := createPeriodSettlement generateSettlementNumber now newId
                  driverId periodStart periodEnd deductions db in
  isSuccess (fst result) = true ->
  exists d startDate endDate,
    Js.orElse driverId None = Some d
    /\ periodStart = Some startDate /\ periodEnd = Some endDate
    /\ created (sumDriverPay (periodLoads d startDate endDate db))
         deductions db (snd result).
Proof.
  unfold createPeriodSettlement.
  destruct (Js.orElse driverId None) as [d|]; [|discriminate].
  destruct periodStart as [startDate|]; [|discriminate].
  destruct periodEnd as [endDate|]; [|discriminate].
  destruct (startDate >=? endDate); [discriminate|].
  fold (periodLoads d startDate endDate db).
  destruct (List.length (periodLoads d startDate endDate db) =? 0)%nat;
    [discriminate|].
  destruct (0 <? List.length _)%nat; [discriminate|].
  destruct (validateDeductions newId deductions 0%float)
    as [e|[rows total]] eqn:Hv; [discriminate|].
  destruct (PrimFloat.ltb _ 0%float) eqn:Hnet; [discriminate|].
  intros _. exists d, startDate, endDate. repeat split.
  simpl snd. apply created_intro; assumption.
Qed.

Lemma createPeriodSettlement_failure
    now newId driverId periodStart periodEnd deductions db :
  let result := createPeriodSettlement generateSettlementNumber now newId
                  driverId periodStart periodEnd deductions db in
  isSuccess (fst result) = false -> snd result = db.
Proof.
  unfold createPeriodSettlement.
  destruct (Js.orElse driverId None) as [d|]; [|reflexivity].
  destruct periodStart as [startDate|]; [|reflexivity].
  destruct periodEnd as [endDate|]; [|reflexivity].
  destruct (startDate >=? endDate); [reflexivity|].
  destruct (List.length _ =? 0)%nat; [reflexivity|].
  destruct (0 <? List.length _)%nat; [reflexivity|].
  destruct (validateDeductions newId deductions 0%float)
    as [e|[rows total]]; [reflexivity|].
  destruct (PrimFloat.ltb _ 0%float); [reflexivity|discriminate].
Qed.

Lemma createPeriodSettlement_negative
    now newId d startDate endDate deductions db :
  negative (PrimFloat.sub (sumDriverPay (periodLoads d startDate endDate db))
              (sumAmounts (requestedAmounts deductions))) ->
  isSuccess (fst (createPeriodSettlement generateSettlementNumber now newId
                    (Some d) (Some startDate) (Some endDate) deductions db))
  = false.
Proof.
  intros Hneg. unfold createPeriodSettlement.
  destruct (Js.orElse (Some d) None) as [d'|] eqn:Hd; [|reflexivity].
  assert (d' = d) as ->.
  { destruct d as [|c s]; simpl in Hd; [discriminate|now inversion Hd]. }
  destruct (startDate >=? endDate); [reflexivity|].
  fold (periodLoads d startDate endDate db).
  destruct (List.length (periodLoads d startDate endDate db) =? 0)%nat;
    [reflexivity|].
  destruct (0 <? List.length _)%nat; [reflexivity|].
  destruct (validateDeductions newId deductions 0%float)
    as [e|[rows total]] eqn:Hv; [reflexivity|].
  destruct (validateDeductions_ok _ _ _ _ _ Hv) as [Ht _].
  unfold negative, sumAmounts in Hneg. rewrite <- Ht in Hneg.
  now rewrite Hneg.
Qed.

End WithNumbering.


(** The scenario of the specification: gross 1000 with deductions 100 and
    50 nets 850; deductions summing to 1100 are refused with nothing
    written. *)
Example settlement_scenario :
  map DriverSettlement.netAmount
    (driverSettlement
       (snd (createSettlementFromLoad Sample.settlementNumber 0 "S1" "L1"
               [Sample.deduction 100; Sample.deduction 50] Sample.completed)))
  = [850%float]
  /\ createSettlementFromLoad Sample.settlementNumber 0 "S1" "L1"
       [Sample.deduction 1000; Sample.deduction 100] Sample.completed
     = (ApiError "Deductions exceed gross amount" 400, Sample.completed).
Proof. split; reflexivity. Qed.


End SettlementFacts.

(** ** Invoice amounts *)

Module InvoiceFacts.
Import InvoiceController Invoices.

Lemma lineTotal_lineItemRows id items :
  lineTotal (lineItemRows id items) = subtotalOf items.
Proof.
  unfold lineTotal, subtotalOf, lineItemRows.
  generalize 0%float. induction items as [|item rest IH]; intros acc; simpl.
  - reflexivity.
  - apply IH.
Qed.

Lemma findInvoice_id id db i :
  findInvoice id db = Some i -> ShipperInvoice.id i = id.
Proof.
  intros H. apply findFirst_some in H. destruct H as [_ H].
  now apply String.eqb_eq.
Qed.

Lemma findInvoice_updateInvoiceRow id data db i :
  (forall x, ShipperInvoice.id (data x) = ShipperInvoice.id x) ->
  findInvoice id db = Some i ->
  findInvoice id (updateInvoiceRow id data db) = Some (data i).
Proof.
  intros Hid H. unfold findInvoice, updateInvoiceRow. simpl.
  rewrite findFirst_updateWhere by (intros; now rewrite Hid).
  fold (findInvoice id db). rewrite H. simpl.
  apply findInvoice_id in H. rewrite H, String.eqb_refl. reflexivity.
Qed.

(** Replacing the line items of an invoice: the old ones deleted, the new
    ones created. *)
Lemma itemsOf_replaced id items rows :
  findMany (fun li => String.eqb (InvoiceLineItem.invoiceId li) id)
    (deleteMany (fun li => String.eqb (InvoiceLineItem.invoiceId li) id) rows
     ++ lineItemRows id items)
  = lineItemRows id items.
Proof.
  unfold findMany, deleteMany. rewrite filter_app.
  assert (Hold : filter (fun li => String.eqb (InvoiceLineItem.invoiceId li) id)
                   (filter (fun r => negb (String.eqb
                                             (InvoiceLineItem.invoiceId r) id))
                           rows) = []).
  { induction rows as [|r rows IH]; simpl; [reflexivity|].
    destruct (String.eqb (InvoiceLineItem.invoiceId r) id) eqn:Hr; simpl;
      [exact IH|]. now rewrite Hr. }
  rewrite Hold. simpl.
  induction items as [|item rest IH]; simpl; [reflexivity|].
  now rewrite String.eqb_refl, IH.
Qed.

Section WithCollaborators.
Variable generateInvoiceNumber : Z -> DB -> string.
Variable addDays : Z -> Z -> Z.

Lemma createInvoiceFromLoad_amounts now newId loadId lineItems taxRate notes db :
  let result := createInvoiceFromLoad generateInvoiceNumber addDays now newId
                  loadId lineItems taxRate notes db in
  isSuccess (fst result) = true ->
  exists i rows,
    shipperInvoice (snd result) = (shipperInvoice db ++ [i])%list
    /\ invoiceLineItem (snd result) = (invoiceLineItem db ++ rows)%list
    /\ ShipperInvoice.id i = newId
    /\ Forall (fun r => InvoiceLineItem.invoiceId r = newId) rows
    /\ consistentAt (taxRateOrDefault taxRate) i rows.
Proof.
  unfold createInvoiceFromLoad.
  destruct (LoadController.findLoad loadId db) as [l|]; [|discriminate].
  destruct (negb (LoadStatus_eqb (Load.status l) COMPLETED)); [discriminate|].
  destruct (findFirst _ (shipperInvoice db)); [discriminate|].
  destruct (findFirst _ (shipperClient db)) as [c|]; [|discriminate].
  intros _. eexists. exists (lineItemRows newId (invoiceLineItemsOf lineItems l)).
  split; [reflexivity|]. split; [reflexivity|]. split; [reflexivity|]. split.
  - unfold lineItemRows. apply Forall_forall. intros r Hr.
    apply in_map_iff in Hr. destruct Hr as [item [<- _]]. reflexivity.
  - unfold consistentAt. simpl. rewrite lineTotal_lineItemRows.
    repeat split.
Qed.

End WithCollaborators.

(** An update of a draft that replaces the line items. *)
Lemma updateInvoice_items id items taxRate notes db i :
  findInvoice id db = Some i ->
  ShipperInvoice.status i = INV_DRAFT ->
  let result := updateInvoice id (Some items) taxRate notes db in
  fst result = ApiSuccess "Invoice updated successfully" 200
  /\ itemsOf id (snd result) = lineItemRows id items
  /\ option_map amounts (findInvoice id (snd result))
     = Some (subtotalOf items,
             updatedTaxAmount taxRate (subtotalOf items) i,
             PrimFloat.add (subtotalOf items)
               (Js.parseFloat (updatedTaxAmount taxRate (subtotalOf items) i))).
Proof.
  intros Hi Hs result. subst result. unfold updateInvoice. rewrite Hi, Hs.
  simpl fst. simpl snd. split; [reflexivity|]. split.
  - unfold itemsOf. simpl. apply itemsOf_replaced.
  - set (data := ShipperInvoice.setAmounts _ _ _ _).
    change (option_map amounts
              (findInvoice id
                 (updateInvoiceRow id data
                    (withInvoiceLineItem
                       (deleteMany
                          (fun li => String.eqb (InvoiceLineItem.invoiceId li) id)
                          (invoiceLineItem db)) db)))
            = Some (subtotalOf items,
                    updatedTaxAmount taxRate (subtotalOf items) i,
                    PrimFloat.add (subtotalOf items)
                      (Js.parseFloat
                         (updatedTaxAmount taxRate (subtotalOf items) i)))).
    erewrite findInvoice_updateInvoiceRow; [reflexivity|reflexivity|exact Hi].
Qed.

(** An update of a draft without line items leaves the amounts alone. *)
Lemma updateInvoice_notes_only id taxRate notes db i :
  findInvoice id db = Some i ->
  ShipperInvoice.status i = INV_DRAFT ->
  let result := updateInvoice id None taxRate notes db in
  fst result = ApiSuccess "Invoice updated successfully" 200
  /\ invoiceLineItem (snd result) = invoiceLineItem db
  /\ option_map amounts (findInvoice id (snd result)) = Some (amounts i).
Proof.
  intros Hi Hs result. subst result. unfold updateInvoice. rewrite Hi, Hs.
  destruct notes as [n|]; simpl fst; simpl snd.
  - split; [reflexivity|]. split; [reflexivity|].
    erewrite findInvoice_updateInvoiceRow; [reflexivity|reflexivity|exact Hi].
  - split; [reflexivity|]. split; [reflexivity|]. now rewrite Hi.
Qed.

(** C4, as amended.  An invoice created from a load has, for the tax rate
    of the request (0 when none is sent): subtotal = the sum of the amounts
    of its line items, tax amount = subtotal * (rate / 100), total =
    subtotal + tax amount.  An update of a draft that sends line items and
    a tax rate that is a non-zero number replaces the items and stores
    subtotal = their sum, tax amount = subtotal * (rate / 100) and total =
    subtotal + that tax amount; sent with line items and no tax rate, it
    stores the new subtotal, leaves the tax amount as it was and stores
    total = subtotal + the old tax amount; sent without line items, it
    leaves the line items and the three amounts as they were.  In the
    updates the tax amount enters the total through [parseFloat]. *)
Theorem invoice_amounts :
  (forall generateInvoiceNumber addDays now newId loadId lineItems taxRate
          notes db,
      let result := createInvoiceFromLoad generateInvoiceNumber addDays now
                      newId loadId lineItems taxRate notes db in
      isSuccess (fst result) = true ->
      exists i rows,
        shipperInvoice (snd result) = (shipperInvoice db ++ [i])%list
        /\ invoiceLineItem (snd result) = (invoiceLineItem db ++ rows)%list
        /\ ShipperInvoice.id i = newId
        /\ Forall (fun r => InvoiceLineItem.invoiceId r = newId) rows
        /\ consistentAt (taxRateOrDefault taxRate) i rows)
  /\ (forall id notes db i,
      findInvoice id db = Some i ->
      ShipperInvoice.status i = INV_DRAFT ->
      (forall items taxRate,
          Js.truthy taxRate = true ->
          let result := updateInvoice id (Some items) (Some taxRate) notes db in
          fst result = ApiSuccess "Invoice updated successfully" 200
          /\ option_map amounts (findInvoice id (snd result))
             = Some (lineTotal (itemsOf id (snd result)),
                     taxOn (lineTotal (itemsOf id (snd result))) taxRate,
                     PrimFloat.add (lineTotal (itemsOf id (snd result)))
                       (Js.parseFloat
                          (taxOn (lineTotal (itemsOf id (snd result)))
                                 taxRate))))
      /\ (forall items,
          let result := updateInvoice id (Some items) None notes db in
          fst result = ApiSuccess "Invoice updated successfully" 200
          /\ option_map amounts (findInvoice id (snd result))
             = Some (lineTotal (itemsOf id (snd result)),
                     ShipperInvoice.taxAmount i,
                     PrimFloat.add (lineTotal (itemsOf id (snd result)))
                       (Js.parseFloat (ShipperInvoice.taxAmount i))))
      /\ (forall taxRate,
          let result := updateInvoice id None taxRate notes db in
          fst result = ApiSuccess "Invoice updated successfully" 200
          /\ invoiceLineItem (snd result) = invoiceLineItem db
          /\ option_map amounts (findInvoice id (snd result))
             = Some (amounts i))).
Proof.
  split.
  - intros gen addDays now newId loadId lineItems taxRate notes db.
    apply createInvoiceFromLoad_amounts.
  - intros id notes db i Hi Hs. repeat apply conj.
    + intros items taxRate Hr result.
      destruct (updateInvoice_items id items (Some taxRate) notes db i Hi Hs)
        as [Hok [Hitems Ham]].
      subst result. split; [exact Hok|].
      rewrite Ham, Hitems, lineTotal_lineItemRows.
      unfold updatedTaxAmount. now rewrite Hr.
    + intros items result.
      destruct (updateInvoice_items id items None notes db i Hi Hs)
        as [Hok [Hitems Ham]].
      subst result. split; [exact Hok|].
      now rewrite Ham, Hitems, lineTotal_lineItemRows.
    + intros taxRate. apply updateInvoice_notes_only; assumption.
Qed.

Lemma invoice_amounts_witness :
  consistentAt 10%float
    (ShipperInvoice.mk "I1" "SC1" "L1" "INV-2026-0001" 1000%float 100%float
       1100%float INV_DRAFT None 1296000000)
    (itemsOf "I1" Sample.draftInvoice)
  /\ option_map amounts
       (findInvoice "I1"
          (snd (updateInvoice "I1" (Some [Sample.lineItem 2000])
                  (Some 10%float) None Sample.draftInvoice)))
     = Some (2000%float, 200%float, 2200%float).
Proof.
  destruct invoice_amounts as [Hnew Hupd]. split.
  - destruct (Hnew Sample.invoiceNumber Sample.addDays 0 "I1" "L1"
                (Some [Sample.lineItem 1000]) (Some 10%float) None
                Sample.completed eq_refl)
      as [i [rows [Hi [Hrows [_ [_ Hc]]]]]].
    vm_compute in Hi. inversion Hi; subst i.
    vm_compute in Hrows. inversion Hrows; subst rows. exact Hc.
  - destruct (Hupd "I1" None Sample.draftInvoice
                (ShipperInvoice.mk "I1" "SC1" "L1" "INV-2026-0001" 1000%float
                   100%float 1100%float INV_DRAFT None 1296000000)
                eq_refl eq_refl) as [Hrate _].
    exact (proj2 (Hrate [Sample.lineItem 2000] 10%float eq_refl)).
Defined.

(** C4, as stated, fails.  The draft [I1] holds amounts 1000, 100 and
    1100, consistent at the tax rate 10 it was created with.  Updated
    while in DRAFT with a single line of 2000 and no tax rate, it holds
    subtotal 2000, the old tax amount 100 and total 2100: the tax amount
    is not the subtotal times the rate over 100, neither at the rate 10 of
    the invoice nor at the default rate 0. *)
Lemma updated_invoice_keeps_old_tax :
  option_map (fun i => (ShipperInvoice.status i, amounts i))
    (findInvoice "I1" Sample.draftInvoice)
  = Some (INV_DRAFT, (1000%float, 100%float, 1100%float))
  /\ fst (updateInvoice "I1" (Some [Sample.lineItem 2000]) None None
            Sample.draftInvoice)
     = ApiSuccess "Invoice updated successfully" 200
  /\ option_map (fun i => (ShipperInvoice.status i, amounts i))
       (findInvoice "I1" Sample.repricedInvoice)
     = Some (INV_DRAFT, (2000%float, 100%float, 2100%float))
  /\ lineTotal (itemsOf "I1" Sample.repricedInvoice) = 2000%float
  /\ match findInvoice "I1" Sample.repricedInvoice with
     | Some i =>
       ~ consistentAt 10%float i (itemsOf "I1" Sample.repricedInvoice)
       /\ ~ consistentAt 0%float i (itemsOf "I1" Sample.repricedInvoice)
     | None => False
     end.
Proof.
  repeat apply conj; try reflexivity;
    intros [_ [Htax _]];
    apply (f_equal (fun x => PrimFloat.eqb x 100%float)) in Htax;
    vm_compute in Htax; discriminate.
Qed.

End InvoiceFacts.

(** * Further properties *)

(** ** Progress of a load through pickup and delivery *)

Module ProgressFacts.
Import LoadController Progress.

Lemma parseStatus_some s t : parseStatus s = Some t -> s = statusName t.
Proof.
  unfold parseStatus. intros H. apply find_some in H. destruct H as [_ H].
  apply String.eqb_eq in H. now symmetry.
Qed.

(** An accepted update, spelled out. *)
Lemma updateLoadStatus_accepted now user id status notes gpsLat gpsLng db l t :
  findLoad id db = Some l ->
  invalidTransition (Load.status l) status = false ->
  parseStatus status = Some t ->
  let result := updateLoadStatus now user id status notes gpsLat gpsLng db in
  fst result = ApiSuccess "Load status updated" 200
  /\ findLoad id (snd result) = Some (updated now t l)
  /\ loadStatusHistory (snd result)
     = (loadStatusHistory db
        ++ [LoadStatusHistory.mk id (Load.status l) t (userId user)
              (userType user) notes])%list
  /\ loadStatusEvent (snd result)
     = (loadStatusEvent db
        ++ [LoadStatusEvent.mk id
              (if UserType_eqb (userType user) DRIVER
               then Some (userId user) else None)
              t notes gpsLat gpsLng])%list.
Proof.
  intros Hl Hv Hp result. subst result. unfold updateLoadStatus.
  rewrite Hl, Hv, Hp. simpl fst. simpl snd.
  split; [reflexivity|]. split; [|split; reflexivity].
  unfold createHistory.
  match goal with
  | |- findLoad _ (withLoadStatusHistory _ (withLoadStatusEvent _ ?d)) = _ =>
      change (findLoad id d = Some (updated now t l))
  end.
  erewrite LoadFacts.findLoad_updateLoad; [| |exact Hl].
  - f_equal. apply parseStatus_some in Hp. subst status.
    destruct t; reflexivity.
  - intros x. destruct (String.eqb status "LOADED"); [reflexivity|].
    destruct (String.eqb status "DELIVERED"); reflexivity.
Qed.



Lemma updates_refused_somewhere user id calls :
  forall db l,
    findLoad id db = Some l ->
    forallb isSuccess (fst (updates user id calls db))
    = onTrack (Load.status l) calls
    /\ (onTrack (Load.status l) calls = true ->
        findLoad id (snd (updates user id calls db)) = Some (replay l calls)
        /\ loadStatusHistory (snd (updates user id calls db))
           = (loadStatusHistory db
              ++ ledger user id (Load.status l) calls)%list).
Proof.
  induction calls as [|c rest IH]; intros db l Hl; simpl.
  - split; [reflexivity|]. intros _. split; [exact Hl|].
    now rewrite app_nil_r.
  - destruct (parseStatus (status c)) as [t|] eqn:Hp.
    + destruct (invalidTransition (Load.status l) (status c)) eqn:Hv.
      * unfold updateLoadStatus at 1. rewrite Hl, Hv.
        destruct (updates user id rest db) as [rs db2]. simpl.
        split; [reflexivity|discriminate].
      * destruct (updateLoadStatus_accepted (at_ c) user id (status c)
                    (notes c) (gpsLat c) (gpsLng c) db l t Hl Hv Hp)
          as [Hok [Hfind [Hhist _]]].
        destruct (updateLoadStatus (at_ c) user id (status c) (notes c)
                    (gpsLat c) (gpsLng c) db) as [r db1].
        simpl in Hok, Hfind, Hhist. subst r.
        destruct (IH db1 (updated (at_ c) t l) Hfind) as [Hall Htrack].
        destruct (updates user id rest db1) as [rs db2].
        simpl in *.
        assert (Hst : Load.status (updated (at_ c) t l) = t)
          by (destruct t; reflexivity).
        rewrite Hst in Hall, Htrack. split; [exact Hall|].
        intros Hon. destruct (Htrack Hon) as [Hf Hh].
        split; [exact Hf|]. rewrite Hh, Hhist, <- app_assoc. reflexivity.
    + unfold updateLoadStatus at 1. rewrite Hl, Hp.
      destruct (invalidTransition (Load.status l) (status c));
        destruct (updates user id rest db) as [rs db2]; simpl;
        (split; [reflexivity|discriminate]).
Qed.



End ProgressFacts.

(** ** Submission and review of a proof of delivery *)

Module PodMoreFacts.
Import LoadController PODController Pod.

Lemma uploadPhotos_rows user loadId podId photos :
  forall i db,
    fst (uploadPhotos user loadId podId photos i db) = firstRefusal photos
    /\ podPhoto (snd (uploadPhotos user loadId podId photos i db))
       = (podPhoto db ++ photoRows podId i photos)%list.
Proof.
  induction photos as [|f rest IH]; intros i db; simpl.
  - split; [reflexivity|]. now rewrite app_nil_r.
  - destruct (validateAndUpload f) as [e|url]; simpl.
    + split; [reflexivity|]. now rewrite app_nil_r.
    + match goal with
      | |- context [uploadPhotos _ _ _ _ _ ?d] =>
          destruct (IH (S i) d) as [Hf Hr]
      end.
      split; [exact Hf|]. rewrite Hr. unfold create. simpl.
      now rewrite <- app_assoc.
Qed.

Lemma photoRows_all podId photos :
  forallb accepted photos = true ->
  forall i,
    firstRefusal photos = None
    /\ map PodPhoto.photoOrder (photoRows podId i photos)
       = seq i (List.length photos).
Proof.
  induction photos as [|f rest IH]; simpl; intros Hall i.
  - split; reflexivity.
  - unfold accepted in Hall at 1.
    destruct (validateAndUpload f) as [e|url]; [discriminate|].
    simpl in Hall. destruct (IH Hall (S i)) as [Hf Hm].
    split; [exact Hf|]. simpl. now rewrite Hm.
Qed.

Lemma firstRefusal_some photos :
  forallb accepted photos = false -> exists e, firstRefusal photos = Some e.
Proof.
  induction photos as [|f rest IH]; simpl; [discriminate|].
  unfold accepted at 1.
  destruct (validateAndUpload f) as [e|url]; simpl; eauto.
Qed.

(** What [submitPOD] does once the request has passed its checks and the
    signature is stored. *)
Lemma submitPOD_past_checks now newId user loadId recipientName
    recipientTitle gpsLat gpsLng notes sig url photos db l :
  findLoad loadId db = Some l ->
  assignmentsOf loadId (userId user) db <> [] ->
  deliverable l = true ->
  validateAndUpload sig = inr url ->
  let result := submitPOD now newId user loadId recipientName recipientTitle
                  gpsLat gpsLng notes (Some sig) photos db in
  podDocument (snd result)
  = (podDocument db
     ++ [submitted now newId user loadId recipientName recipientTitle gpsLat
           gpsLng notes url])%list
  /\ podPhoto (snd result) = (podPhoto db ++ photoRows newId 0 photos)%list
  /\ match firstRefusal photos with
     | Some e =>
       fst result = NextError e
       /\ load (snd result) = load db
       /\ loadStatusHistory (snd result) = loadStatusHistory db
     | None =>
       fst result = ApiSuccess "POD submitted successfully" 201
       /\ findLoad loadId (snd result)
          = Some (Load.setStatus POD_SUBMITTED l)
       /\ loadStatusHistory (snd result)
          = (loadStatusHistory db
             ++ [LoadStatusHistory.mk loadId (Load.status l) POD_SUBMITTED
                   (userId user) DRIVER (Some "POD submitted by driver")])%list
     end.
Proof.
  intros Hl Has Hd Hsig result. subst result. unfold submitPOD.
  rewrite Hl.
  destruct (assignmentsOf loadId (userId user) db) as [|a rest] eqn:Ha;
    [congruence|]. simpl List.length. simpl Nat.eqb.
  assert (Hst : negb (LoadStatus_eqb (Load.status l) DELIVERED)
                && negb (LoadStatus_eqb (Load.status l) AT_DELIVERY) = false).
  { unfold deliverable in Hd. rewrite <- negb_orb, Hd. reflexivity. }
  cbv iota. rewrite Hst, Hsig.
  match goal with
  | |- context [uploadPhotos ?u ?lid ?pid ?ps ?i ?d] =>
      pose proof (uploadPhotos_rows u lid pid ps i d) as [Hfst Hrows];
      pose proof (PodFacts.uploadPhotos_frame u lid pid ps i d) as Hframe;
      destruct (uploadPhotos u lid pid ps i d) as [err db'] eqn:Hup
  end.
  simpl in Hfst, Hrows, Hframe.
  destruct Hframe as [Hload [_ [Hpod Hhist]]]. subst err.
  destruct (firstRefusal photos) as [e|]; simpl.
  - split; [exact Hpod|]. split; [exact Hrows|]. repeat split; assumption.
  - split; [exact Hpod|]. split; [exact Hrows|].
    split; [reflexivity|]. split.
    + unfold createHistory.
      change (findLoad loadId
                (updateLoad loadId (Load.setStatus POD_SUBMITTED) db')
              = Some (Load.setStatus POD_SUBMITTED l)).
      apply LoadFacts.findLoad_updateLoad; [reflexivity|].
      rewrite <- Hl. apply PodFacts.findLoad_ext. exact Hload.
    + rewrite Hhist. reflexivity.
Qed.

(** X3.  When a submission has passed the checks of [submitPOD] and its
    signature is stored but one of its photos is refused (wrong type or
    failed upload), the call ends in the exception of the first refused
    photo, yet the POD document and the photo rows of the photos before it
    stay written, while the load keeps its status and no history row is
    added. *)
Theorem submitPOD_refused_photo_leaves_pod :
  forall now newId user loadId recipientName recipientTitle gpsLat gpsLng
         notes sig url photos db l,
    findLoad loadId db = Some l ->
    assignmentsOf loadId (userId user) db <> [] ->
    deliverable l = true ->
    validateAndUpload sig = inr url ->
    forallb accepted photos = false ->
    let result := submitPOD now newId user loadId recipientName
                    recipientTitle gpsLat gpsLng notes (Some sig) photos db in
    (exists e, firstRefusal photos = Some e /\ fst result = NextError e)
    /\ podDocument (snd result)
       = (podDocument db
          ++ [submitted now newId user loadId recipientName recipientTitle
                gpsLat gpsLng notes url])%list
    /\ podPhoto (snd result) = (podPhoto db ++ photoRows newId 0 photos)%list
    /\ load (snd result) = load db
    /\ loadStatusHistory (snd result) = loadStatusHistory db.
Proof.
  intros now newId user loadId recipientName recipientTitle gpsLat gpsLng
         notes sig url photos db l Hl Has Hd Hsig Hbad result.
  destruct (submitPOD_past_checks now newId user loadId recipientName
              recipientTitle gpsLat gpsLng notes sig url photos db l
              Hl Has Hd Hsig) as [Hpod [Hrows Hcase]].
  fold result in Hpod, Hrows, Hcase.
  destruct (firstRefusal_some photos Hbad) as [e He].
  rewrite He in Hcase. destruct Hcase as [Hr [Hload Hhist]].
  split; [exists e; split; [exact He|exact Hr]|].
  repeat split; assumption.
Qed.

Lemma submitPOD_refused_photo_leaves_pod_witness :
  List.length
    (podDocument
       (snd (submitPOD 50 "P9" Sample.driverUser "L1" None None 40%float
               (-75)%float None (Some Sample.signatureFile)
               [Sample.signatureFile; mkFile "application/pdf" (Some "/x")]
               (Sample.storeWithAssignment DELIVERED (Some 5) None))))
  = 1%nat
  /\ LoadLifecycle.statusOf "L1"
       (snd (submitPOD 50 "P9" Sample.driverUser "L1" None None 40%float
               (-75)%float None (Some Sample.signatureFile)
               [Sample.signatureFile; mkFile "application/pdf" (Some "/x")]
               (Sample.storeWithAssignment DELIVERED (Some 5) None)))
     = Some DELIVERED.
Proof.
  assert (Has : assignmentsOf "L1" (userId Sample.driverUser)
                  (Sample.storeWithAssignment DELIVERED (Some 5) None) <> [])
    by discriminate.
  destruct (submitPOD_refused_photo_leaves_pod 50 "P9" Sample.driverUser "L1"
              None None 40%float (-75)%float None Sample.signatureFile
              "/uploads/sig.png"
              [Sample.signatureFile; mkFile "application/pdf" (Some "/x")]
              (Sample.storeWithAssignment DELIVERED (Some 5) None)
              (Sample.loadIn DELIVERED) eq_refl Has eq_refl eq_refl eq_refl)
    as [_ [Hpod [_ [Hload _]]]].
  split.
  - rewrite Hpod. reflexivity.
  - unfold LoadLifecycle.statusOf, findLoad. rewrite Hload. reflexivity.
Defined.

Lemma findFirst_app_fresh (A : Type) (p : A -> bool) rows r :
  findFirst p rows = None -> p r = true ->
  findFirst p (rows ++ [r]) = Some r.
Proof.
  unfold findFirst. induction rows as [|x rows IH]; simpl; intros Hn Hp.
  - now rewrite Hp.
  - destruct (p x); [discriminate|auto].
Qed.

(** The first review of an unverified POD document. *)
Lemma verifyPOD_first now user id approved notes db pod l :
  findPod id db = Some pod ->
  PodDocument.verifiedAt pod = None ->
  findLoad (PodDocument.loadId pod) db = Some l ->
  let result := verifyPOD now user id approved notes db in
  fst result = ApiSuccess "POD verified successfully" 200
  /\ findLoad (PodDocument.loadId pod) (snd result)
     = Some (Load.setStatus (if approved then COMPLETED else POD_PENDING) l)
  /\ loadStatusHistory (snd result)
     = (loadStatusHistory db
        ++ [LoadStatusHistory.mk (PodDocument.loadId pod) (Load.status l)
              (if approved then COMPLETED else POD_PENDING) (userId user)
              INTERNAL_USER
              (if approved then Some "POD verified and approved"
               else Js.orElse notes (Some "POD needs correction"))])%list.
Proof.
  intros Hp Hv Hl result. subst result. unfold verifyPOD.
  rewrite Hp, Hv, Hl. simpl.
  destruct approved; simpl; (split; [reflexivity|]); (split; [|reflexivity]);
    unfold createHistory;
    match goal with
    | |- findLoad ?i (withLoadStatusHistory _ (updateLoad ?i ?f ?d)) = _ =>
        change (findLoad i (updateLoad i f d) = Some (f l))
    end;
    (apply LoadFacts.findLoad_updateLoad; [reflexivity|exact Hl]).
Qed.

(** X4.  A submission that passes the checks of [submitPOD] with every
    file accepted succeeds; it writes one photo row per photo, numbered
    0, 1, 2, ... in the order the photos were sent, and one POD document
    without a verified timestamp.  If the identifier of that document is
    new to the store, the first [verifyPOD] on it succeeds and leaves the
    load [COMPLETED] (approved) or [POD_PENDING] (rejected), and the two
    calls together add exactly two history rows: from the status the load
    had to [POD_SUBMITTED], by the driver, and from [POD_SUBMITTED] to the
    verdict, by the reviewer. *)
Theorem submitPOD_then_verifyPOD :
  forall now newId user loadId recipientName recipientTitle gpsLat gpsLng
         notes sig url photos db l,
    findLoad loadId db = Some l ->
    assignmentsOf loadId (userId user) db <> [] ->
    deliverable l = true ->
    validateAndUpload sig = inr url ->
    forallb accepted photos = true ->
    findPod newId db = None ->
    let sent := submitPOD now newId user loadId recipientName recipientTitle
                  gpsLat gpsLng notes (Some sig) photos db in
    fst sent = ApiSuccess "POD submitted successfully" 201
    /\ podPhoto (snd sent) = (podPhoto db ++ photoRows newId 0 photos)%list
    /\ map PodPhoto.photoOrder (photoRows newId 0 photos)
       = seq 0 (List.length photos)
    /\ (forall now' reviewer approved notes',
        let reviewed := verifyPOD now' reviewer newId approved notes'
                          (snd sent) in
        fst reviewed = ApiSuccess "POD verified successfully" 200
        /\ LoadLifecycle.statusOf loadId (snd reviewed)
           = Some (if approved then COMPLETED else POD_PENDING)
        /\ loadStatusHistory (snd reviewed)
           = (loadStatusHistory db
              ++ [LoadStatusHistory.mk loadId (Load.status l) POD_SUBMITTED
                    (userId user) DRIVER (Some "POD submitted by driver");
                  LoadStatusHistory.mk loadId POD_SUBMITTED
                    (if approved then COMPLETED else POD_PENDING)
                    (userId reviewer) INTERNAL_USER
                    (if approved then Some "POD verified and approved"
                     else Js.orElse notes'
                            (Some "POD needs correction"))])%list).
Proof.
  intros now newId user loadId recipientName recipientTitle gpsLat gpsLng
         notes sig url photos db l Hl Has Hd Hsig Hall Hfresh sent.
  destruct (submitPOD_past_checks now newId user loadId recipientName
              recipientTitle gpsLat gpsLng notes sig url photos db l
              Hl Has Hd Hsig) as [Hpod [Hrows Hcase]].
  fold sent in Hpod, Hrows, Hcase.
  destruct (photoRows_all newId photos Hall 0%nat) as [Hnone Horder].
  rewrite Hnone in Hcase. destruct Hcase as [Hok [Hload Hhist]].
  split; [exact Hok|]. split; [exact Hrows|]. split; [exact Horder|].
  intros now' reviewer approved notes' reviewed.
  assert (Hfind : findPod newId (snd sent)
                  = Some (submitted now newId user loadId recipientName
                            recipientTitle gpsLat gpsLng notes url)).
  { unfold findPod. rewrite Hpod. apply findFirst_app_fresh.
    - exact Hfresh.
    - simpl. apply String.eqb_refl. }
  destruct (verifyPOD_first now' reviewer newId approved notes' (snd sent)
              _ _ Hfind eq_refl Hload) as [Hr [Hl' Hh]].
  fold reviewed in Hr, Hl', Hh. simpl in Hl', Hh.
  split; [exact Hr|]. split.
  - unfold LoadLifecycle.statusOf. rewrite Hl'. reflexivity.
  - rewrite Hh, Hhist, <- app_assoc. reflexivity.
Qed.

Lemma submitPOD_then_verifyPOD_witness :
  LoadLifecycle.statusOf "L1"
    (snd (verifyPOD 90 Sample.dispatcher "P9" true None
            (snd (submitPOD 50 "P9" Sample.driverUser "L1" None None 40%float
                    (-75)%float None (Some Sample.signatureFile)
                    [Sample.signatureFile; Sample.signatureFile]
                    (Sample.storeWithAssignment AT_DELIVERY (Some 5) None)))))
  = Some COMPLETED.
Proof.
  assert (Has : assignmentsOf "L1" (userId Sample.driverUser)
                  (Sample.storeWithAssignment AT_DELIVERY (Some 5) None) <> [])
    by discriminate.
  destruct (submitPOD_then_verifyPOD 50 "P9" Sample.driverUser "L1" None None
              40%float (-75)%float None Sample.signatureFile
              "/uploads/sig.png" [Sample.signatureFile; Sample.signatureFile]
              (Sample.storeWithAssignment AT_DELIVERY (Some 5) None)
              (Sample.loadIn AT_DELIVERY) eq_refl Has eq_refl eq_refl eq_refl
              eq_refl) as [_ [_ [_ Hreview]]].
  destruct (Hreview 90 Sample.dispatcher true None) as [_ [Hst _]].
  exact Hst.
Defined.

(** X5.  Once [verifyPOD] has rejected a POD the load is [POD_PENDING],
    and [submitPOD] refuses every submission for that load with "Load must
    be delivered before submitting POD", writing nothing: the driver cannot
    resubmit while the load stays [POD_PENDING].  The status endpoint has
    no entry for [POD_PENDING], so it accepts a move back to [DELIVERED],
    after which a submission is past the status check again. *)
Theorem rejected_pod_blocks_resubmission :
  forall now reviewer id notes db pod l,
    findPod id db = Some pod ->
    PodDocument.verifiedAt pod = None ->
    findLoad (PodDocument.loadId pod) db = Some l ->
    let loadId := PodDocument.loadId pod in
    let rejected := snd (verifyPOD now reviewer id false notes db) in
    LoadLifecycle.statusOf loadId rejected = Some POD_PENDING
    /\ (forall now' newId user recipientName recipientTitle gpsLat gpsLng
               notes' signature photos,
        assignmentsOf loadId (userId user) db <> [] ->
        submitPOD now' newId user loadId recipientName recipientTitle gpsLat
                  gpsLng notes' signature photos rejected
        = (ApiError "Load must be delivered before submitting POD" 400,
           rejected))
    /\ (forall now' user notes' gpsLat gpsLng,
        let reopened := updateLoadStatus now' user loadId "DELIVERED" notes'
                          gpsLat gpsLng rejected in
        fst reopened = ApiSuccess "Load status updated" 200
        /\ option_map Pod.deliverable (findLoad loadId (snd reopened))
           = Some true).
Proof.
  intros now reviewer id notes db pod l Hp Hv Hl loadId rejected.
  destruct (verifyPOD_first now reviewer id false notes db pod l Hp Hv Hl)
    as [_ [Hfind _]].
  fold rejected in Hfind. fold loadId in Hfind. simpl in Hfind.
  split; [unfold LoadLifecycle.statusOf; now rewrite Hfind|]. split.
  - intros now' newId user recipientName recipientTitle gpsLat gpsLng notes'
           signature photos Has.
    unfold submitPOD. rewrite Hfind.
    assert (Hsame : assignmentsOf loadId (userId user) rejected
                    = assignmentsOf loadId (userId user) db).
    { subst rejected loadId. unfold verifyPOD. rewrite Hp, Hv, Hl.
      reflexivity. }
    rewrite Hsame.
    destruct (assignmentsOf loadId (userId user) db) as [|a rest];
      [congruence|]. reflexivity.
  - intros now' user notes' gpsLat gpsLng reopened.
    destruct (ProgressFacts.updateLoadStatus_accepted now' user loadId
                "DELIVERED" notes' gpsLat gpsLng rejected
                (Load.setStatus POD_PENDING l) DELIVERED Hfind eq_refl
                eq_refl) as [Hok [Hf _]].
    fold reopened in Hok, Hf. split; [exact Hok|].
    rewrite Hf. reflexivity.
Qed.

Lemma rejected_pod_blocks_resubmission_witness :
  submitPOD 95 "P2" Sample.driverUser "L1" None None 40%float (-75)%float
    None (Some Sample.signatureFile) []
    (snd (verifyPOD 70 Sample.dispatcher "P1" false (Some "Blurred")
            (Sample.storeWithPod POD_SUBMITTED None)))
  = (ApiError "Load must be delivered before submitting POD" 400,
     snd (verifyPOD 70 Sample.dispatcher "P1" false (Some "Blurred")
            (Sample.storeWithPod POD_SUBMITTED None))).
Proof.
  assert (Has : PODController.assignmentsOf "L1" (userId Sample.driverUser)
                  (Sample.storeWithPod POD_SUBMITTED None) <> [])
    by discriminate.
  destruct (rejected_pod_blocks_resubmission 70 Sample.dispatcher "P1"
              (Some "Blurred") (Sample.storeWithPod POD_SUBMITTED None)
              (Sample.pod None) (Sample.loadIn POD_SUBMITTED)
              eq_refl eq_refl eq_refl) as [_ [Hblock _]].
  apply (Hblock 95 "P2" Sample.driverUser None None 40%float (-75)%float None
           (Some Sample.signatureFile) [] Has).
Defined.

End PodMoreFacts.

(** ** Settlements of a load and of a period *)

Module PayoutFacts.
Import SettlementController Settlements SettlementDisputes Payouts.

(** Whether the deductions of a request are accepted, and their total, do
    not depend on the settlement they are attached to. *)
Lemma validateDeductions_total id1 id2 deductions :
  forall t rows total,
    validateDeductions id1 deductions t = inr (rows, total) ->
    exists rows', validateDeductions id2 deductions t = inr (rows', total).
Proof.
  induction deductions as [|d rest IH]; intros t rows total; simpl.
  - intros H. inversion H. eauto.
  - destruct (invalidAmount (Js.parseFloat (amount d))); [discriminate|].
    destruct (validateDeductions id1 rest
                (PrimFloat.add t (Js.parseFloat (amount d))))
      as [e|[rows1 total1]] eqn:E; [discriminate|].
    intros H. inversion H; subst.
    destruct (IH _ _ _ E) as [rows' H']. rewrite H'. eauto.
Qed.

Lemma validateDeductions_refusal id1 id2 deductions :
  forall t e,
    validateDeductions id1 deductions t = inl e ->
    validateDeductions id2 deductions t = inl e.
Proof.
  induction deductions as [|d rest IH]; intros t e; simpl; [discriminate|].
  destruct (invalidAmount (Js.parseFloat (amount d))); [auto|].
  destruct (validateDeductions id1 rest
              (PrimFloat.add t (Js.parseFloat (amount d))))
    as [e1|[rows1 total1]] eqn:E; [|discriminate].
  intros H. inversion H; subst. now rewrite (IH _ _ E).
Qed.

Lemma findFirst_app_miss (A : Type) (p : A -> bool) rows r :
  p r = false -> findFirst p (rows ++ [r]) = findFirst p rows.
Proof.
  unfold findFirst. intros Hp.
  induction rows as [|x rows IH]; simpl; [now rewrite Hp|].
  destruct (p x); auto.
Qed.

Lemma findFirst_app_hit (A : Type) (p : A -> bool) rows r :
  findFirst p rows = None -> p r = true ->
  findFirst p (rows ++ [r]) = Some r.
Proof.
  unfold findFirst. induction rows as [|x rows IH]; simpl; intros Hn Hp.
  - now rewrite Hp.
  - destruct (p x); [discriminate|auto].
Qed.

Lemma findFirst_map_none (A : Type) (p : A -> bool) (g : A -> A) rows :
  (forall r, p r = false -> p (g r) = false) ->
  findFirst p rows = None -> findFirst p (map g rows) = None.
Proof.
  unfold findFirst. intros Hg.
  induction rows as [|x rows IH]; simpl; [reflexivity|].
  destruct (p x) eqn:Hx; [discriminate|]. intros Hn.
  rewrite (Hg _ Hx). auto.
Qed.

Lemma findMany_map_length (A : Type) (p : A -> bool) (g : A -> A) rows :
  (forall r, p (g r) = p r) ->
  List.length (findMany p (map g rows)) = List.length (findMany p rows).
Proof.
  unfold findMany. intros Hg.
  induction rows as [|x rows IH]; simpl; [reflexivity|].
  rewrite Hg. destruct (p x); simpl; auto.
Qed.

Section WithNumbering.
Variable generateSettlementNumber : Z -> DB -> string.

Local Abbreviation createSettlementFromLoad :=
  (createSettlementFromLoad generateSettlementNumber).
Local Abbreviation createPeriodSettlement :=
  (createPeriodSettlement generateSettlementNumber).

(** What an accepted creation has checked, and the settlement it adds. *)
Lemma createSettlementFromLoad_accepted now newId loadId deductions db :
  fst (createSettlementFromLoad now newId loadId deductions db)
  = ApiSuccess "Settlement created successfully" 201 ->
  exists l pay a rest rows total s,
    LoadController.findLoad loadId db = Some l
    /\ LoadStatus_eqb (Load.status l) COMPLETED = true
    /\ Load.driverPay l = Some pay
    /\ findMany (fun a => String.eqb (LoadAssignment.loadId a) loadId
                          && acceptedNotRejected a) (loadAssignment db)
       = a :: rest
    /\ blocking loadId db = None
    /\ validateDeductions newId deductions 0%float = inr (rows, total)
    /\ PrimFloat.ltb (PrimFloat.sub pay total) 0%float = false
    /\ DriverSettlement.id s = newId
    /\ DriverSettlement.loadId s = Some loadId
    /\ DriverSettlement.status s = SET_PENDING
    /\ driverSettlement (snd (createSettlementFromLoad now newId loadId
                                deductions db))
       = (driverSettlement db ++ [s])%list
    /\ load (snd (createSettlementFromLoad now newId loadId deductions db))
       = load db
    /\ loadAssignment (snd (createSettlementFromLoad now newId loadId
                              deductions db))
       = loadAssignment db.
Proof.
  unfold SettlementController.createSettlementFromLoad, blocking.
  destruct (LoadController.findLoad loadId db) as [l|]; [|discriminate].
  destruct (LoadStatus_eqb (Load.status l) COMPLETED) eqn:Hst;
    [|discriminate]. simpl negb. cbv iota.
  destruct (Load.driverPay l) as [pay|] eqn:Hpay; [|discriminate].
  destruct (findMany _ (loadAssignment db)) as [|a rest] eqn:Has;
    [discriminate|].
  destruct (findFirst _ (driverSettlement db)) eqn:Hblock; [discriminate|].
  destruct (validateDeductions newId deductions 0%float)
    as [e|[rows total]] eqn:Hv; [discriminate|].
  destruct (PrimFloat.ltb (PrimFloat.sub pay total) 0%float) eqn:Hnet;
    [discriminate|].
  intros _. exists l, pay, a, rest, rows, total. eexists.
  repeat split; try reflexivity; assumption.
Qed.

(** A creation for a load with a settlement standing in the way. *)
Lemma createSettlementFromLoad_blocked now newId loadId deductions db l pay a
    rest s :
  LoadController.findLoad loadId db = Some l ->
  LoadStatus_eqb (Load.status l) COMPLETED = true ->
  Load.driverPay l = Some pay ->
  findMany (fun a => String.eqb (LoadAssignment.loadId a) loadId
                     && acceptedNotRejected a) (loadAssignment db)
  = a :: rest ->
  blocking loadId db = Some s ->
  createSettlementFromLoad now newId loadId deductions db
  = (ApiError "Settlement already exists for this load" 400, db).
Proof.
  intros Hl Hst Hpay Has Hb.
  unfold SettlementController.createSettlementFromLoad.
  rewrite Hl, Hst, Hpay, Has. unfold blocking in Hb. now rewrite Hb.
Qed.

(** A creation that passes every check. *)
Lemma createSettlementFromLoad_passes now newId loadId deductions db l pay a
    rest rows total :
  LoadController.findLoad loadId db = Some l ->
  LoadStatus_eqb (Load.status l) COMPLETED = true ->
  Load.driverPay l = Some pay ->
  findMany (fun a => String.eqb (LoadAssignment.loadId a) loadId
                     && acceptedNotRejected a) (loadAssignment db)
  = a :: rest ->
  blocking loadId db = None ->
  validateDeductions newId deductions 0%float = inr (rows, total) ->
  PrimFloat.ltb (PrimFloat.sub pay total) 0%float = false ->
  fst (createSettlementFromLoad now newId loadId deductions db)
  = ApiSuccess "Settlement created successfully" 201
  /\ exists s,
      DriverSettlement.loadId s = Some loadId
      /\ driverSettlement (snd (createSettlementFromLoad now newId loadId
                                  deductions db))
         = (driverSettlement db ++ [s])%list.
Proof.
  intros Hl Hst Hpay Has Hb Hv Hnet.
  unfold SettlementController.createSettlementFromLoad.
  rewrite Hl, Hst, Hpay, Has. unfold blocking in Hb. rewrite Hb, Hv, Hnet.
  simpl. split; [reflexivity|]. eexists. split.
  2: reflexivity.
  reflexivity.
Qed.


(** What an accepted period settlement has checked, and the row it adds. *)
Lemma createPeriodSettlement_accepted now newId driverId startDate endDate
    deductions db :
  fst (createPeriodSettlement now newId (Some driverId) (Some startDate)
         (Some endDate) deductions db)
  = ApiSuccess "Period settlement created" 201 ->
  exists rows total s,
    Js.orElse (Some driverId) None = Some driverId
    /\ (startDate >=? endDate) = false
    /\ periodLoads driverId startDate endDate db <> []
    /\ findMany (isSettled (periodLoads driverId startDate endDate db))
         (driverSettlement db) = []
    /\ validateDeductions newId deductions 0%float = inr (rows, total)
    /\ PrimFloat.ltb
         (PrimFloat.sub
            (sumDriverPay (periodLoads driverId startDate endDate db)) total)
         0%float = false
    /\ DriverSettlement.loadId s = None
    /\ DriverSettlement.driverId s = driverId
    /\ DriverSettlement.periodStart s = startDate
    /\ DriverSettlement.periodEnd s = endDate
    /\ DriverSettlement.grossAmount s
       = sumDriverPay (periodLoads driverId startDate endDate db)
    /\ driverSettlement (snd (createPeriodSettlement now newId (Some driverId)
                                (Some startDate) (Some endDate) deductions db))
       = (driverSettlement db ++ [s])%list
    /\ load (snd (createPeriodSettlement now newId (Some driverId)
                    (Some startDate) (Some endDate) deductions db))
       = load db
    /\ loadAssignment (snd (createPeriodSettlement now newId (Some driverId)
                              (Some startDate) (Some endDate) deductions db))
       = loadAssignment db.
Proof.
  unfold SettlementController.createPeriodSettlement.
  destruct (Js.orElse (Some driverId) None) as [d|] eqn:Hd; [|discriminate].
  assert (d = driverId) as ->.
  { destruct driverId as [|c rest]; simpl in Hd; [discriminate|].
    now inversion Hd. }
  destruct (startDate >=? endDate) eqn:Hdates; [discriminate|].
  fold (periodLoads driverId startDate endDate db).
  destruct (periodLoads driverId startDate endDate db) as [|l0 loads] eqn:Hp;
    [discriminate|]. simpl Nat.eqb. cbv iota.
  destruct (findMany (isSettled (l0 :: loads)) (driverSettlement db))
    as [|s0 others] eqn:He; [|discriminate]. simpl Nat.ltb. cbv iota.
  destruct (validateDeductions newId deductions 0%float)
    as [e|[rows total]] eqn:Hv; [discriminate|].
  destruct (PrimFloat.ltb _ 0%float) eqn:Hnet; [discriminate|].
  intros _. exists rows, total. eexists.
  split; [reflexivity|]. split; [reflexivity|].
  split; [discriminate|]. split; [reflexivity|].
  split; [reflexivity|]. split; [exact Hnet|].
  repeat split; reflexivity.
Qed.

Lemma periodLoads_ext driverId startDate endDate db1 db2 :
  load db1 = load db2 -> loadAssignment db1 = loadAssignment db2 ->
  periodLoads driverId startDate endDate db1
  = periodLoads driverId startDate endDate db2.
Proof.
  intros Hl Ha. unfold periodLoads, inPeriod. now rewrite Hl, Ha.
Qed.

Lemma isSettled_unattached loads s :
  DriverSettlement.loadId s = None -> isSettled loads s = false.
Proof.
  intros Hs. unfold isSettled.
  assert (H : existsb (fun l => loadIdIs (Load.id l) s) loads = false).
  { induction loads as [|l loads IH]; simpl; [reflexivity|].
    unfold loadIdIs at 1. now rewrite Hs. }
  now rewrite H.
Qed.


End WithNumbering.



End PayoutFacts.

(** ** Invoices of a load *)

Module BillingFacts.
Import InvoiceController InvoiceCancellation Billing.

Section WithCollaborators.
Variable generateInvoiceNumber : Z -> DB -> string.
Variable addDays : Z -> Z -> Z.

Local Abbreviation createInvoiceFromLoad :=
  (createInvoiceFromLoad generateInvoiceNumber addDays).

(** What an accepted creation has checked, and the invoice it adds. *)
Lemma createInvoiceFromLoad_accepted now newId loadId lineItems taxRate notes
    db :
  fst (createInvoiceFromLoad now newId loadId lineItems taxRate notes db)
  = ApiSuccess "Invoice created successfully" 201 ->
  exists l client i,
    LoadController.findLoad loadId db = Some l
    /\ LoadStatus_eqb (Load.status l) COMPLETED = true
    /\ openInvoice loadId db = None
    /\ findFirst (fun c => String.eqb (ShipperClient.id c)
                                      (Load.shipperClientId l))
                 (shipperClient db) = Some client
    /\ shipperInvoice (snd (createInvoiceFromLoad now newId loadId lineItems
                              taxRate notes db))
       = (shipperInvoice db ++ [i])%list
    /\ ShipperInvoice.id i = newId
    /\ ShipperInvoice.loadId i = loadId
    /\ ShipperInvoice.status i = INV_DRAFT
    /\ load (snd (createInvoiceFromLoad now newId loadId lineItems taxRate
                    notes db)) = load db
    /\ shipperClient (snd (createInvoiceFromLoad now newId loadId lineItems
                             taxRate notes db)) = shipperClient db.
Proof.
  unfold InvoiceController.createInvoiceFromLoad, openInvoice.
  destruct (LoadController.findLoad loadId db) as [l|]; [|discriminate].
  destruct (LoadStatus_eqb (Load.status l) COMPLETED) eqn:Hst;
    [|discriminate]. simpl negb. cbv iota.
  destruct (findFirst _ (shipperInvoice db)) eqn:Hopen; [discriminate|].
  destruct (findFirst _ (shipperClient db)) as [client|] eqn:Hc;
    [|discriminate].
  intros _. exists l, client. eexists.
  repeat split; try reflexivity; assumption.
Qed.

(** A creation that passes every check. *)
Lemma createInvoiceFromLoad_passes now newId loadId lineItems taxRate notes
    db l client :
  LoadController.findLoad loadId db = Some l ->
  LoadStatus_eqb (Load.status l) COMPLETED = true ->
  openInvoice loadId db = None ->
  findFirst (fun c => String.eqb (ShipperClient.id c)
                                 (Load.shipperClientId l))
            (shipperClient db) = Some client ->
  fst (createInvoiceFromLoad now newId loadId lineItems taxRate notes db)
  = ApiSuccess "Invoice created successfully" 201.
Proof.
  intros Hl Hst Hopen Hc. unfold InvoiceController.createInvoiceFromLoad.
  unfold openInvoice in Hopen. now rewrite Hl, Hst, Hopen, Hc.
Qed.

(** X8.  A load has one invoice at a time until it is cancelled: once
    [createInvoiceFromLoad] has succeeded for a load, every further
    creation for that load is refused with "Invoice already exists for this
    load" and writes nothing.  If the identifier of the new invoice is new
    to the store, [cancelInvoice] on it succeeds whatever the reason given;
    the cancelled invoice can no longer be updated, and the same creation
    request for the load succeeds again. *)
Theorem one_invoice_per_load_until_cancelled :
  forall now newId loadId lineItems taxRate notes db,
    fst (createInvoiceFromLoad now newId loadId lineItems taxRate notes db)
    = ApiSuccess "Invoice created successfully" 201 ->
    findInvoice newId db = None ->
    let invoiced :=
      snd (createInvoiceFromLoad now newId loadId lineItems taxRate notes
             db) in
    (forall now' newId' lineItems' taxRate' notes',
        createInvoiceFromLoad now' newId' loadId lineItems' taxRate' notes'
          invoiced
        = (ApiError "Invoice already exists for this load" 400, invoiced))
    /\ (forall reason,
        let cancelled := snd (cancelInvoice newId reason invoiced) in
        fst (cancelInvoice newId reason invoiced)
        = ApiSuccess "Invoice cancelled" 200
        /\ statusOf newId cancelled = Some INV_CANCELLED
        /\ (forall lineItems' taxRate' notes',
            updateInvoice newId lineItems' taxRate' notes' cancelled
            = (ApiError "Only draft invoices can be updated" 400, cancelled))
        /\ (forall now' newId',
            fst (createInvoiceFromLoad now' newId' loadId lineItems taxRate
                   notes cancelled)
            = ApiSuccess "Invoice created successfully" 201)).
Proof.
  intros now newId loadId lineItems taxRate notes db Hok Hfresh invoiced.
  destruct (createInvoiceFromLoad_accepted _ _ _ _ _ _ _ Hok)
    as (l & client & i & Hl & Hst & Hopen & Hc & Hrows & Hid & Hload & Hstatus
        & Hloads & Hclients).
  fold invoiced in Hrows, Hloads, Hclients.
  assert (Hl' : LoadController.findLoad loadId invoiced = Some l).
  { rewrite <- Hl. apply PodFacts.findLoad_ext. exact Hloads. }
  assert (Hfind : findInvoice newId invoiced = Some i).
  { unfold findInvoice. rewrite Hrows.
    apply PayoutFacts.findFirst_app_hit; [exact Hfresh|].
    rewrite Hid. apply String.eqb_refl. }
  split.
  - intros now' newId' lineItems' taxRate' notes'.
    unfold InvoiceController.createInvoiceFromLoad. rewrite Hl', Hst.
    simpl negb. cbv iota. rewrite Hrows.
    unfold openInvoice in Hopen.
    rewrite (PayoutFacts.findFirst_app_hit _ _ _ i Hopen); [reflexivity|].
    now rewrite Hload, Hstatus, String.eqb_refl.
  - intros reason cancelled.
    assert (Hcancel : cancelInvoice newId reason invoiced
                      = (ApiSuccess "Invoice cancelled" 200,
                         updateInvoiceRow newId
                           (setCancelled
                              (Js.orElse reason (ShipperInvoice.notes i)))
                           invoiced)).
    { unfold cancelInvoice. now rewrite Hfind, Hstatus. }
    subst cancelled. rewrite Hcancel. simpl fst. simpl snd.
    set (n := Js.orElse reason (ShipperInvoice.notes i)).
    assert (Hfound : findInvoice newId
                       (updateInvoiceRow newId (setCancelled n) invoiced)
                     = Some (setCancelled n i)).
    { apply InvoiceFacts.findInvoice_updateInvoiceRow;
        [reflexivity|exact Hfind]. }
    split; [reflexivity|]. split; [|split].
    + unfold statusOf. now rewrite Hfound.
    + intros lineItems' taxRate' notes'. unfold updateInvoice.
      now rewrite Hfound.
    + intros now' newId'.
      apply (createInvoiceFromLoad_passes now' newId' loadId lineItems taxRate
               notes _ l client).
      * rewrite <- Hl'. apply PodFacts.findLoad_ext. reflexivity.
      * exact Hst.
      * unfold openInvoice, updateInvoiceRow. simpl shipperInvoice.
        rewrite Hrows. unfold updateWhere. rewrite map_app. simpl.
        rewrite Hid, String.eqb_refl.
        rewrite PayoutFacts.findFirst_app_miss by apply andb_false_r.
        apply PayoutFacts.findFirst_map_none; [|exact Hopen].
        intros r Hr.
        destruct (String.eqb (ShipperInvoice.id r) newId); [|exact Hr].
        apply andb_false_r.
      * simpl shipperClient. rewrite Hclients. exact Hc.
Qed.

End WithCollaborators.

Lemma one_invoice_per_load_until_cancelled_witness :
  fst (createInvoiceFromLoad Sample.invoiceNumber Sample.addDays 7 "I2" "L1"
         None None None Sample.draftInvoice)
  = ApiError "Invoice already exists for this load" 400
  /\ fst (createInvoiceFromLoad Sample.invoiceNumber Sample.addDays 7 "I2"
            "L1" (Some [Sample.lineItem 1000]) (Some 10%float) None
            (snd (cancelInvoice "I1" (Some "Wrong rate")
                    Sample.draftInvoice)))
     = ApiSuccess "Invoice created successfully" 201.
Proof.
  destruct (one_invoice_per_load_until_cancelled Sample.invoiceNumber
              Sample.addDays 0 "I1" "L1" (Some [Sample.lineItem 1000])
              (Some 10%float) None Sample.completed eq_refl eq_refl)
    as [Hblocked Hcancel].
  split.
  - change Sample.draftInvoice
      with (snd (createInvoiceFromLoad Sample.invoiceNumber Sample.addDays 0
                   "I1" "L1" (Some [Sample.lineItem 1000]) (Some 10%float)
                   None Sample.completed)).
    now rewrite Hblocked.
  - destruct (Hcancel (Some "Wrong rate")) as [_ [_ [_ Hagain]]].
    apply Hagain.
Defined.

End BillingFacts.

(** ** Vehicles, drivers and the assignment history *)

Module GarageFacts.
Import VehicleController Fleet Garage.

Lemma assignVehicle_known now newId id driverId notes db :
  isSuccess (fst (assignVehicle now newId id driverId notes db))
  = known id driverId db.
Proof.
  unfold assignVehicle, known.
  destruct (findFirst _ (vehicle db)); [|reflexivity].
  destruct (findFirst _ (driver db)); reflexivity.
Qed.

Lemma known_assignVehicle now newId v d n id driverId db :
  known id driverId (snd (assignVehicle now newId v d n db))
  = known id driverId db.
Proof.
  unfold assignVehicle.
  destruct (findFirst _ (vehicle db)); [|reflexivity].
  destruct (findFirst _ (driver db)); reflexivity.
Qed.

Lemma updateWhere_untouched (A : Type) (p : A -> bool) (f : A -> A) rows :
  findMany p rows = [] -> updateWhere p f rows = rows.
Proof.
  unfold findMany, updateWhere.
  induction rows as [|r rows IH]; simpl; [reflexivity|].
  destruct (p r); [discriminate|]. intros H. now rewrite IH.
Qed.

Lemma currentAssignments_step db c v :
  v <> vehicleOf c ->
  currentAssignments v (step db c) = currentAssignments v db.
Proof.
  intros Hne. apply String.eqb_neq in Hne.
  destruct c as [now newId id d n|now id]; simpl in *.
  - destruct (isSuccess (fst (assignVehicle now newId id d n db))) eqn:Hok.
    + rewrite VehicleFacts.currentAssignments_assign by exact Hok.
      now rewrite Hne.
    + now rewrite VehicleFacts.assignVehicle_refused by exact Hok.
  - rewrite VehicleFacts.currentAssignments_retireCurrent. now rewrite Hne.
Qed.

(** X9.  The two vehicle endpoints act on one vehicle only: a call leaves
    the current assignments of every other vehicle as they were.  Nothing
    is checked on the driver's side, so a driver assigned to a second
    vehicle stays the current driver of the first; and [unassignVehicle]
    answers with success even when the vehicle has no current assignment
    (or does not exist), leaving the store as it was. *)
Theorem vehicle_calls_touch_one_vehicle :
  (forall db c v,
      v <> vehicleOf c ->
      currentAssignments v (step db c) = currentAssignments v db)
  /\ (forall now1 new1 id1 notes1 now2 new2 id2 notes2 driverId db,
      id1 <> id2 ->
      known id1 driverId db = true ->
      known id2 driverId db = true ->
      let db2 := run [Assign now1 new1 id1 driverId notes1;
                      Assign now2 new2 id2 driverId notes2] db in
      currentAssignments id1 db2
      = [VehicleAssignment.mk new1 id1 driverId notes1 true now1 None]
      /\ currentAssignments id2 db2
         = [VehicleAssignment.mk new2 id2 driverId notes2 true now2 None])
  /\ (forall now id db,
      currentAssignments id db = [] ->
      unassignVehicle now id db
      = (ApiSuccess "Vehicle unassigned successfully" 200, db)).
Proof.
  split; [|split].
  - intros db c v Hne. now apply currentAssignments_step.
  - intros now1 new1 id1 notes1 now2 new2 id2 notes2 driverId db Hne H1 H2 db2.
    subst db2. unfold run. simpl.
    assert (Hok1 : isSuccess (fst (assignVehicle now1 new1 id1 driverId
                                     notes1 db)) = true)
      by now rewrite assignVehicle_known.
    assert (Hok2 : isSuccess
                     (fst (assignVehicle now2 new2 id2 driverId notes2
                             (snd (assignVehicle now1 new1 id1 driverId
                                     notes1 db)))) = true)
      by now rewrite assignVehicle_known, known_assignVehicle.
    rewrite !VehicleFacts.currentAssignments_assign by assumption.
    rewrite !String.eqb_refl.
    apply String.eqb_neq in Hne. now rewrite Hne.
  - intros now id db Hnone. unfold unassignVehicle, retireCurrent.
    rewrite updateWhere_untouched by exact Hnone.
    now destruct db.
Qed.

Lemma vehicle_calls_touch_one_vehicle_witness :
  currentAssignments "V1"
    (run [Assign 10 "VA1" "V1" "D1" None; Assign 20 "VA2" "V2" "D1" None]
         Sample.fleet)
  = [VehicleAssignment.mk "VA1" "V1" "D1" None true 10 None]
  /\ unassignVehicle 30 "V9" Sample.fleet
     = (ApiSuccess "Vehicle unassigned successfully" 200, Sample.fleet).
Proof.
  destruct vehicle_calls_touch_one_vehicle as [_ [Htwo Hnone]].
  assert (Hne : "V1" <> "V2") by discriminate.
  split.
  - destruct (Htwo 10 "VA1" "V1" None 20 "VA2" "V2" None "D1" Sample.fleet
                Hne eq_refl eq_refl) as [Hfirst _].
    exact Hfirst.
  - apply Hnone. reflexivity.
Defined.

(** The table after a call: the old rows, some of the current ones
    retired, and after them the rows the call added. *)
Lemma step_rows db c :
  exists g added,
    vehicleAssignment (step db c)
    = (map g (vehicleAssignment db) ++ added)%list
    /\ forall a,
        g a = a
        \/ (VehicleAssignment.isCurrentlyAssigned a = true
            /\ exists now, g a = VehicleAssignment.retire now a).
Proof.
  assert (Hretire : forall now id a,
             (if currentOf id a then VehicleAssignment.retire now a else a) = a
             \/ (VehicleAssignment.isCurrentlyAssigned a = true
                 /\ exists now',
                     (if currentOf id a then VehicleAssignment.retire now a
                      else a) = VehicleAssignment.retire now' a)).
  { intros now id a. destruct (currentOf id a) eqn:Hc; [right|now left].
    apply andb_true_iff in Hc. destruct Hc as [_ Hc]. eauto. }
  destruct c as [now newId id d n|now id]; simpl.
  - unfold assignVehicle.
    destruct (findFirst _ (vehicle db));
      [destruct (findFirst _ (driver db))|]; simpl.
    + eexists. eexists. split; [reflexivity|]. apply Hretire.
    + exists (fun a => a), []. rewrite map_id, app_nil_r. auto.
    + exists (fun a => a), []. rewrite map_id, app_nil_r. auto.
  - eexists. exists []. rewrite app_nil_r. split; [reflexivity|].
    apply Hretire.
Qed.

(** X10.  The assignment table is a history: whatever calls are made, no
    row is ever deleted, a closed assignment (no longer current) is never
    changed again, and the only change ever made to a row is closing it,
    with [isCurrentlyAssigned] false and the time of the call as
    [unassignedAt]. *)
Theorem assignment_history_is_kept :
  forall calls db a,
    In a (vehicleAssignment db) ->
    (VehicleAssignment.isCurrentlyAssigned a = false ->
     In a (vehicleAssignment (run calls db)))
    /\ (In a (vehicleAssignment (run calls db))
        \/ exists now,
            In (VehicleAssignment.retire now a)
               (vehicleAssignment (run calls db)))
    /\ (List.length (vehicleAssignment db)
        <= List.length (vehicleAssignment (run calls db)))%nat.
Proof.
  unfold run. induction calls as [|c calls IH]; intros db a Hin; simpl.
  - split; [auto|]. split; [auto|lia].
  - destruct (step_rows db c) as (g & added & Hrows & Hg).
    assert (Hstep : In (g a) (vehicleAssignment (step db c))).
    { rewrite Hrows. apply in_or_app. left. now apply in_map. }
    assert (Hlen : (List.length (vehicleAssignment db)
                    <= List.length (vehicleAssignment (step db c)))%nat).
    { rewrite Hrows, length_app, length_map. lia. }
    split; [|split].
    + intros Hclosed. destruct (Hg a) as [Hsame|[Hcur _]]; [|congruence].
      rewrite Hsame in Hstep. now apply (IH (step db c) a Hstep).
    + destruct (Hg a) as [Hsame|[_ [now Hret]]].
      * rewrite Hsame in Hstep. now apply (IH (step db c) a Hstep).
      * rewrite Hret in Hstep. right. exists now.
        now apply (IH (step db c) _ Hstep).
    + destruct (IH (step db c) (g a) Hstep) as [_ [_ Hle]]. lia.
Qed.

Lemma assignment_history_is_kept_witness :
  In (VehicleAssignment.mk "VA1" "V1" "D1" None false 10 (Some 20))
     (vehicleAssignment
        (run [Assign 30 "VA3" "V1" "D1" None; Unassign 40 "V1";
              Unassign 50 "V2"]
           (run [Assign 10 "VA1" "V1" "D1" None; Assign 20 "VA2" "V1" "D2" None]
                Sample.fleet))).
Proof.
  assert (Hin : In (VehicleAssignment.mk "VA1" "V1" "D1" None false 10
                      (Some 20))
                   (vehicleAssignment
                      (run [Assign 10 "VA1" "V1" "D1" None;
                            Assign 20 "VA2" "V1" "D2" None] Sample.fleet)))
    by (simpl; auto).
  destruct (assignment_history_is_kept
              [Assign 30 "VA3" "V1" "D1" None; Unassign 40 "V1";
               Unassign 50 "V2"] _ _ Hin) as [Hkept _].
  apply Hkept. reflexivity.
Defined.

End GarageFacts.

(** ** Counting of failed logins *)

Module GuardFacts.
Import AuthController Lockout Guard.

Section Principals.
Variable Row : Type.
Variable table : DB -> list Row.
Variable withTable : list Row -> DB -> DB.
Variable account : Row -> Account.t.
Variable onAccount : (Account.t -> Account.t) -> Row -> Row.
Variable precheck : Row -> DB -> option Response.
Variable bcryptCompare : string -> string -> bool.

Hypothesis table_withTable : forall rows db, table (withTable rows db) = rows.
Hypothesis account_onAccount :
  forall f r, account (onAccount f r) = f (account r).
Hypothesis precheck_stable :
  forall f r rows db,
    precheck (onAccount f r) (withTable rows db) = precheck r db.

Local Abbreviation lookupRow := (lookupRow table account).
Local Abbreviation accountOf := (Lockout.accountOf table account).
Local Abbreviation eligible := (Lockout.eligible table account precheck).
Local Abbreviation login :=
  (loginWith table withTable account onAccount precheck bcryptCompare).

Lemma failed_account now email password db a :
  accountOf email db = Some a ->
  eligible email db = true ->
  isLocked now a = false ->
  bcryptCompare password (Account.passwordHash a) = false ->
  fst (login now email password db) = invalidCredentials
  /\ accountOf email (snd (login now email password db))
     = Some (updateData now a a).
Proof.
  intros Ha He Hl Hpw.
  destruct (LockoutFacts.failed_check Row table withTable account onAccount
              precheck bcryptCompare table_withTable account_onAccount
              precheck_stable now email password db a
              (LockoutFacts.ready_intro Row table account precheck _ _ _ Ha He)
              Hl Hpw) as [db' [Hrun Hready]].
  rewrite Hrun. split; [reflexivity|].
  apply (LockoutFacts.ready_accountOf Row table account precheck _ _ _ Hready).
Qed.

Theorem loginWith_counting :
  counting table account precheck bcryptCompare login.
Proof.
  split.
  - intros db email a now password Ha He Hl Hn Hpw.
    destruct (failed_account now email password db a Ha He Hl Hpw)
      as [Hr Hacc].
    split; [exact Hr|]. rewrite Hacc.
    now rewrite LockoutFacts.updateData_below by lia.
  - intros db email a now password Ha He Hl Hn Hpw.
    destruct (failed_account now email password db a Ha He Hl Hpw)
      as [Hr Hacc].
    split; [exact Hr|]. rewrite Hacc. unfold updateData.
    destruct (Z.geb_spec (Account.failedLoginAttempts a + 1) 5); [|lia].
    reflexivity.
Qed.

Hypothesis precheck_refuses :
  forall r db refusal, precheck r db = Some refusal ->
                       isSuccess refusal = false.

Theorem loginWith_contained :
  contained table account precheck login.
Proof.
  split.
  - intros db email now password He. unfold loginWith.
    unfold Lockout.eligible in He. fold lookupRow.
    destruct (lookupRow email db) as [r|]; [|split; reflexivity].
    destruct (isLocked now (account r)); [split; reflexivity|].
    destruct (Account.isActive (account r)); [|split; reflexivity].
    simpl in *. destruct (precheck r db) as [refusal|] eqn:Hpre;
      [|discriminate].
    split; [|reflexivity]. exact (precheck_refuses _ _ _ Hpre).
  - intros db email a email' a' now password Ha Ha' Hne.
    unfold Lockout.accountOf in Ha. fold lookupRow in Ha.
    unfold loginWith. fold lookupRow.
    destruct (lookupRow email db) as [r|]; [|exact Ha'].
    simpl in Ha. inversion Ha; subst a. clear Ha.
    destruct (isLocked now (account r)); [exact Ha'|].
    destruct (negb (Account.isActive (account r))); [exact Ha'|].
    destruct (precheck r db); [exact Ha'|].
    assert (Hkeep : forall f,
               (forall x, Account.email (f x) = Account.email x) ->
               accountOf email'
                 (withTable
                    (updateWhere
                       (fun u => hasId (Account.id (account r)) (account u))
                       (onAccount f) (table db)) db) = Some a').
    { intros f Hf. unfold Lockout.accountOf, Lockout.lookupRow in *.
      rewrite table_withTable, findFirst_updateWhere.
      - destruct (findFirst _ (table db)) as [r'|]; [|discriminate].
        simpl in *. inversion Ha'; subst a'. unfold hasId.
        apply String.eqb_neq in Hne. now rewrite Hne.
      - intros x. unfold hasEmail. now rewrite account_onAccount, Hf. }
    destruct (negb (bcryptCompare password (Account.passwordHash (account r))));
      simpl snd; apply Hkeep.
    + intros x. apply LockoutFacts.updateData_email.
    + reflexivity.
Qed.

End Principals.

Lemma counting_ext Row table account precheck bcryptCompare
    (login login' : Login) :
  (forall now email password db,
      login' now email password db = login now email password db) ->
  @counting Row table account precheck bcryptCompare login ->
  @counting Row table account precheck bcryptCompare login'.
Proof.
  intros Heq [H1 H2]. split.
  - intros db email a now password Ha He Hl Hn Hpw. rewrite Heq.
    exact (H1 db email a now password Ha He Hl Hn Hpw).
  - intros db email a now password Ha He Hl Hn Hpw. rewrite Heq.
    exact (H2 db email a now password Ha He Hl Hn Hpw).
Qed.

Lemma contained_ext Row table account precheck (login login' : Login) :
  (forall now email password db,
      login' now email password db = login now email password db) ->
  @contained Row table account precheck login ->
  @contained Row table account precheck login'.
Proof.
  intros Heq [H1 H2]. split.
  - intros db email now password He. rewrite Heq.
    exact (H1 db email now password He).
  - intros db email a email' a' now password Ha Ha' Hne. rewrite Heq.
    exact (H2 db email a email' a' now password Ha Ha' Hne).
Qed.

Lemma shipperClientCheck_refuses u db refusal :
  shipperClientCheck u db = Some refusal -> isSuccess refusal = false.
Proof.
  unfold shipperClientCheck.
  destruct (findFirst _ (shipperClient db)) as [c|].
  - destruct (negb (ShipperClient.isActiveStatus c)); [|discriminate].
    intros H. now inversion H.
  - intros H. now inversion H.
Qed.

(** X11.  On each of the three login endpoints a failed password check
    adds one to the failed-attempt counter; below a counter of four the
    lock column is left as it is, and from four on the account is locked
    for 15 minutes from the failed check.  The counter is not reset when a
    lock elapses, so after a first lockout every single failed check locks
    the account again, until a login succeeds. *)
Theorem failed_logins_keep_counting :
  forall bcryptCompare,
    @counting InternalUser.t internalUser InternalUser.account
       (noCheck (Row := InternalUser.t)) bcryptCompare
       (loginInternalUser bcryptCompare)
    /\ @counting ShipperUser.t shipperUser ShipperUser.account
         shipperClientCheck bcryptCompare (loginShipperUser bcryptCompare)
    /\ @counting Driver.t driver Driver.account (noCheck (Row := Driver.t))
         bcryptCompare (loginDriver bcryptCompare).
Proof.
  intros bcryptCompare. split; [|split].
  - eapply counting_ext; [apply LockoutFacts.loginInternalUser_shared|].
    apply loginWith_counting; reflexivity.
  - eapply counting_ext; [apply LockoutFacts.loginShipperUser_shared|].
    apply loginWith_counting; reflexivity.
  - eapply counting_ext; [apply LockoutFacts.loginDriver_shared|].
    apply loginWith_counting; reflexivity.
Qed.

Lemma failed_logins_keep_counting_witness :
  option_map Account.lockedUntil
    (accountOf driver Driver.account "dana@example.com"
       (snd (loginDriver Sample.bcryptCompare 905000 "dana@example.com"
               "guess"
               (snd (attempts (loginDriver Sample.bcryptCompare)
                       "dana@example.com"
                       [(1000, "a"); (2000, "b"); (3000, "c"); (4000, "d");
                        (5000, "e")] Sample.fleet)))))
  = Some (Some 1805000).
Proof.
  destruct (failed_logins_keep_counting Sample.bcryptCompare)
    as [_ [_ [_ Hlock]]].
  assert (Hfive : 4 <= 5) by lia.
  match goal with
  | |- context [loginDriver _ 905000 _ _ ?locked] =>
      destruct (Hlock locked "dana@example.com"
                  (Account.mk "D1" "dana@example.com" "hash-of-secret" true
                     5 (Some 905000) None)
                  905000 "guess" eq_refl eq_refl eq_refl Hfive eq_refl)
        as [_ Hacc]
  end.
  rewrite Hacc. reflexivity.
Defined.



End GuardFacts.

(** ** Driver availability and the assignment of loads *)

Module DispatchFacts.
Import LoadController DriverAvailability Dispatch.

Lemma driverOf_id id db d : driverOf id db = Some d -> Driver.id d = id.
Proof.
  intros H. apply findFirst_some in H. destruct H as [_ H].
  now apply String.eqb_eq.
Qed.

(** An assignment request for a scheduled load depends on the driver
    only. *)
Lemma assignLoad_scheduled newId user id driverId estimatedPickup
    estimatedDelivery notes db l :
  findLoad id db = Some l ->
  Load.status l = SCHEDULED ->
  assignLoad newId user id driverId estimatedPickup estimatedDelivery notes db
  = match driverOf driverId db with
    | None => (ApiError "Driver not found" 404, db)
    | Some d =>
      if assignable d then
        (ApiSuccess "Load assigned successfully" 200,
         createHistory
           (LoadStatusHistory.mk id SCHEDULED ASSIGNED (userId user)
              (userType user)
              (Some ("Load assigned to driver " ++ Driver.firstName d ++ " "
                       ++ Driver.lastName d)%string))
           (updateLoad id (Load.setStatus ASSIGNED)
              (withLoadAssignment
                 (create (LoadAssignment.mk newId id driverId (userId user)
                            estimatedPickup estimatedDelivery notes None None
                            None)
                         (loadAssignment db)) db)))
      else (ApiError "Driver is not available" 400, db)
    end.
Proof.
  intros Hl Hs. unfold assignLoad, driverOf, assignable. rewrite Hl, Hs.
  simpl. destruct (findFirst _ (driver db)) as [d|]; [|reflexivity].
  rewrite <- negb_andb. now destruct (Driver.isActive d && Driver.isAvailable d).
Qed.

(** X13.  A driver may change no availability but their own (403 and
    nothing written otherwise).  For an existing driver, a change by the
    driver or by any other kind of user succeeds, leaves loads and
    assignments as they are, and from then on decides alone whether a
    scheduled load can be assigned to the driver: the assignment succeeds
    exactly when the driver is active and the flag is true, and is refused
    with "Driver is not available" otherwise. *)
Theorem availability_gates_new_assignments :
  (forall user id isAvailable db,
      userType user = DRIVER ->
      userId user <> id ->
      updateAvailability user id isAvailable db
      = (ApiError "Access denied" 403, db))
  /\ (forall user id b db d,
      driverOf id db = Some d ->
      (userType user = DRIVER -> userId user = id) ->
      let updated := snd (updateAvailability user id (Boolean b) db) in
      fst (updateAvailability user id (Boolean b) db)
      = ApiSuccess "Availability updated" 200
      /\ load updated = load db
      /\ loadAssignment updated = loadAssignment db
      /\ option_map assignable (driverOf id updated)
         = Some (Driver.isActive d && b)
      /\ (forall newId staff loadId estimatedPickup estimatedDelivery notes l,
          findLoad loadId db = Some l ->
          Load.status l = SCHEDULED ->
          fst (assignLoad newId staff loadId id estimatedPickup
                 estimatedDelivery notes updated)
          = if Driver.isActive d && b
            then ApiSuccess "Load assigned successfully" 200
            else ApiError "Driver is not available" 400)).
Proof.
  split.
  - intros user id isAvailable db Ht Hne. unfold updateAvailability.
    apply String.eqb_neq in Hne. now rewrite Ht, Hne.
  - intros user id b db d Hd Hown updated.
    assert (Hrun : updateAvailability user id (Boolean b) db
                   = (ApiSuccess "Availability updated" 200,
                      withDriver
                        (updateWhere (fun x => String.eqb (Driver.id x) id)
                           (setIsAvailable (Boolean b)) (driver db)) db)).
    { unfold updateAvailability. unfold driverOf in Hd. rewrite Hd.
      destruct (userType user) eqn:Ht; simpl; try reflexivity.
      now rewrite (Hown eq_refl), String.eqb_refl. }
    subst updated. rewrite Hrun. simpl fst. simpl snd.
    assert (Hd' : driverOf id
                    (withDriver
                       (updateWhere (fun x => String.eqb (Driver.id x) id)
                          (setIsAvailable (Boolean b)) (driver db)) db)
                  = Some (setIsAvailable (Boolean b) d)).
    { unfold driverOf. simpl driver.
      rewrite findFirst_updateWhere by reflexivity.
      fold (driverOf id db). rewrite Hd. simpl.
      now rewrite (driverOf_id _ _ _ Hd), String.eqb_refl. }
    split; [reflexivity|]. split; [reflexivity|]. split; [reflexivity|].
    split; [now rewrite Hd'|].
    intros newId staff loadId estimatedPickup estimatedDelivery notes l Hl Hs.
    match goal with
    | |- context [assignLoad _ _ _ _ _ _ _ ?s] =>
        rewrite (assignLoad_scheduled newId staff loadId id estimatedPickup
                   estimatedDelivery notes s l Hl Hs)
    end.
    rewrite Hd'. unfold assignable, Driver.isActive. simpl.
    now destruct (Account.isActive (Driver.account d)), b.
Qed.

Lemma availability_gates_new_assignments_witness :
  updateAvailability Sample.driverUser "D2" (Boolean false) Sample.fleet
  = (ApiError "Access denied" 403, Sample.fleet)
  /\ option_map assignable
       (driverOf "D1"
          (snd (updateAvailability Sample.driverUser "D1" (Boolean false)
                  Sample.fleet)))
     = Some false.
Proof.
  destruct availability_gates_new_assignments as [Hdenied Hown].
  assert (Hne : userId Sample.driverUser <> "D2") by discriminate.
  split.
  - apply Hdenied; [reflexivity|exact Hne].
  - destruct (Hown Sample.driverUser "D1" false Sample.fleet
                (Sample.driverRow "D1" "dana@example.com") eq_refl
                (fun _ => eq_refl)) as [_ [_ [_ [Hflag _]]]].
    exact Hflag.
Defined.

(** X14.  Assigning a load leaves the driver table as it was: nothing
    marks the driver as busy.  So when two different scheduled loads are
    assigned to the same active and available driver one after the other,
    both assignments succeed, both loads are [ASSIGNED], and the driver has
    the two new assignments, neither answered yet. *)
Theorem assigned_driver_stays_available :
  forall new1 new2 staff id1 id2 driverId pickup1 delivery1 notes1 pickup2
         delivery2 notes2 db l1 l2 d,
    findLoad id1 db = Some l1 ->
    findLoad id2 db = Some l2 ->
    Load.status l1 = SCHEDULED ->
    Load.status l2 = SCHEDULED ->
    id1 <> id2 ->
    driverOf driverId db = Some d ->
    assignable d = true ->
    let first := assignLoad new1 staff id1 driverId pickup1 delivery1 notes1
                   db in
    let second := assignLoad new2 staff id2 driverId pickup2 delivery2 notes2
                    (snd first) in
    fst first = ApiSuccess "Load assigned successfully" 200
    /\ fst second = ApiSuccess "Load assigned successfully" 200
    /\ driver (snd second) = driver db
    /\ LoadLifecycle.statusOf id1 (snd second) = Some ASSIGNED
    /\ LoadLifecycle.statusOf id2 (snd second) = Some ASSIGNED
    /\ assignmentsOf driverId (snd second)
       = (assignmentsOf driverId db
          ++ [LoadAssignment.mk new1 id1 driverId (userId staff) pickup1
                delivery1 notes1 None None None;
              LoadAssignment.mk new2 id2 driverId (userId staff) pickup2
                delivery2 notes2 None None None])%list.
Proof.
  intros new1 new2 staff id1 id2 driverId pickup1 delivery1 notes1 pickup2
         delivery2 notes2 db l1 l2 d Hl1 Hl2 Hs1 Hs2 Hne Hd Hok first second.
  assert (H1 := assignLoad_scheduled new1 staff id1 driverId pickup1 delivery1
                  notes1 db l1 Hl1 Hs1).
  rewrite Hd, Hok in H1. fold first in H1.
  assert (Hid2 : Load.id l2 = id2) by (eapply LoadFacts.findLoad_id; eauto).
  assert (Hl2' : findLoad id2 (snd first) = Some l2).
  { rewrite H1. unfold findLoad, createHistory, updateLoad. simpl.
    rewrite findFirst_updateWhere by reflexivity.
    fold (findLoad id2 db). rewrite Hl2. simpl. rewrite Hid2.
    apply not_eq_sym in Hne. apply String.eqb_neq in Hne. now rewrite Hne. }
  assert (H2 := assignLoad_scheduled new2 staff id2 driverId pickup2 delivery2
                  notes2 (snd first) l2 Hl2' Hs2).
  fold second in H2.
  assert (Hd' : driverOf driverId (snd first) = Some d)
    by (rewrite H1; exact Hd).
  rewrite Hd', Hok in H2.
  split; [now rewrite H1|]. split; [now rewrite H2|].
  split; [now rewrite H2, H1|]. split; [|split].
  - rewrite H2. unfold LoadLifecycle.statusOf, findLoad, createHistory,
      updateLoad. simpl load.
    rewrite findFirst_updateWhere by reflexivity.
    assert (Hf : findLoad id1 (snd first) = Some (Load.setStatus ASSIGNED l1)).
    { rewrite H1. unfold createHistory.
      change (findLoad id1
                (updateLoad id1 (Load.setStatus ASSIGNED)
                   (withLoadAssignment
                      (create (LoadAssignment.mk new1 id1 driverId
                                 (userId staff) pickup1 delivery1 notes1 None
                                 None None) (loadAssignment db)) db))
              = Some (Load.setStatus ASSIGNED l1)).
      apply LoadFacts.findLoad_updateLoad; [reflexivity|exact Hl1]. }
    unfold findLoad in Hf. rewrite Hf. simpl.
    rewrite (LoadFacts.findLoad_id _ _ _ Hl1).
    apply String.eqb_neq in Hne. now rewrite Hne.
  - rewrite H2. unfold LoadLifecycle.statusOf, createHistory.
    change (option_map Load.status
              (findLoad id2
                 (updateLoad id2 (Load.setStatus ASSIGNED)
                    (withLoadAssignment
                       (create (LoadAssignment.mk new2 id2 driverId
                                  (userId staff) pickup2 delivery2 notes2 None
                                  None None) (loadAssignment (snd first)))
                       (snd first))))
            = Some ASSIGNED).
    erewrite LoadFacts.findLoad_updateLoad; [reflexivity|reflexivity|].
    exact Hl2'.
  - rewrite H2, H1. unfold assignmentsOf, findMany, create. simpl.
    rewrite !filter_app. simpl. rewrite String.eqb_refl.
    now rewrite <- app_assoc.
Qed.

Lemma assigned_driver_stays_available_witness :
  map LoadAssignment.loadId
    (assignmentsOf "D1"
       (snd (assignLoad "A2" Sample.dispatcher "L2" "D1" None None None
               (snd (assignLoad "A1" Sample.dispatcher "L1" "D1" None None
                       None Samples.yard)))))
  = ["L1"; "L2"].
Proof.
  assert (Hne : "L1" <> "L2") by discriminate.
  destruct (assigned_driver_stays_available "A1" "A2" Sample.dispatcher "L1"
              "L2" "D1" None None None None None None Samples.yard
              (Sample.loadIn SCHEDULED) Samples.secondLoad
              (Sample.driverRow "D1" "dana@example.com")
              eq_refl eq_refl eq_refl eq_refl Hne eq_refl eq_refl)
    as [_ [_ [_ [_ [_ Hrows]]]]].
  rewrite Hrows. reflexivity.
Defined.

End DispatchFacts.

(** ** Who may submit a load *)

Module RouteFacts.
Import LoadController AuthMiddleware Routes Ownership.

Lemma differ_false a b : differ a b = false <-> a = b.
Proof.
  destruct a as [x|], b as [y|]; simpl; split; try discriminate; auto.
  - intros H. apply negb_false_iff, String.eqb_eq in H. now subst.
  - intros H. inversion H. now rewrite String.eqb_refl.
Qed.

(** The route by the kind of caller. *)
Lemma submitLoadRoute_cases user id db :
  submitLoadRoute user id db
  = match userType user with
    | SHIPPER_USER =>
      if differ (option_map Load.shipperClientId (findLoad id db))
                (option_map ShipperUser.shipperClientId
                   (findShipperUser (userId user) db))
      then (ApiError "Access denied. You do not own this resource." 403, db)
      else submitLoad user id db
    | _ =>
      (ApiError "Access denied. Required user types: SHIPPER_USER" 403, db)
    end.
Proof.
  unfold submitLoadRoute, authorizeUserTypes, authorizeResourceOwner, guard.
  destruct (userType user); simpl; try reflexivity.
  now destruct (differ _ _).
Qed.

Lemma submitLoadRoute_owner user id db l c :
  clientOf user db = Some c ->
  findLoad id db = Some l ->
  Load.shipperClientId l = c ->
  submitLoadRoute user id db = submitLoad user id db.
Proof.
  intros Hc Hl Hown. rewrite submitLoadRoute_cases. unfold clientOf in Hc.
  destruct (userType user); try discriminate.
  rewrite Hl, Hc. simpl. now rewrite Hown, String.eqb_refl.
Qed.

Lemma submitLoadRoute_stranger user id db c :
  clientOf user db = Some c ->
  option_map Load.shipperClientId (findLoad id db) <> Some c ->
  submitLoadRoute user id db
  = (ApiError "Access denied. You do not own this resource." 403, db).
Proof.
  intros Hc Hne. rewrite submitLoadRoute_cases. unfold clientOf in Hc.
  destruct (userType user); try discriminate. rewrite Hc.
  destruct (differ _ (Some c)) eqn:Hd; [reflexivity|].
  apply differ_false in Hd. congruence.
Qed.

Lemma submitLoad_draft user id db l :
  findLoad id db = Some l ->
  Load.status l = DRAFT ->
  fst (submitLoad user id db) = ApiSuccess "Load submitted for review" 200
  /\ LoadLifecycle.statusOf id (snd (submitLoad user id db))
     = Some PENDING_REVIEW.
Proof.
  intros Hl Hs. unfold submitLoad. rewrite Hl, Hs. simpl.
  split; [reflexivity|].
  unfold LoadLifecycle.statusOf, createHistory.
  change (option_map Load.status
            (findLoad id (updateLoad id (Load.setStatus PENDING_REVIEW) db))
          = Some PENDING_REVIEW).
  erewrite LoadFacts.findLoad_updateLoad; [reflexivity|reflexivity|exact Hl].
Qed.

Lemma submitLoad_not_draft user id db l :
  findLoad id db = Some l ->
  Load.status l <> DRAFT ->
  submitLoad user id db
  = (ApiError "Load can only be submitted from DRAFT status" 400, db).
Proof.
  intros Hl Hs. unfold submitLoad. rewrite Hl.
  destruct (Load.status l); try reflexivity. congruence.
Qed.

Lemma LoadStatus_eqb_eq a b : LoadStatus_eqb a b = true <-> a = b.
Proof. split; [destruct a, b; simpl; congruence|intros ->; now destruct b]. Qed.

Lemma ownsDraft_spec user id db :
  ownsDraft user id db = true
  <-> exists l c,
      findLoad id db = Some l /\ clientOf user db = Some c
      /\ Load.status l = DRAFT /\ Load.shipperClientId l = c.
Proof.
  unfold ownsDraft. split.
  - destruct (findLoad id db) as [l|]; [|discriminate].
    destruct (clientOf user db) as [c|]; [|discriminate].
    intros H. apply andb_true_iff in H. destruct H as [Hs Hc].
    exists l, c. repeat split; [now apply LoadStatus_eqb_eq|].
    now apply String.eqb_eq.
  - intros (l & c & -> & -> & Hs & Hc). apply andb_true_iff.
    split; [now apply LoadStatus_eqb_eq|now apply String.eqb_eq].
Qed.

Lemma submitLoadRoute_refused user id db :
  ownsDraft user id db = false ->
  isSuccess (fst (submitLoadRoute user id db)) = false
  /\ snd (submitLoadRoute user id db) = db.
Proof.
  intros Hno. rewrite submitLoadRoute_cases.
  destruct (userType user) eqn:Ht; try (split; reflexivity).
  destruct (differ _ _) eqn:Hd; [split; reflexivity|].
  apply differ_false in Hd. unfold submitLoad.
  destruct (findLoad id db) as [l|] eqn:Hl; [|split; reflexivity].
  destruct (LoadStatus_eqb (Load.status l) DRAFT) eqn:Hs;
    [|split; reflexivity].
  exfalso. unfold ownsDraft, clientOf in Hno. rewrite Hl, Ht in Hno.
  simpl in Hd. rewrite <- Hd in Hno. simpl in Hno.
  now rewrite Hs, String.eqb_refl in Hno.
Qed.

(** X15.  The route [POST /loads/:id/submit] lets a load be submitted by
    its owner only: the request succeeds exactly when the caller is a
    shipper user with a row in the store and the load is a draft of that
    user's client; it then leaves the load in [PENDING_REVIEW].  Every
    other request is refused and writes nothing: a user of another kind
    with 403, a shipper user of another client (or asking for a load that
    does not exist) with 403, and the owner of a load that is no draft
    with 400. *)
Theorem submit_route_is_owner_only :
  forall user id db,
    let result := submitLoadRoute user id db in
    isSuccess (fst result) = ownsDraft user id db
    /\ (ownsDraft user id db = true ->
        fst result = ApiSuccess "Load submitted for review" 200
        /\ LoadLifecycle.statusOf id (snd result) = Some PENDING_REVIEW)
    /\ (ownsDraft user id db = false -> snd result = db)
    /\ (userType user <> SHIPPER_USER ->
        fst result
        = ApiError "Access denied. Required user types: SHIPPER_USER" 403)
    /\ (forall c l,
        clientOf user db = Some c ->
        findLoad id db = Some l ->
        (Load.shipperClientId l <> c ->
         fst result
         = ApiError "Access denied. You do not own this resource." 403)
        /\ (Load.shipperClientId l = c ->
            Load.status l <> DRAFT ->
            fst result
            = ApiError "Load can only be submitted from DRAFT status" 400))
    /\ (forall c,
        clientOf user db = Some c ->
        findLoad id db = None ->
        fst result
        = ApiError "Access denied. You do not own this resource." 403).
Proof.
  intros user id db result. subst result.
  assert (Hyes : ownsDraft user id db = true ->
                 fst (submitLoadRoute user id db)
                 = ApiSuccess "Load submitted for review" 200
                 /\ LoadLifecycle.statusOf id (snd (submitLoadRoute user id db))
                    = Some PENDING_REVIEW).
  { intros Hown. apply ownsDraft_spec in Hown.
    destruct Hown as (l & c & Hl & Hc & Hs & Hown).
    rewrite (submitLoadRoute_owner user id db l c Hc Hl Hown).
    now apply (submitLoad_draft user id db l). }
  split; [|split; [exact Hyes|split; [|split; [|split]]]].
  - destruct (ownsDraft user id db) eqn:Hown.
    + destruct (Hyes eq_refl) as [Hr _]. now rewrite Hr.
    + now apply submitLoadRoute_refused.
  - intros Hno. now apply submitLoadRoute_refused.
  - intros Ht. rewrite submitLoadRoute_cases.
    destruct (userType user); try reflexivity. congruence.
  - intros c l Hc Hl. split.
    + intros Hne. rewrite (submitLoadRoute_stranger user id db c Hc);
        [reflexivity|]. rewrite Hl. simpl. congruence.
    + intros Hown Hs.
      rewrite (submitLoadRoute_owner user id db l c Hc Hl Hown).
      now rewrite (submitLoad_not_draft user id db l Hl Hs).
  - intros c Hc Hl. rewrite (submitLoadRoute_stranger user id db c Hc);
      [reflexivity|]. rewrite Hl. discriminate.
Qed.

Lemma submit_route_is_owner_only_witness :
  fst (submitLoadRoute (mkUser "S1" SHIPPER_USER) "L1" Samples.drafts)
  = ApiSuccess "Load submitted for review" 200
  /\ submitLoadRoute (mkUser "S2" SHIPPER_USER) "L1" Samples.drafts
     = (ApiError "Access denied. You do not own this resource." 403,
        Samples.drafts).
Proof.
  split.
  - destruct (submit_route_is_owner_only (mkUser "S1" SHIPPER_USER) "L1"
                Samples.drafts) as [_ [Hyes _]].
    destruct (Hyes eq_refl) as [Hr _]. exact Hr.
  - destruct (submit_route_is_owner_only (mkUser "S2" SHIPPER_USER) "L1"
                Samples.drafts) as [_ [_ [Hkeep [_ [Hother _]]]]].
    assert (Hne : Load.shipperClientId (Sample.loadIn DRAFT) <> "SC2")
      by discriminate.
    destruct (Hother "SC2" (Sample.loadIn DRAFT) eq_refl eq_refl)
      as [Hdenied _].
    rewrite (surjective_pairing (submitLoadRoute _ _ _)).
    now rewrite (Hdenied Hne), (Hkeep eq_refl).
Defined.

End RouteFacts.

(** ** Review and payment of settlements *)

Module ReviewFacts.
Import SettlementDisputes SettlementReview Review.

(** The status of a settlement after an update by identifier. *)
Lemma statusOf_update id id' f db s :
  (forall x, DriverSettlement.id (f x) = DriverSettlement.id x) ->
  option_map DriverSettlement.status (findSettlement id db) = Some s ->
  option_map DriverSettlement.status
    (findSettlement id (updateSettlement id' f db))
  = if String.eqb id id'
    then option_map (fun x => DriverSettlement.status (f x))
           (findSettlement id db)
    else Some s.
Proof.
  intros Hf Hs. unfold findSettlement, updateSettlement in *. simpl.
  rewrite findFirst_updateWhere by (intros x; now rewrite Hf).
  destruct (findFirst _ (driverSettlement db)) as [x|] eqn:Hx;
    [|discriminate]. simpl in *.
  apply findFirst_some in Hx. destruct Hx as [_ Hx].
  apply String.eqb_eq in Hx. rewrite Hx.
  destruct (String.eqb id id'); [reflexivity|exact Hs].
Qed.

Section Columns.
Variable A : Type.
Variable key : A -> string.
Variable blank : string -> A.
Hypothesis key_blank : forall id, key (blank id) = id.

(** The columns of a row after a write on the columns of a row. *)
Lemma columnsOf_writeColumns id id' f rows :
  (forall r, key (f r) = key r) ->
  columnsOf key blank id (writeColumns key blank id' f rows)
  = if String.eqb id id'
    then f (columnsOf key blank id' rows)
    else columnsOf key blank id rows.
Proof.
  intros Hf. unfold columnsOf, writeColumns.
  destruct (findFirst (fun r => String.eqb (key r) id') rows) as [r'|] eqn:H'.
  - rewrite findFirst_updateWhere by (intros r; now rewrite Hf).
    destruct (String.eqb id id') eqn:Hid.
    + apply String.eqb_eq in Hid. subst id'. rewrite H'. simpl.
      apply findFirst_some in H'. destruct H' as [_ H']. now rewrite H'.
    + destruct (findFirst (fun r => String.eqb (key r) id) rows) as [r|] eqn:H;
        [|reflexivity]. simpl.
      apply findFirst_some in H. destruct H as [_ H].
      apply String.eqb_eq in H. now rewrite H, Hid.
  - unfold create. destruct (String.eqb id id') eqn:Hid.
    + apply String.eqb_eq in Hid. subst id'.
      rewrite (PayoutFacts.findFirst_app_hit _ _ _ _ H'); [reflexivity|].
      now rewrite Hf, key_blank, String.eqb_refl.
    + rewrite PayoutFacts.findFirst_app_miss; [reflexivity|].
      rewrite Hf, key_blank. now rewrite String.eqb_sym.
Qed.

End Columns.

Lemma later_trans a b c :
  later a b = true -> later b c = true -> later a c = true.
Proof. destruct a, b, c; simpl; congruence. Qed.

Lemma later_refl a : later a a = true.
Proof. now destruct a. Qed.

Section WithText.
Variable trim : string -> string.
Variable toISOString : Z -> string.

Local Abbreviation call := (call trim toISOString).
Local Abbreviation run := (run trim toISOString).

(** What one call does to the settlements and their payment columns:
    nothing, or it moves the settlements of one identifier, not paid yet,
    to a later status and records what that status needs. *)
Lemma call_effect c b :
  (driverSettlement (store (snd (call c b))) = driverSettlement (store b)
   /\ settlementPayment (snd (call c b)) = settlementPayment b)
  \/ exists id f s0 s1,
      driverSettlement (store (snd (call c b)))
      = updateWhere (fun x => String.eqb (DriverSettlement.id x) id) f
          (driverSettlement (store b))
      /\ (forall x, DriverSettlement.id (f x) = DriverSettlement.id x)
      /\ (forall x, DriverSettlement.status (f x) = s1)
      /\ statusOf id b = Some s0
      /\ later s0 s1 = true
      /\ s0 <> SET_PAID
      /\ (forall id', String.eqb id' id = false ->
                      paymentOf id' (snd (call c b)) = paymentOf id' b)
      /\ (recorded s0 (paymentOf id b) = true ->
          recorded s1 (paymentOf id (snd (call c b))) = true).
Proof.
  destruct c as [now user id|now id pm pr paidAt|now user id reason]; simpl.
  - unfold approveSettlement.
    destruct (findSettlement id (store b)) as [s|] eqn:Hs; [|now left].
    destruct (DriverSettlement.status s) eqn:Hst; try (now left).
    right. exists id, (setStatus SET_APPROVED), SET_PENDING, SET_APPROVED.
    unfold statusOf, paymentOf. rewrite Hs. simpl. rewrite Hst.
    split; [reflexivity|]. split; [reflexivity|]. split; [reflexivity|].
    split; [reflexivity|]. split; [reflexivity|]. split; [discriminate|].
    split.
    + intros id' Hne.
      rewrite columnsOf_writeColumns by reflexivity. now rewrite Hne.
    + intros _. rewrite columnsOf_writeColumns by reflexivity.
      now rewrite String.eqb_refl.
  - unfold markAsPaid.
    destruct (Js.orElse pm None) as [method|]; [|now left].
    destruct (findSettlement id (store b)) as [s|] eqn:Hs; [|now left].
    destruct (DriverSettlement.status s) eqn:Hst; try (now left).
    assert (Hpaid : forall at_,
               recorded SET_APPROVED
                 (columnsOf SettlementPayment.settlementId
                    SettlementPayment.blank id (settlementPayment b)) = true ->
               recorded SET_PAID
                 (SettlementPayment.pay at_ method pr
                    (columnsOf SettlementPayment.settlementId
                       SettlementPayment.blank id (settlementPayment b)))
               = true).
    { intros at_ H. simpl in *. now rewrite H. }
    destruct paidAt; try (now left);
      right; exists id, (setStatus SET_PAID), SET_APPROVED, SET_PAID;
      unfold statusOf, paymentOf; rewrite Hs; simpl; rewrite Hst;
      (split; [reflexivity|]); (split; [reflexivity|]);
      (split; [reflexivity|]); (split; [reflexivity|]);
      (split; [reflexivity|]); (split; [discriminate|]); split;
      try (intros id' Hne; rewrite columnsOf_writeColumns by reflexivity;
           now rewrite Hne);
      intros H; rewrite columnsOf_writeColumns by reflexivity;
      rewrite String.eqb_refl; now apply Hpaid.
  - unfold onStore, disputeSettlement.
    destruct (Js.orElse reason None) as [r|]; [|now left].
    destruct (String.length (trim r) =? 0)%nat; [now left|].
    destruct (findSettlement id (store b)) as [s|] eqn:Hs; [|now left].
    destruct (negb (UserType_eqb (userType user) DRIVER)
              || negb (String.eqb (DriverSettlement.driverId s) (userId user)));
      [now left|].
    destruct (DriverSettlement.status s) eqn:Hst; try (now left);
      right;
      [eexists id, _, SET_PENDING, SET_DISPUTED
      |eexists id, _, SET_APPROVED, SET_DISPUTED
      |eexists id, _, SET_DISPUTED, SET_DISPUTED];
      unfold statusOf, paymentOf; rewrite Hs; simpl; rewrite Hst;
      (split; [reflexivity|]); repeat split; try reflexivity; discriminate.
Qed.

(** The status of a settlement after one call. *)
Lemma call_status c b id s :
  statusOf id b = Some s ->
  exists s',
    statusOf id (snd (call c b)) = Some s'
    /\ later s s' = true
    /\ (s = SET_PAID -> s' = SET_PAID).
Proof.
  intros Hs.
  destruct (call_effect c b) as [[Hrows _]|(id0 & f & s0 & s1 & Hrows & Hid
                                            & Hst & Hs0 & Hlater & Hnp & _)].
  - exists s. unfold statusOf, findSettlement in *. rewrite Hrows.
    split; [exact Hs|]. split; [apply later_refl|auto].
  - unfold statusOf in *.
    assert (Hnew := statusOf_update id id0 f (store b) s Hid Hs).
    unfold findSettlement, updateSettlement in *. simpl in Hnew.
    rewrite Hrows, Hnew.
    destruct (String.eqb id id0) eqn:Heq.
    + apply String.eqb_eq in Heq. subst id0.
      rewrite Hs in Hs0. inversion Hs0; subst s0.
      destruct (findFirst _ (driverSettlement (store b))) as [x|];
        [|discriminate]. simpl. rewrite Hst.
      exists s1. split; [reflexivity|]. split; [exact Hlater|congruence].
    + exists s. split; [reflexivity|]. split; [apply later_refl|auto].
Qed.

(** X16.  Over any sequence of approve, mark-as-paid and dispute calls,
    on whatever settlements, the status of a settlement only moves
    forward: from [PENDING] to [APPROVED], from [APPROVED] to [PAID], and
    from [PENDING] or [APPROVED] to [DISPUTED].  A paid settlement stays
    paid and a disputed one stays disputed whatever is called, so a
    disputed settlement is never approved or paid. *)
Theorem settlement_status_only_moves_forward :
  forall calls b id s,
    statusOf id b = Some s ->
    exists s',
      statusOf id (run calls b) = Some s'
      /\ later s s' = true
      /\ (s = SET_PAID \/ s = SET_DISPUTED -> s' = s).
Proof.
  unfold Review.run.
  induction calls as [|c calls IH]; intros b id s Hs; simpl.
  - exists s. split; [exact Hs|]. split; [apply later_refl|auto].
  - destruct (call_status c b id s Hs) as (s1 & Hs1 & Hl1 & _).
    destruct (IH (snd (call c b)) id s1 Hs1) as (s' & Hs' & Hl' & _).
    exists s'. split; [exact Hs'|].
    assert (Hl : later s s' = true) by (eapply later_trans; eauto).
    split; [exact Hl|].
    intros [->| ->]; destruct s'; simpl in Hl; congruence.
Qed.

Lemma call_audited c b : audited b -> audited (snd (call c b)).
Proof.
  intros Hb id s Hs.
  destruct (call_effect c b) as [[Hrows Hpay]|(id0 & f & s0 & s1 & Hrows & Hid
                                     & Hst & Hs0 & _ & _ & Hother & Hrec)].
  - unfold statusOf, findSettlement, paymentOf in *.
    rewrite Hrows in Hs. rewrite Hpay. now apply Hb.
  - unfold statusOf, findSettlement in Hs. rewrite Hrows in Hs.
    rewrite findFirst_updateWhere in Hs by (intros x; now rewrite Hid).
    destruct (findFirst (fun x => String.eqb (DriverSettlement.id x) id)
                (driverSettlement (store b))) as [x|] eqn:Hx;
      [|discriminate]. simpl in Hs.
    assert (Hx' : statusOf id b = Some (DriverSettlement.status x)).
    { unfold statusOf, findSettlement. now rewrite Hx. }
    apply findFirst_some in Hx. destruct Hx as [_ Hxid].
    destruct (String.eqb (DriverSettlement.id x) id0) eqn:Heq.
    + apply String.eqb_eq in Hxid. apply String.eqb_eq in Heq.
      assert (Hsame : id0 = id) by congruence.
      rewrite Hsame in *. clear Hsame.
      rewrite Hst in Hs. inversion Hs; subst s.
      apply Hrec. apply Hb. exact Hs0.
    + apply String.eqb_eq in Hxid. rewrite Hxid in Heq.
      rewrite (Hother id Heq). apply Hb. rewrite Hx'. exact Hs.
Qed.

(** X17.  The payment columns keep up with the status: if every
    settlement that is approved or paid has its approver and time of
    approval recorded, and every paid one its time and method of payment,
    then this still holds after any sequence of approve, mark-as-paid and
    dispute calls.  It holds in particular for books opened on a store in
    which no settlement is approved or paid yet. *)
Theorem settlement_payments_are_recorded :
  (forall calls b, audited b -> audited (run calls b))
  /\ (forall db,
      Forall (fun s => DriverSettlement.status s = SET_PENDING
                       \/ DriverSettlement.status s = SET_DISPUTED)
             (driverSettlement db) ->
      audited (openBooks db)).
Proof.
  split.
  - unfold Review.run.
    induction calls as [|c calls IH]; intros b Hb; simpl; [exact Hb|].
    apply IH, call_audited, Hb.
  - intros db Hall id s Hs. unfold statusOf, findSettlement in Hs. simpl in Hs.
    destruct (findFirst _ (driverSettlement db)) as [x|] eqn:Hx;
      [|discriminate].
    apply findFirst_some in Hx. destruct Hx as [Hin _].
    rewrite Forall_forall in Hall. simpl in Hs. inversion Hs; subst s.
    destruct (Hall x Hin) as [-> | ->]; reflexivity.
Qed.

End WithText.

Lemma settlement_status_only_moves_forward_witness :
  statusOf "S1"
    (run Samples.trim Samples.toISOString
       [Dispute 40 Sample.driverUser "S1" (Some "Late");
        Approve 50 Sample.dispatcher "S1"]
       (run Samples.trim Samples.toISOString
          [Approve 20 Sample.dispatcher "S1";
           MarkAsPaid 30 "S1" (Some "ACH") None NoDate]
          Samples.settled))
  = Some SET_PAID.
Proof.
  assert (Hfrom : statusOf "S1"
                    (run Samples.trim Samples.toISOString
                       [Approve 20 Sample.dispatcher "S1";
                        MarkAsPaid 30 "S1" (Some "ACH") None NoDate]
                       Samples.settled) = Some SET_PAID)
    by (vm_compute; reflexivity).
  destruct (settlement_status_only_moves_forward Samples.trim
              Samples.toISOString
              [Dispute 40 Sample.driverUser "S1" (Some "Late");
               Approve 50 Sample.dispatcher "S1"]
              (run Samples.trim Samples.toISOString
                 [Approve 20 Sample.dispatcher "S1";
                  MarkAsPaid 30 "S1" (Some "ACH") None NoDate]
                 Samples.settled)
              "S1" SET_PAID Hfrom)
    as (s' & Hs' & _ & Hfinal).
  rewrite (Hfinal (or_introl eq_refl)) in Hs'. exact Hs'.
Defined.

Lemma settlement_payments_are_recorded_witness :
  audited
    (run Samples.trim Samples.toISOString
       [Approve 20 Sample.dispatcher "S1";
        MarkAsPaid 30 "S1" (Some "ACH") (Some "TX-7") (ValidDate 25)]
       Samples.settled).
Proof.
  destruct (settlement_payments_are_recorded Samples.trim Samples.toISOString)
    as [Hrun Hopen].
  apply Hrun. unfold Samples.settled. apply Hopen.
  vm_compute. repeat constructor.
Defined.

End ReviewFacts.

(** ** Issue, payment and cancellation of invoices *)

Module CollectionFacts.
Import InvoiceController InvoiceCancellation InvoiceCollection Collection.

Lemma later_invoice_trans a b c :
  later a b = true -> later b c = true -> later a c = true.
Proof. destruct a, b, c; simpl; congruence. Qed.

Lemma later_invoice_refl a : later a a = true.
Proof. now destruct a. Qed.

(** What one call does to the invoice table: nothing, or an update of the
    rows of one identifier that takes the status the invoice has to a
    later one. *)
Lemma call_rows c b :
  shipperInvoice (store (snd (call c b))) = shipperInvoice (store b)
  \/ exists id f s0 s1,
      shipperInvoice (store (snd (call c b)))
      = updateWhere (fun x => String.eqb (ShipperInvoice.id x) id) f
          (shipperInvoice (store b))
      /\ (forall x, ShipperInvoice.id (f x) = ShipperInvoice.id x)
      /\ (forall x, ShipperInvoice.status x = s0 ->
                    ShipperInvoice.status (f x) = s1)
      /\ statusOf id b = Some s0
      /\ later s0 s1 = true.
Proof.
  destruct c as [id items taxRate notes|now id|now id pm pr paidAt|id reason];
    simpl.
  - unfold onStore, updateInvoice.
    destruct (findInvoice id (store b)) as [i|] eqn:Hi; [|now left].
    destruct (ShipperInvoice.status i) eqn:Hst; try (now left).
    destruct items as [items|]; [|destruct notes as [n|]; [|now left]];
      right; eexists id, _, INV_DRAFT, INV_DRAFT;
      unfold statusOf; rewrite Hi; simpl; rewrite Hst;
      (split; [reflexivity|]); repeat split; try reflexivity;
      intros x Hx; exact Hx.
  - unfold issueInvoice.
    destruct (findInvoice id (store b)) as [i|] eqn:Hi; [|now left].
    destruct (ShipperInvoice.status i) eqn:Hst; try (now left).
    right. exists id, (setStatus INV_SENT), INV_DRAFT, INV_SENT.
    unfold statusOf. rewrite Hi. simpl. rewrite Hst.
    split.
    + unfold notifyInvoiceIssued. simpl.
      now destruct (List.length _ =? 0)%nat.
    + repeat split; reflexivity.
  - unfold markAsPaid.
    destruct (findInvoice id (store b)) as [i|] eqn:Hi; [|now left].
    destruct (ShipperInvoice.status i) eqn:Hst; try (now left);
      (destruct paidAt; try (now left));
      right;
      [exists id, (setStatus INV_PAID), INV_DRAFT, INV_PAID
      |exists id, (setStatus INV_PAID), INV_DRAFT, INV_PAID
      |exists id, (setStatus INV_PAID), INV_SENT, INV_PAID
      |exists id, (setStatus INV_PAID), INV_SENT, INV_PAID
      |exists id, (setStatus INV_PAID), INV_OVERDUE, INV_PAID
      |exists id, (setStatus INV_PAID), INV_OVERDUE, INV_PAID];
      unfold statusOf; rewrite Hi; simpl; rewrite Hst;
      (split; [now destruct (findFirst _ (shipperClient (store b)))|]);
      repeat split; reflexivity.
  - unfold onStore, cancelInvoice.
    destruct (findInvoice id (store b)) as [i|] eqn:Hi; [|now left].
    destruct (ShipperInvoice.status i) eqn:Hst; try (now left);
      right;
      [eexists id, _, INV_DRAFT, INV_CANCELLED
      |eexists id, _, INV_SENT, INV_CANCELLED
      |eexists id, _, INV_CANCELLED, INV_CANCELLED
      |eexists id, _, INV_OVERDUE, INV_CANCELLED];
      unfold statusOf; rewrite Hi; simpl; rewrite Hst;
      (split; [reflexivity|]); repeat split; reflexivity.
Qed.

(** The status of an invoice after one call. *)
Lemma call_invoice_status c b id s :
  statusOf id b = Some s ->
  exists s', statusOf id (snd (call c b)) = Some s' /\ later s s' = true.
Proof.
  intros Hs.
  destruct (call_rows c b) as [Hrows|(id0 & f & s0 & s1 & Hrows & Hid & Hst
                                      & Hs0 & Hlater)].
  - exists s. unfold statusOf, findInvoice in *. rewrite Hrows.
    split; [exact Hs|apply later_invoice_refl].
  - unfold statusOf, findInvoice in *. rewrite Hrows.
    rewrite findFirst_updateWhere by (intros x; now rewrite Hid).
    destruct (findFirst (fun x => String.eqb (ShipperInvoice.id x) id)
                (shipperInvoice (store b))) as [x|] eqn:Hx; [|discriminate].
    simpl in Hs. inversion Hs; subst s. simpl.
    pose proof (findFirst_some _ _ _ _ Hx) as [_ Hxid].
    apply String.eqb_eq in Hxid.
    destruct (String.eqb (ShipperInvoice.id x) id0) eqn:Heq.
    + apply String.eqb_eq in Heq.
      assert (Hsame : id0 = id) by congruence. rewrite Hsame in Hs0.
      rewrite Hx in Hs0. simpl in Hs0. inversion Hs0; subst s0.
      exists s1. split; [|exact Hlater]. f_equal. now apply Hst.
    + exists (ShipperInvoice.status x). split; [reflexivity|apply later_invoice_refl].
Qed.

(** X18.  Over any sequence of update, issue, mark-as-paid and cancel
    calls, on whatever invoices, the status of an invoice only moves
    forward: a draft can be issued ([SENT]), paid or cancelled, an issued
    or overdue invoice can be paid or cancelled, and no call leads back.
    A paid invoice stays paid (it cannot be cancelled) and a cancelled one
    stays cancelled (it cannot be issued or paid), whatever is called. *)
Theorem invoice_status_only_moves_forward :
  forall calls b id s,
    statusOf id b = Some s ->
    exists s',
      statusOf id (run calls b) = Some s'
      /\ later s s' = true
      /\ (s = INV_PAID \/ s = INV_CANCELLED -> s' = s).
Proof.
  unfold run. induction calls as [|c calls IH]; intros b id s Hs; simpl.
  - exists s. split; [exact Hs|]. split; [apply later_invoice_refl|auto].
  - destruct (call_invoice_status c b id s Hs) as (s1 & Hs1 & Hl1).
    destruct (IH (snd (call c b)) id s1 Hs1) as (s' & Hs' & Hl' & _).
    exists s'. split; [exact Hs'|].
    assert (Hl : later s s' = true) by (eapply later_invoice_trans; eauto).
    split; [exact Hl|].
    intros [->| ->]; destruct s'; simpl in Hl; congruence.
Qed.

Lemma invoice_status_only_moves_forward_witness :
  statusOf "I1"
    (run [Cancel "I1" (Some "Paid twice"); Issue 40 "I1"]
       (run [MarkAsPaid 30 "I1" (Some "WIRE") None NoDate]
          (openBooks Sample.draftInvoice)))
  = Some INV_PAID.
Proof.
  assert (Hfrom : statusOf "I1"
                    (run [MarkAsPaid 30 "I1" (Some "WIRE") None NoDate]
                       (openBooks Sample.draftInvoice)) = Some INV_PAID)
    by (vm_compute; reflexivity).
  destruct (invoice_status_only_moves_forward
              [Cancel "I1" (Some "Paid twice"); Issue 40 "I1"]
              (run [MarkAsPaid 30 "I1" (Some "WIRE") None NoDate]
                 (openBooks Sample.draftInvoice))
              "I1" INV_PAID Hfrom)
    as (s' & Hs' & _ & Hfinal).
  rewrite (Hfinal (or_introl eq_refl)) in Hs'. exact Hs'.
Defined.

(** A mark-as-paid that succeeds leaves the invoice paid. *)
Lemma markAsPaid_paid now id pm pr paidAt b :
  isSuccess (fst (markAsPaid now id pm pr paidAt b)) = true ->
  statusOf id (snd (markAsPaid now id pm pr paidAt b)) = Some INV_PAID.
Proof.
  unfold markAsPaid, statusOf.
  destruct (findInvoice id (store b)) as [i|] eqn:Hi; [|discriminate].
  assert (Hpaid : findInvoice id (updateInvoiceRow id (setStatus INV_PAID)
                                    (store b))
                  = Some (setStatus INV_PAID i)).
  { apply InvoiceFacts.findInvoice_updateInvoiceRow; [reflexivity|exact Hi]. }
  destruct (ShipperInvoice.status i) eqn:Hst; try discriminate;
    destruct paidAt; try discriminate; simpl;
    destruct (findFirst _ (shipperClient (store b))); try discriminate;
    intros _;
    change (option_map ShipperInvoice.status
              (findInvoice id
                 (updateInvoiceRow id (setStatus INV_PAID) (store b)))
            = Some INV_PAID);
    now rewrite Hpaid.
Qed.

(** A paid or cancelled invoice is not paid again. *)
Lemma markAsPaid_closed now id pm pr paidAt b s :
  statusOf id b = Some s ->
  s = INV_PAID \/ s = INV_CANCELLED ->
  isSuccess (fst (markAsPaid now id pm pr paidAt b)) = false.
Proof.
  unfold markAsPaid, statusOf.
  destruct (findInvoice id (store b)) as [i|]; [|reflexivity].
  simpl. intros Hs Hc. inversion Hs; subst s.
  destruct Hc as [-> | ->]; reflexivity.
Qed.

Lemma payments_closed calls :
  forall b id s,
    statusOf id b = Some s ->
    s = INV_PAID \/ s = INV_CANCELLED ->
    payments id calls b = 0%nat.
Proof.
  induction calls as [|c calls IH]; intros b id s Hs Hc; simpl;
    [reflexivity|].
  destruct (call_invoice_status c b id s Hs) as (s1 & Hs1 & Hl1).
  assert (Hc1 : s1 = INV_PAID \/ s1 = INV_CANCELLED).
  { destruct Hc as [-> | ->]; destruct s1; simpl in Hl1; try discriminate;
      auto. }
  rewrite (IH _ _ _ Hs1 Hc1).
  destruct c as [i l t n|now i|now i pm pr paidAt|i r]; simpl; try reflexivity.
  destruct (String.eqb i id) eqn:Heq; [|reflexivity].
  apply String.eqb_eq in Heq. subst i.
  now rewrite (markAsPaid_closed now id pm pr paidAt b s Hs Hc).
Qed.

(** The balance columns after a mark-as-paid that succeeds. *)
Lemma markAsPaid_balance now id pm pr paidAt b invoice :
  findInvoice id (store b) = Some invoice ->
  isSuccess (fst (markAsPaid now id pm pr paidAt b)) = true ->
  clientBalance (snd (markAsPaid now id pm pr paidAt b))
  = writeColumns ClientBalance.clientId ClientBalance.blank
      (ShipperInvoice.shipperClientId invoice)
      (ClientBalance.decrement (Js.parseFloat (ShipperInvoice.total invoice)))
      (clientBalance b).
Proof.
  intros Hfind. unfold markAsPaid. rewrite Hfind.
  destruct (ShipperInvoice.status invoice); try discriminate;
    destruct paidAt; try discriminate; simpl;
    destruct (findFirst _ (shipperClient (store b))); try discriminate;
    reflexivity.
Qed.

(** The balance columns after one call. *)
Lemma call_balance c b :
  clientBalance (snd (call c b)) = clientBalance b
  \/ exists now id pm pr paidAt invoice,
      c = MarkAsPaid now id pm pr paidAt
      /\ findInvoice id (store b) = Some invoice
      /\ fst (call c b) = ApiSuccess "Invoice marked as paid" 200
      /\ clientBalance (snd (call c b))
         = writeColumns ClientBalance.clientId ClientBalance.blank
             (ShipperInvoice.shipperClientId invoice)
             (ClientBalance.decrement
                (Js.parseFloat (ShipperInvoice.total invoice)))
             (clientBalance b).
Proof.
  destruct c as [i l t n|now i|now i pm pr paidAt|i r]; simpl.
  - left. unfold onStore. now destruct (updateInvoice i l t n (store b)).
  - left. unfold issueInvoice.
    destruct (findInvoice i (store b)) as [x|]; [|reflexivity].
    now destruct (ShipperInvoice.status x).
  - unfold markAsPaid.
    destruct (findInvoice i (store b)) as [x|] eqn:Hx; [|now left].
    destruct (ShipperInvoice.status x); try (now left);
      destruct paidAt; try (now left); simpl;
      (destruct (findFirst _ (shipperClient (store b))); [|now left]);
      right; exists now, i, pm, pr;
      [exists NoDate|exists (ValidDate d)|exists NoDate|exists (ValidDate d)
      |exists NoDate|exists (ValidDate d)];
      exists x; repeat split; try reflexivity; exact Hx.
  - left. unfold onStore. now destruct (cancelInvoice i r (store b)).
Qed.

(** X19.  An invoice is charged against the balance of its client at
    most once: in any sequence of update, issue, mark-as-paid and cancel
    calls at most one mark-as-paid of a given invoice succeeds, and none
    does once the invoice is paid or cancelled.  Only a mark-as-paid that
    succeeds changes a balance, and it takes the total of the invoice, as
    [parseFloat] reads it, off the balance of the client of the invoice,
    leaving the balances of the other clients as they are. *)
Theorem invoice_is_charged_once :
  (forall calls b id, (payments id calls b <= 1)%nat)
  /\ (forall calls b id s,
      statusOf id b = Some s ->
      s = INV_PAID \/ s = INV_CANCELLED ->
      payments id calls b = 0%nat)
  /\ (forall c b,
      isSuccess (fst (call c b)) && existsb (fun id => paymentOf id c)
                                      (map ShipperInvoice.id
                                         (shipperInvoice (store b)))
      = false ->
      clientBalance (snd (call c b)) = clientBalance b)
  /\ (forall now id pm pr paidAt b invoice,
      findInvoice id (store b) = Some invoice ->
      isSuccess (fst (markAsPaid now id pm pr paidAt b)) = true ->
      let paid := snd (markAsPaid now id pm pr paidAt b) in
      takenOff (ShipperInvoice.shipperClientId invoice) paid
      = (takenOff (ShipperInvoice.shipperClientId invoice) b
         ++ [Js.parseFloat (ShipperInvoice.total invoice)])%list
      /\ (forall client,
          client <> ShipperInvoice.shipperClientId invoice ->
          takenOff client paid = takenOff client b)).
Proof.
  split; [|split; [|split]].
  - induction calls as [|c calls IH]; intros b id; simpl; [lia|].
    destruct (paymentOf id c && isSuccess (fst (call c b))) eqn:Hpay.
    + apply andb_true_iff in Hpay. destruct Hpay as [Hc Hok].
      destruct c as [i l t n|now i|now i pm pr paidAt|i r]; simpl in Hc;
        try discriminate.
      apply String.eqb_eq in Hc. subst i. simpl in Hok.
      pose proof (markAsPaid_paid now id pm pr paidAt b Hok) as Hpaid.
      simpl.
      rewrite (payments_closed calls _ id INV_PAID Hpaid (or_introl eq_refl)).
      lia.
    + specialize (IH (snd (call c b)) id). lia.
  - intros calls b id s Hs Hc. now apply (payments_closed calls b id s).
  - intros c b Hno.
    destruct (call_balance c b) as [Hsame|(now & id & pm & pr & paidAt & inv
                                           & Hc & Hfind & Hok & _)];
      [exact Hsame|].
    exfalso. rewrite Hok in Hno. simpl in Hno.
    apply findFirst_some in Hfind. destruct Hfind as [Hin Hid].
    apply String.eqb_eq in Hid.
    assert (Hex : existsb (fun id' => paymentOf id' c)
                    (map ShipperInvoice.id (shipperInvoice (store b)))
                  = true).
    { apply existsb_exists. exists id. split.
      - rewrite <- Hid. now apply in_map.
      - subst c. simpl. apply String.eqb_refl. }
    congruence.
  - intros now id pm pr paidAt b invoice Hfind Hok paid.
    pose proof (markAsPaid_balance now id pm pr paidAt b invoice Hfind Hok)
      as Hbal.
    fold paid in Hbal. unfold takenOff. rewrite Hbal. split.
    + rewrite (ReviewFacts.columnsOf_writeColumns _ ClientBalance.clientId
                 ClientBalance.blank (fun _ => eq_refl)) by reflexivity.
      now rewrite String.eqb_refl.
    + intros client Hne.
      rewrite (ReviewFacts.columnsOf_writeColumns _ ClientBalance.clientId
                 ClientBalance.blank (fun _ => eq_refl)) by reflexivity.
      apply String.eqb_neq in Hne. now rewrite Hne.
Qed.

Lemma invoice_is_charged_once_witness :
  (payments "I1"
     [MarkAsPaid 30 "I1" (Some "WIRE") None NoDate; Cancel "I1" None;
      MarkAsPaid 50 "I1" (Some "WIRE") None NoDate]
     (openBooks Sample.draftInvoice) <= 1)%nat
  /\ takenOff "SC1"
       (snd (markAsPaid 30 "I1" (Some "WIRE") None NoDate
               (openBooks Sample.draftInvoice)))
     = [1100%float].
Proof.
  destruct invoice_is_charged_once as [Honce [_ [_ Hcharge]]].
  split; [apply Honce|].
  assert (Hfind : findInvoice "I1" (store (openBooks Sample.draftInvoice))
                  = Some (ShipperInvoice.mk "I1" "SC1" "L1" "INV-2026-0001"
                            1000%float 100%float 1100%float INV_DRAFT None
                            1296000000))
    by (vm_compute; reflexivity).
  assert (Hok : isSuccess
                  (fst (markAsPaid 30 "I1" (Some "WIRE") None NoDate
                          (openBooks Sample.draftInvoice))) = true)
    by (vm_compute; reflexivity).
  destruct (Hcharge 30 "I1" (Some "WIRE") None NoDate
              (openBooks Sample.draftInvoice) _ Hfind Hok) as [Htaken _].
  exact Htaken.
Defined.

End CollectionFacts.

(** ** What the listings show to whom *)

Module ListingFacts.
Import AuthMiddleware Listings Scope.

Section WithPrisma.
Variable parseInt : string -> option Z.
Variable window : forall A : Type, option Z -> option Z -> list A ->
                                   option (list A).
Variable equipmentIs : string -> option (Load.t -> bool).
Variable mentions : string -> Load.t -> bool.

(** [skip] and [take] only choose among the matches. *)
Hypothesis window_incl :
  forall (A : Type) skip take (rows shown : list A),
    window A skip take rows = Some shown -> incl shown rows.

Local Abbreviation getAllLoads :=
  (getAllLoads parseInt window equipmentIs mentions).
Local Abbreviation getAllSettlements := (getAllSettlements parseInt window).
Local Abbreviation loadFilter := (loadFilter equipmentIs mentions).

Lemma findMany_fewer (A : Type) (f g : A -> bool) rows :
  (forall r, f r = true -> g r = true) ->
  (List.length (findMany f rows) <= List.length (findMany g rows))%nat.
Proof.
  intros Hfg. unfold findMany.
  induction rows as [|r rows IH]; simpl; [lia|].
  destruct (f r) eqn:Hf.
  - rewrite (Hfg r Hf). simpl. lia.
  - destruct (g r); simpl; lia.
Qed.

(** A page shows matches only, and counts all of them. *)
Lemma paginate_shown (A : Type) page limit (f : A -> bool) rows p :
  paginate parseInt window page limit (Some (findMany f rows)) = inr p ->
  (forall r, In r (data p) -> In r rows /\ f r = true)
  /\ total p = List.length (findMany f rows).
Proof.
  unfold paginate.
  destruct (window A _ _ (rev (findMany f rows))) as [shown|] eqn:Hw;
    [|discriminate].
  intros H. inversion H; subst p. simpl. split; [|reflexivity].
  intros r Hr. apply (window_incl _ _ _ _ _ Hw) in Hr.
  apply in_rev in Hr. unfold findMany in Hr. now apply filter_In in Hr.
Qed.

Lemma getAllLoads_shown user q b p :
  getAllLoads user q b = inr p ->
  exists w f,
    loadWhere user q b = inr w
    /\ loadFilter w b = Some f
    /\ (forall l, In l (data p) -> In l (load (store b)) /\ f l = true)
    /\ total p = List.length (findMany f (load (store b))).
Proof.
  unfold Listings.getAllLoads.
  destruct (loadWhere user q b) as [e|w]; [discriminate|].
  fold (loadFilter w b).
  destruct (loadFilter w b) as [f|] eqn:Hf; [|discriminate]. simpl.
  intros H. exists w, f. split; [reflexivity|]. split; [exact Hf|].
  now apply paginate_shown in H.
Qed.

(** What a row that passes the filter of a [where] object satisfies. *)
Lemma loadFilter_passed w b f l :
  loadFilter w b = Some f ->
  f l = true ->
  deletedAt (Load.id l) b = None
  /\ equalsIf (LoadWhere.shipperClientId w) (Load.shipperClientId l) = true
  /\ match LoadWhere.assignedTo w with
     | Some d => assignedTo d (store b) l = true
     | None => True
     end.
Proof.
  unfold Listings.loadFilter.
  destruct (match LoadWhere.status w with Some _ => _ | None => _ end)
    as [statusOk|]; [|discriminate].
  destruct (match LoadWhere.equipmentType w with Some _ => _ | None => _ end)
    as [equipmentOk|]; [|discriminate].
  destruct (isDate _ && isDate _); [|discriminate].
  intros H. inversion H; subst f. clear H. intros H.
  repeat (apply andb_true_iff in H; destruct H as [H ?]).
  unfold deletedAt. split; [|split].
  - now destruct (LoadDeletion.deletedAt _).
  - assumption.
  - destruct (LoadWhere.assignedTo w); [assumption|exact I].
Qed.

(** X20.  What [getAllLoads] shows depends on the caller, but a shipper
    user can lift the restriction: left to itself the listing shows a
    shipper user loads of the user's own client only, and a driver loads
    assigned to the driver only, and never a deleted load; but a
    [shipperClientId] in the query replaces the shipper user's own client,
    so the user is shown exactly what an internal user is shown for the
    same query, the loads of the client named in it. *)
Theorem getAllLoads_scope :
  (forall user q b u p,
      userType user = SHIPPER_USER ->
      findShipperUser (userId user) (store b) = Some u ->
      given (LoadQuery.shipperClientId q) = None ->
      getAllLoads user q b = inr p ->
      Forall (fun l => Load.shipperClientId l = ShipperUser.shipperClientId u
                       /\ deletedAt (Load.id l) b = None)
             (data p))
  /\ (forall user q b p,
      userType user = DRIVER ->
      getAllLoads user q b = inr p ->
      Forall (fun l => assignedTo (userId user) (store b) l = true
                       /\ deletedAt (Load.id l) b = None)
             (data p))
  /\ (forall user staff q b u c,
      userType user = SHIPPER_USER ->
      findShipperUser (userId user) (store b) = Some u ->
      userType staff = INTERNAL_USER ->
      given (LoadQuery.shipperClientId q) = Some c ->
      getAllLoads user q b = getAllLoads staff q b
      /\ forall p,
          getAllLoads user q b = inr p ->
          Forall (fun l => Load.shipperClientId l = c) (data p)).
Proof.
  split; [|split].
  - intros user q b u p Ht Hu Hq Hp.
    destruct (getAllLoads_shown user q b p Hp) as (w & f & Hw & Hf & Hin & _).
    unfold loadWhere in Hw. rewrite Ht, Hu, Hq in Hw.
    inversion Hw; subst w. clear Hw.
    apply Forall_forall. intros l Hl. destruct (Hin l Hl) as [_ Hpass].
    destruct (loadFilter_passed _ b f l Hf Hpass) as [Hdel [Hclient _]].
    simpl in Hclient. apply String.eqb_eq in Hclient. now split.
  - intros user q b p Ht Hp.
    destruct (getAllLoads_shown user q b p Hp) as (w & f & Hw & Hf & Hin & _).
    unfold loadWhere in Hw. rewrite Ht in Hw.
    inversion Hw; subst w. clear Hw.
    apply Forall_forall. intros l Hl. destruct (Hin l Hl) as [_ Hpass].
    destruct (loadFilter_passed _ b f l Hf Hpass) as [Hdel [_ Hdriver]].
    simpl in Hdriver. now split.
  - intros user staff q b u c Ht Hu Hs Hq.
    assert (Hsame : loadWhere user q b = loadWhere staff q b).
    { unfold loadWhere. now rewrite Ht, Hu, Hs, Hq. }
    split.
    + unfold Listings.getAllLoads. now rewrite Hsame.
    + intros p Hp.
      destruct (getAllLoads_shown user q b p Hp)
        as (w & f & Hw & Hf & Hin & _).
      unfold loadWhere in Hw. rewrite Ht, Hu, Hq in Hw.
      inversion Hw; subst w. clear Hw.
      apply Forall_forall. intros l Hl. destruct (Hin l Hl) as [_ Hpass].
      destruct (loadFilter_passed _ b f l Hf Hpass) as [_ [Hclient _]].
      simpl in Hclient. now apply String.eqb_eq in Hclient.
Qed.

(** X21.  [getAllSettlements] shows a driver the driver's own settlements
    only, whatever the query: a [driverId] in the query is ignored for a
    driver, every settlement shown belongs to the driver, and the total
    reported counts no settlement of anyone else. *)
Theorem getAllSettlements_scope :
  forall user q db,
    userType user = DRIVER ->
    (forall other,
        getAllSettlements user (SettlementQuery.setDriverId other q) db
        = getAllSettlements user q db)
    /\ (forall p,
        getAllSettlements user q db = inr p ->
        Forall (fun s => DriverSettlement.driverId s = userId user) (data p)
        /\ (total p
            <= List.length
                 (findMany (fun s => String.eqb (DriverSettlement.driverId s)
                                                (userId user))
                           (driverSettlement db)))%nat).
Proof.
  intros user q db Ht. split.
  - intros other. unfold Listings.getAllSettlements, settlementWhere.
    now rewrite Ht.
  - intros p. unfold Listings.getAllSettlements, settlementWhere,
      settlementFilter. rewrite Ht. simpl.
    destruct (match given (SettlementQuery.status q) with
              | Some _ => _ | None => _ end) as [statusOk|]; [|discriminate].
    destruct (isDate _ && isDate _); [|discriminate]. simpl.
    intros Hp. apply paginate_shown in Hp. destruct Hp as [Hin Htotal].
    split.
    + apply Forall_forall. intros s Hs. destruct (Hin s Hs) as [_ Hpass].
      repeat (apply andb_true_iff in Hpass; destruct Hpass as [Hpass ?]).
      now apply String.eqb_eq in Hpass.
    + rewrite Htotal. apply findMany_fewer. intros s Hs.
      repeat (apply andb_true_iff in Hs; destruct Hs as [Hs ?]).
      exact Hs.
Qed.

(** X22.  Deleting a load only hides it: [deleteLoad] is refused for a
    load that is neither [DRAFT] nor [CANCELLED] (400, nothing written);
    for a draft or cancelled load it succeeds, records the time of
    deletion and leaves every table of the store as it was.  From then on
    no listing shows the load, to whatever caller and query; but the load
    is still found by every handler that looks it up, so a deleted draft
    can still be submitted for review, and it can be deleted again. *)
Theorem deleteLoad_only_hides :
  forall now id b l,
    LoadController.findLoad id (store b) = Some l ->
    (Load.status l <> DRAFT -> Load.status l <> CANCELLED ->
     deleteLoad now id b
     = (ApiError "Load cannot be deleted in current status" 400, b))
    /\ (Load.status l = DRAFT \/ Load.status l = CANCELLED ->
        let deleted := snd (deleteLoad now id b) in
        fst (deleteLoad now id b) = ApiSuccess "Load deleted successfully" 200
        /\ store deleted = store b
        /\ deletedAt id deleted = Some now
        /\ (forall user q, ~ In id (shown (getAllLoads user q deleted)))
        /\ (forall user,
            Load.status l = DRAFT ->
            fst (LoadController.submitLoad user id (store deleted))
            = ApiSuccess "Load submitted for review" 200)
        /\ (forall now',
            fst (deleteLoad now' id deleted)
            = ApiSuccess "Load deleted successfully" 200
            /\ deletedAt id (snd (deleteLoad now' id deleted)) = Some now')).
Proof.
  intros now id b l Hl. split.
  - intros Hd Hc. unfold deleteLoad. rewrite Hl.
    destruct (Load.status l); try reflexivity; congruence.
  - intros Hs deleted.
    assert (Hrun : forall t b',
               LoadController.findLoad id (store b') = Some l ->
               deleteLoad t id b'
               = (ApiSuccess "Load deleted successfully" 200,
                  withLoadDeletion
                    (writeColumns LoadDeletion.loadId LoadDeletion.blank id
                       (LoadDeletion.delete t) (loadDeletion b')) b')).
    { intros t b' Hl'. unfold deleteLoad. rewrite Hl'.
      destruct Hs as [-> | ->]; reflexivity. }
    assert (Hat : forall t b',
               deletedAt id
                 (withLoadDeletion
                    (writeColumns LoadDeletion.loadId LoadDeletion.blank id
                       (LoadDeletion.delete t) (loadDeletion b')) b')
               = Some t).
    { intros t b'. unfold deletedAt. simpl.
      rewrite (ReviewFacts.columnsOf_writeColumns _ LoadDeletion.loadId
                 LoadDeletion.blank (fun _ => eq_refl)) by reflexivity.
      now rewrite String.eqb_refl. }
    subst deleted. rewrite (Hrun now b Hl). simpl fst. simpl snd.
    split; [reflexivity|]. split; [reflexivity|]. split; [apply Hat|].
    split; [|split].
    + intros user q Hin. unfold shown in Hin.
      destruct (getAllLoads user q _) as [e|p] eqn:Hp; [destruct Hin|].
      apply in_map_iff in Hin. destruct Hin as (x & Hx & Hxin).
      destruct (getAllLoads_shown _ _ _ _ Hp) as (w & f & _ & Hf & Hshown & _).
      destruct (Hshown x Hxin) as [_ Hpass].
      destruct (loadFilter_passed _ _ f x Hf Hpass) as [Hdel _].
      rewrite Hx, Hat in Hdel. discriminate.
    + intros user Hdraft. simpl store.
      unfold LoadController.submitLoad. now rewrite Hl, Hdraft.
    + intros now'.
      match goal with
      | |- context [deleteLoad now' id ?b'] =>
          rewrite (Hrun now' b' Hl)
      end.
      simpl fst. simpl snd. split; [reflexivity|apply Hat].
Qed.

End WithPrisma.

Lemma window_shows_matches (A : Type) skip take (rows shown : list A) :
  @Samples.window A skip take rows = Some shown -> incl shown rows.
Proof.
  unfold Samples.window. destruct skip as [s|]; [|discriminate].
  destruct take as [t|]; [|discriminate].
  destruct ((0 <=? s) && (0 <=? t)); [|discriminate].
  intros H. inversion H; subst shown. intros x Hx.
  rewrite <- (firstn_skipn (Z.to_nat s) rows). apply in_or_app. right.
  rewrite <- (firstn_skipn (Z.to_nat t) (skipn (Z.to_nat s) rows)).
  apply in_or_app. now left.
Qed.

Lemma getAllLoads_scope_witness :
  shown (getAllLoads Samples.parseInt (@Samples.window) Samples.equipmentIs
           Samples.mentions (mkUser "S2" SHIPPER_USER)
           (LoadQuery.setShipperClientId (Some "SC1") Samples.anyLoad)
           (openBooks Samples.drafts))
  = ["L1"].
Proof.
  destruct (getAllLoads_scope Samples.parseInt (@Samples.window)
              Samples.equipmentIs Samples.mentions window_shows_matches)
    as [_ [_ Hlifted]].
  destruct (Hlifted (mkUser "S2" SHIPPER_USER) Sample.dispatcher
              (LoadQuery.setShipperClientId (Some "SC1") Samples.anyLoad)
              (openBooks Samples.drafts)
              (ShipperUser.mk
                 (Account.mk "S2" "tess@example.com" "hash-of-secret" true 0
                    None None) "SC2")
              "SC1" eq_refl eq_refl eq_refl eq_refl) as [Hsame _].
  rewrite Hsame. vm_compute. reflexivity.
Defined.

Lemma getAllSettlements_scope_witness :
  getAllSettlements Samples.parseInt (@Samples.window) (mkUser "D2" DRIVER)
    (SettlementQuery.setDriverId (Some "D1") Samples.anySettlement)
    (store Samples.settled)
  = getAllSettlements Samples.parseInt (@Samples.window) (mkUser "D2" DRIVER)
      Samples.anySettlement (store Samples.settled).
Proof.
  destruct (getAllSettlements_scope Samples.parseInt (@Samples.window)
              window_shows_matches (mkUser "D2" DRIVER) Samples.anySettlement
              (store Samples.settled) eq_refl) as [Hignored _].
  apply Hignored.
Defined.

Lemma deleteLoad_only_hides_witness :
  shown (getAllLoads Samples.parseInt (@Samples.window) Samples.equipmentIs
           Samples.mentions (mkUser "S1" SHIPPER_USER) Samples.anyLoad
           (snd (deleteLoad 77 "L1" (openBooks Samples.drafts))))
  = []
  /\ fst (LoadController.submitLoad (mkUser "S1" SHIPPER_USER) "L1"
            (store (snd (deleteLoad 77 "L1" (openBooks Samples.drafts)))))
     = ApiSuccess "Load submitted for review" 200.
Proof.
  destruct (deleteLoad_only_hides Samples.parseInt (@Samples.window)
              Samples.equipmentIs Samples.mentions window_shows_matches
              77 "L1" (openBooks Samples.drafts) (Sample.loadIn DRAFT)
              eq_refl) as [_ Hdeleted].
  destruct (Hdeleted (or_introl eq_refl)) as [_ [_ [_ [_ [Hsubmit _]]]]].
  split; [vm_compute; reflexivity|].
  apply Hsubmit. reflexivity.
Defined.

End ListingFacts.

(** ** Change of password *)

Module CredentialFacts.
Import AuthController Lockout Passwords Credentials.

Section Principals.
Variable Row : Type.
Variable table : DB -> list Row.
Variable withTable : list Row -> DB -> DB.
Variable account : Row -> Account.t.
Variable onAccount : (Account.t -> Account.t) -> Row -> Row.
Variable precheck : Row -> DB -> option Response.
Variable bcryptCompare : string -> string -> bool.

Hypothesis table_withTable : forall rows db, table (withTable rows db) = rows.
Hypothesis account_onAccount :
  forall f r, account (onAccount f r) = f (account r).
Hypothesis precheck_stable :
  forall f r rows db,
    precheck (onAccount f r) (withTable rows db) = precheck r db.

Local Abbreviation lookupRow := (lookupRow table account).
Local Abbreviation accountOf := (accountOf table account).
Local Abbreviation eligible := (eligible table account precheck).
Local Abbreviation ready := (ready table account precheck).
Local Abbreviation login :=
  (loginWith table withTable account onAccount precheck bcryptCompare).

Local Abbreviation renewed :=
  (renewed table withTable account onAccount).

Lemma renewed_row email db r hash :
  lookupRow email db = Some r ->
  lookupRow email (renewed hash r db)
  = Some (onAccount (setPasswordHash hash) r).
Proof.
  intros Hr. unfold Credentials.renewed.
  apply (LockoutFacts.lookupRow_update Row table withTable account onAccount
           table_withTable account_onAccount);
    [reflexivity|exact Hr].
Qed.

Lemma renewed_account email db r hash :
  lookupRow email db = Some r ->
  accountOf email (renewed hash r db)
  = Some (setPasswordHash hash (account r)).
Proof.
  intros Hr. unfold Lockout.accountOf. rewrite (renewed_row _ _ _ hash Hr). simpl.
  now rewrite account_onAccount.
Qed.

Lemma renewed_ready email db r hash :
  lookupRow email db = Some r ->
  eligible email db = true ->
  ready email (renewed hash r db) (setPasswordHash hash (account r)).
Proof.
  intros Hr He. unfold Lockout.eligible in He. rewrite Hr in He.
  apply andb_true_iff in He. destruct He as [Hact Hpre].
  exists (onAccount (setPasswordHash hash) r). repeat split.
  - apply renewed_row, Hr.
  - apply account_onAccount.
  - exact Hact.
  - unfold Credentials.renewed. rewrite precheck_stable.
    now destruct (precheck r db).
Qed.

(** A login after the change is decided by the new hash. *)
Lemma renewed_login email db r hash later password :
  lookupRow email db = Some r ->
  eligible email db = true ->
  isLocked later (account r) = false ->
  fst (login later email password (renewed hash r db))
  = if bcryptCompare password hash then loginSuccessful
    else invalidCredentials.
Proof.
  intros Hr He Hlock.
  pose proof (renewed_ready _ _ _ hash Hr He) as Hready.
  destruct (bcryptCompare password hash) eqn:Hpw.
  - apply (LockoutFacts.successful_login Row table withTable account onAccount
             precheck bcryptCompare table_withTable account_onAccount
             later email password _ _ Hready); [exact Hlock|exact Hpw].
  - destruct (LockoutFacts.failed_check Row table withTable account onAccount
                precheck bcryptCompare table_withTable account_onAccount
                precheck_stable later email password _ _ Hready Hlock Hpw)
      as (db' & Hlogin & _).
    now rewrite Hlogin.
Qed.

End Principals.

(** The first two checks pass for a current password that is not empty
    and a new one of eight characters or more. *)
Lemma passwords_given (current new : string) :
  current <> EmptyString ->
  (8 <= String.length new)%nat ->
  Js.orElse (Some current) None = Some current
  /\ Js.orElse (Some new) None = Some new
  /\ (String.length new <? 8)%nat = false.
Proof.
  intros Hc Hn. repeat split.
  - destruct current; [contradiction|reflexivity].
  - destruct new; [simpl in Hn; lia|reflexivity].
  - apply Nat.ltb_ge. exact Hn.
Qed.

Lemma stamp_written id now rows :
  PasswordStamp.passwordUpdatedAt
    (columnsOf PasswordStamp.id PasswordStamp.blank id
       (writeColumns PasswordStamp.id PasswordStamp.blank id
          (PasswordStamp.stamp now) rows))
  = Some now.
Proof.
  rewrite (ReviewFacts.columnsOf_writeColumns _ PasswordStamp.id
             PasswordStamp.blank (fun _ => eq_refl)) by reflexivity.
  now rewrite String.eqb_refl.
Qed.

Ltac change_accepted Hrow Hpw :=
  unfold request, changePassword;
  match goal with
  | Hc : _ <> EmptyString, Hn : (8 <= _)%nat |- _ =>
      destruct (passwords_given _ _ Hc Hn) as (-> & -> & ->)
  end;
  cbn [userType userId]; unfold rowOf in Hrow; rewrite Hrow;
  unfold renew; rewrite Hpw; cbn [negb].



End CredentialFacts.
